(** * aws_mlops_session: the SDK doctor and the abalone preprocessor

    A shallow embedding of the two scripts of the repository,

      - [fix_sagemaker_workflow_import.py]            (module [Doctor])
      - [seedcode/pipelines/abalone/preprocess.py]    (module [Preprocess])

    Both scripts are straight-line Python that talks to the outside world
    (imports, pip, S3, pandas, scikit-learn, the feature store).  The
    embedding keeps the control flow of the source -- [try]/[except],
    early [return], the order of the calls -- in a small monad of traces
    and outcomes, and takes what the outside world answers from a record
    of oracles (a [world]).  Pure library operations whose meaning the
    properties depend on ([str.split], [int], [str.lower], [in],
    [np.split], the binary64 product [0.7 * n], pandas column assignment)
    are written out as executable functions; what [int] and [repr] take
    from the interpreter (its Unicode database, its limit on the digits
    of an integer string) is a record of its own, with the tables of
    CPython 3.11 as an instance. *)

From Stdlib Require Import ZArith List String Ascii Bool Lia Permutation.
From Stdlib Require Import DecimalString DecimalZ.
From Stdlib Require Import Floats Uint63.
Import ListNotations.

Open Scope string_scope.
Open Scope Z_scope.

(* ================================================================== *)
(** * Python values and control flow *)
(* ================================================================== *)

Module Py.

(** ** Strings *)

Definition chr (n : nat) : string := String (ascii_of_nat n) EmptyString.

(** The line feed of ["\n"] in the source's literals. *)
Definition nl : string := chr 10.

(** [s * n] *)
Fixpoint str_mul (s : string) (n : nat) : string :=
  match n with
  | O => ""
  | S k => s ++ str_mul s k
  end.

Definition in_range (lo hi : nat) (c : ascii) : bool :=
  let n := nat_of_ascii c in (lo <=? n)%nat && (n <=? hi)%nat.

Definition lower_char (c : ascii) : ascii :=
  if in_range 65 90 c then ascii_of_nat (nat_of_ascii c + 32) else c.

(** [s.lower()] on the ASCII letters; other bytes are kept.  Python
    lowers the letters outside ASCII as well.  Only two of them give an
    ASCII letter: the Kelvin sign gives [k], and the capital I with a
    dot gives [i] with a combining dot after it.  So whether
    [s.lower()] is ["true"], and whether ["already exists"] is in
    [s.lower()] (no [k] in it, and a letter after its [i]), is decided
    by the ASCII letters of [s], which is what this function lowers. *)
Fixpoint lower (s : string) : string :=
  match s with
  | EmptyString => EmptyString
  | String c t => String (lower_char c) (lower t)
  end.

(** Two characters that are the same up to the case of an ASCII letter:
    the same character, or a capital letter and its small one.  This is
    what [case-insensitively] asks for, said without [lower]. *)
Definition same_letter (c d : ascii) : bool :=
  let m := nat_of_ascii c in
  let n := nat_of_ascii d in
  (m =? n)%nat ||
  (in_range 65 90 c && (n =? m + 32)%nat) ||
  (in_range 65 90 d && (m =? n + 32)%nat).

(** Two strings that are the same up to the case of their ASCII
    letters. *)
Fixpoint same_ignoring_case (s t : string) : bool :=
  match s, t with
  | EmptyString, EmptyString => true
  | String c s', String d t' => same_letter c d && same_ignoring_case s' t'
  | _, _ => false
  end.

(** A text without capital letters. *)
Fixpoint no_capital (s : string) : bool :=
  match s with
  | EmptyString => true
  | String c t => negb (in_range 65 90 c) && no_capital t
  end.

(** [pat in s]: [pat] occurs in [s] as a contiguous substring. *)
Fixpoint contains (pat s : string) : bool :=
  String.prefix pat s ||
  match s with
  | EmptyString => false
  | String _ t => contains pat t
  end.

(** [s.split(sep)] for a one-character separator: every occurrence
    splits, empty pieces are kept, and the result is never empty. *)
Fixpoint split (sep : ascii) (s : string) : list string :=
  match s with
  | EmptyString => [EmptyString]
  | String c t =>
      if Ascii.eqb c sep then EmptyString :: split sep t
      else match split sep t with
           | h :: r => String c h :: r
           | [] => [String c EmptyString]
           end
  end.

(** [sep.join(parts)] *)
Fixpoint join (sep : string) (parts : list string) : string :=
  match parts with
  | [] => ""
  | [p] => p
  | p :: r => p ++ sep ++ join sep r
  end.

(** A string is true when it is not empty. *)
Definition truthy (s : string) : bool :=
  match s with EmptyString => false | _ => true end.

(** Truth of an optional string ([None] and [""] are false). *)
Definition truthy_opt (o : option string) : bool :=
  match o with Some s => truthy s | None => false end.

(** The string behind an optional string that is known to be there. *)
Definition the (o : option string) : string :=
  match o with Some s => s | None => EmptyString end.

(** [a or b] on optional strings: [a] when it is true, else [b]. *)
Definition or_else (a b : option string) : option string :=
  if truthy_opt a then a else b.

(** ** Code points *)

(** A [str] is kept as the bytes of its UTF-8 encoding.  [split], [in]
    and [+] on the bytes are the operations on the code points: the
    encoding of one code point never lies across the encodings of
    others. *)

Definition byte_of (c : ascii) : Z := Z.of_nat (nat_of_ascii c).

Definition char_of (n : Z) : ascii := ascii_of_nat (Z.to_nat n).

(** Stands for bytes that encode nothing (no [str] has such bytes). *)
Definition replacement : Z := 65533.

(** [pending] continuation bytes are still to come for the code point
    whose bits so far are [acc]. *)
Fixpoint decode (pending : nat) (acc : Z) (s : string) : list Z :=
  match s with
  | EmptyString => match pending with O => [] | S _ => [replacement] end
  | String c t =>
      let b := byte_of c in
      match pending with
      | O =>
          if b <? 128 then b :: decode 0 0 t
          else if b <? 192 then replacement :: decode 0 0 t
          else if b <? 224 then decode 1 (b - 192) t
          else if b <? 240 then decode 2 (b - 224) t
          else if b <? 248 then decode 3 (b - 240) t
          else replacement :: decode 0 0 t
      | S k =>
          if (128 <=? b) && (b <? 192) then
            match k with
            | O => (acc * 64 + (b - 128)) :: decode 0 0 t
            | S _ => decode k (acc * 64 + (b - 128)) t
            end
          else replacement :: decode 0 0 t
      end
  end.

(** The code points of a [str]. *)
Definition code_points (s : string) : list Z := decode 0 0 s.

Definition encode (ch : Z) : string :=
  if ch <? 128 then String (char_of ch) EmptyString
  else if ch <? 2048 then
    String (char_of (192 + ch / 64)) (String (char_of (128 + ch mod 64)) EmptyString)
  else if ch <? 65536 then
    String (char_of (224 + ch / 4096))
      (String (char_of (128 + (ch / 64) mod 64))
         (String (char_of (128 + ch mod 64)) EmptyString))
  else
    String (char_of (240 + ch / 262144))
      (String (char_of (128 + (ch / 4096) mod 64))
         (String (char_of (128 + (ch / 64) mod 64))
            (String (char_of (128 + ch mod 64)) EmptyString))).

(** The [str] of a list of code points. *)
Definition of_code_points (cps : list Z) : string := String.concat "" (map encode cps).

(** ** The interpreter *)

(** What [int] and [repr] take from the interpreter that runs a script:
    its Unicode database, which they consult for code points from 127
    on, and its limit on the digits of an integer string
    ([sys.get_int_max_str_digits()]; 0 when there is none). *)
Record interpreter : Type := mk_interpreter {
  isspace : Z -> bool;            (* Py_UNICODE_ISSPACE *)
  todecimal : Z -> option Z;      (* Py_UNICODE_TODECIMAL *)
  isprintable : Z -> bool;        (* Py_UNICODE_ISPRINTABLE *)
  int_max_str_digits : Z
}.

(** ** [int(s)] and [str(n)] *)

(** [Py_ISSPACE]: the white space [PyLong_FromString] skips before the
    sign and after the digits. *)
Definition is_space (c : ascii) : bool := in_range 9 13 c || Ascii.eqb c " "%char.

Fixpoint lstrip (s : string) : string :=
  match s with
  | EmptyString => EmptyString
  | String c t => if is_space c then lstrip t else s
  end.

Definition digit_of (c : ascii) : option Z :=
  if in_range 48 57 c then Some (Z.of_nat (nat_of_ascii c - 48)) else None.

(** [_PyUnicode_TransformDecimalAndSpaceToASCII]: a code point below 127
    stays, a space of the database becomes a blank and a decimal digit
    of the database its ASCII digit; at the first code point that is
    none of these the buffer ends, in a question mark. *)
Fixpoint to_ascii (py : interpreter) (cps : list Z) : string :=
  match cps with
  | [] => EmptyString
  | ch :: rest =>
      if ch <? 127 then String (char_of ch) (to_ascii py rest)
      else if isspace py ch then String " "%char (to_ascii py rest)
      else match todecimal py ch with
           | Some d => String (char_of (48 + d)) (to_ascii py rest)
           | None => "?"
           end
  end.

(** The digits of [PyLong_FromString] in base 10, where one underscore
    may stand between two digits: their value, how many they are, and
    what comes after them.  [None] for two underscores in a row and for
    an underscore after the last digit. *)
Fixpoint scan_digits (acc digits : Z) (prev_underscore : bool) (s : string)
  : option (Z * Z * string) :=
  match s with
  | EmptyString => if prev_underscore then None else Some (acc, digits, s)
  | String c t =>
      match digit_of c with
      | Some d => scan_digits (acc * 10 + d) (digits + 1) false t
      | None =>
          if Ascii.eqb c "_"%char then
            if prev_underscore then None else scan_digits acc digits true t
          else if prev_underscore then None else Some (acc, digits, s)
      end
  end.

(** How [int(s)] ends: with a value, or with one of two [ValueError]s. *)
Inductive int_result : Type :=
  | IntValue (n : Z)
  | IntInvalid                    (* invalid literal for int() with base 10 *)
  | IntTooLong (digits : Z).      (* Exceeds the limit for integer string conversion *)

(** [PyLong_FromString(buffer, &end, 10)], with the test of
    [PyLong_FromUnicodeObject] that the whole buffer was read.  The
    limit applies to more than 640 digits only, and is looked at before
    what follows the digits. *)
Definition long_from_string (max_str_digits : Z) (buffer : string) : int_result :=
  let s := lstrip buffer in
  let '(negative, s) :=
    match s with
    | String "+"%char t => (false, t)
    | String "-"%char t => (true, t)
    | _ => (false, s)
    end in
  match s with
  | String "_"%char _ => IntInvalid
  | _ =>
      match scan_digits 0 0 false s with
      | None => IntInvalid
      | Some (n, digits, rest) =>
          if (640 <? digits) && (0 <? max_str_digits) && (max_str_digits <? digits)
          then IntTooLong digits
          else if digits =? 0 then IntInvalid
          else match lstrip rest with
               | EmptyString => IntValue (if negative then - n else n)
               | _ => IntInvalid
               end
      end
  end.

(** [int(s)] for a [str]. *)
Definition int_result_of (py : interpreter) (s : string) : int_result :=
  long_from_string (int_max_str_digits py) (to_ascii py (code_points s)).

(** The value of [int(s)]; [None] is [ValueError]. *)
Definition int_of_str (py : interpreter) (s : string) : option Z :=
  match int_result_of py s with
  | IntValue n => Some n
  | _ => None
  end.

(** [str(n)] *)
Definition str_of_int (n : Z) : string := NilZero.string_of_int (Z.to_int n).

(** ** [repr(s)] *)

Definition hex_digit (n : Z) : Z := if n <? 10 then 48 + n else 87 + n.

(** [width] hexadecimal digits of [n], in lower case. *)
Fixpoint hex (width : nat) (n : Z) : list Z :=
  match width with
  | O => []
  | S k => (hex k (n / 16) ++ [hex_digit (n mod 16)])%list
  end.

(** One code point of [unicode_repr]: the quote in use and the backslash
    get a backslash, tab, line feed and carriage return their letter,
    the other ASCII controls and what the database does not call
    printable an escape in hexadecimal. *)
Definition repr_char (py : interpreter) (quote ch : Z) : list Z :=
  if (ch =? quote) || (ch =? 92) then [92; ch]
  else if ch =? 9 then [92; 116]
  else if ch =? 10 then [92; 110]
  else if ch =? 13 then [92; 114]
  else if (ch <? 32) || (ch =? 127) then 92 :: 120 :: hex 2 ch
  else if ch <? 127 then [ch]
  else if isprintable py ch then [ch]
  else if ch <=? 255 then 92 :: 120 :: hex 2 ch
  else if ch <=? 65535 then 92 :: 117 :: hex 4 ch
  else 92 :: 85 :: hex 8 ch.

(** Double quotes are used when the string has a single quote and no
    double quote. *)
Definition repr_code_points (py : interpreter) (cps : list Z) : list Z :=
  let quote := if existsb (Z.eqb 39) cps && negb (existsb (Z.eqb 34) cps)
               then 34 else 39 in
  (quote :: flat_map (repr_char py quote) cps ++ [quote])%list.

Definition repr (py : interpreter) (s : string) : string :=
  of_code_points (repr_code_points py (code_points s)).

(** [%.200R] in a message: the first 200 code points of [repr(s)]. *)
Definition repr_200 (py : interpreter) (s : string) : string :=
  of_code_points (firstn 200 (repr_code_points py (code_points s))).

(** ** CPython 3.11 *)

(** The tables of Unicode 14.0.0 from 127 on: the code points of the
    decimal digits zero (nine more digits follow each), the ranges of
    the spaces, and the ranges of the printable code points. *)
Definition unicode_14_zeros : list Z :=
  [1632; 1776; 1984; 2406; 2534; 2662; 2790; 2918; 3046; 3174; 3302; 3430; 3558; 3664; 3792;
   3872; 4160; 4240; 6112; 6160; 6470; 6608; 6784; 6800; 6992; 7088; 7232; 7248; 42528;
   43216; 43264; 43472; 43504; 43600; 44016; 65296; 66720; 68912; 69734; 69872; 69942; 70096;
   70384; 70736; 70864; 71248; 71360; 71472; 71904; 72016; 72784; 73040; 73120; 92768; 92864;
   93008; 120782; 120792; 120802; 120812; 120822; 123200; 123632; 125264; 130032].

Definition unicode_14_spaces : list (Z * Z) :=
  [(133, 133); (160, 160); (5760, 5760); (8192, 8202); (8232, 8233); (8239, 8239);
   (8287, 8287); (12288, 12288)].

Definition unicode_14_printable : list (Z * Z) :=
  [(161, 172); (174, 887); (890, 895); (900, 906); (908, 908); (910, 929); (931, 1327);
   (1329, 1366); (1369, 1418); (1421, 1423); (1425, 1479); (1488, 1514); (1519, 1524);
   (1542, 1563); (1565, 1756); (1758, 1805); (1808, 1866); (1869, 1969); (1984, 2042);
   (2045, 2093); (2096, 2110); (2112, 2139); (2142, 2142); (2144, 2154); (2160, 2190);
   (2200, 2273); (2275, 2435); (2437, 2444); (2447, 2448); (2451, 2472); (2474, 2480);
   (2482, 2482); (2486, 2489); (2492, 2500); (2503, 2504); (2507, 2510); (2519, 2519);
   (2524, 2525); (2527, 2531); (2534, 2558); (2561, 2563); (2565, 2570); (2575, 2576);
   (2579, 2600); (2602, 2608); (2610, 2611); (2613, 2614); (2616, 2617); (2620, 2620);
   (2622, 2626); (2631, 2632); (2635, 2637); (2641, 2641); (2649, 2652); (2654, 2654);
   (2662, 2678); (2689, 2691); (2693, 2701); (2703, 2705); (2707, 2728); (2730, 2736);
   (2738, 2739); (2741, 2745); (2748, 2757); (2759, 2761); (2763, 2765); (2768, 2768);
   (2784, 2787); (2790, 2801); (2809, 2815); (2817, 2819); (2821, 2828); (2831, 2832);
   (2835, 2856); (2858, 2864); (2866, 2867); (2869, 2873); (2876, 2884); (2887, 2888);
   (2891, 2893); (2901, 2903); (2908, 2909); (2911, 2915); (2918, 2935); (2946, 2947);
   (2949, 2954); (2958, 2960); (2962, 2965); (2969, 2970); (2972, 2972); (2974, 2975);
   (2979, 2980); (2984, 2986); (2990, 3001); (3006, 3010); (3014, 3016); (3018, 3021);
   (3024, 3024); (3031, 3031); (3046, 3066); (3072, 3084); (3086, 3088); (3090, 3112);
   (3114, 3129); (3132, 3140); (3142, 3144); (3146, 3149); (3157, 3158); (3160, 3162);
   (3165, 3165); (3168, 3171); (3174, 3183); (3191, 3212); (3214, 3216); (3218, 3240);
   (3242, 3251); (3253, 3257); (3260, 3268); (3270, 3272); (3274, 3277); (3285, 3286);
   (3293, 3294); (3296, 3299); (3302, 3311); (3313, 3314); (3328, 3340); (3342, 3344);
   (3346, 3396); (3398, 3400); (3402, 3407); (3412, 3427); (3430, 3455); (3457, 3459);
   (3461, 3478); (3482, 3505); (3507, 3515); (3517, 3517); (3520, 3526); (3530, 3530);
   (3535, 3540); (3542, 3542); (3544, 3551); (3558, 3567); (3570, 3572); (3585, 3642);
   (3647, 3675); (3713, 3714); (3716, 3716); (3718, 3722); (3724, 3747); (3749, 3749);
   (3751, 3773); (3776, 3780); (3782, 3782); (3784, 3789); (3792, 3801); (3804, 3807);
   (3840, 3911); (3913, 3948); (3953, 3991); (3993, 4028); (4030, 4044); (4046, 4058);
   (4096, 4293); (4295, 4295); (4301, 4301); (4304, 4680); (4682, 4685); (4688, 4694);
   (4696, 4696); (4698, 4701); (4704, 4744); (4746, 4749); (4752, 4784); (4786, 4789);
   (4792, 4798); (4800, 4800); (4802, 4805); (4808, 4822); (4824, 4880); (4882, 4885);
   (4888, 4954); (4957, 4988); (4992, 5017); (5024, 5109); (5112, 5117); (5120, 5759);
   (5761, 5788); (5792, 5880); (5888, 5909); (5919, 5942); (5952, 5971); (5984, 5996);
   (5998, 6000); (6002, 6003); (6016, 6109); (6112, 6121); (6128, 6137); (6144, 6157);
   (6159, 6169); (6176, 6264); (6272, 6314); (6320, 6389); (6400, 6430); (6432, 6443);
   (6448, 6459); (6464, 6464); (6468, 6509); (6512, 6516); (6528, 6571); (6576, 6601);
   (6608, 6618); (6622, 6683); (6686, 6750); (6752, 6780); (6783, 6793); (6800, 6809);
   (6816, 6829); (6832, 6862); (6912, 6988); (6992, 7038); (7040, 7155); (7164, 7223);
   (7227, 7241); (7245, 7304); (7312, 7354); (7357, 7367); (7376, 7418); (7424, 7957);
   (7960, 7965); (7968, 8005); (8008, 8013); (8016, 8023); (8025, 8025); (8027, 8027);
   (8029, 8029); (8031, 8061); (8064, 8116); (8118, 8132); (8134, 8147); (8150, 8155);
   (8157, 8175); (8178, 8180); (8182, 8190); (8208, 8231); (8240, 8286); (8304, 8305);
   (8308, 8334); (8336, 8348); (8352, 8384); (8400, 8432); (8448, 8587); (8592, 9254);
   (9280, 9290); (9312, 11123); (11126, 11157); (11159, 11507); (11513, 11557);
   (11559, 11559); (11565, 11565); (11568, 11623); (11631, 11632); (11647, 11670);
   (11680, 11686); (11688, 11694); (11696, 11702); (11704, 11710); (11712, 11718);
   (11720, 11726); (11728, 11734); (11736, 11742); (11744, 11869); (11904, 11929);
   (11931, 12019); (12032, 12245); (12272, 12283); (12289, 12351); (12353, 12438);
   (12441, 12543); (12549, 12591); (12593, 12686); (12688, 12771); (12784, 12830);
   (12832, 42124); (42128, 42182); (42192, 42539); (42560, 42743); (42752, 42954);
   (42960, 42961); (42963, 42963); (42965, 42969); (42994, 43052); (43056, 43065);
   (43072, 43127); (43136, 43205); (43214, 43225); (43232, 43347); (43359, 43388);
   (43392, 43469); (43471, 43481); (43486, 43518); (43520, 43574); (43584, 43597);
   (43600, 43609); (43612, 43714); (43739, 43766); (43777, 43782); (43785, 43790);
   (43793, 43798); (43808, 43814); (43816, 43822); (43824, 43883); (43888, 44013);
   (44016, 44025); (44032, 55203); (55216, 55238); (55243, 55291); (63744, 64109);
   (64112, 64217); (64256, 64262); (64275, 64279); (64285, 64310); (64312, 64316);
   (64318, 64318); (64320, 64321); (64323, 64324); (64326, 64450); (64467, 64911);
   (64914, 64967); (64975, 64975); (65008, 65049); (65056, 65106); (65108, 65126);
   (65128, 65131); (65136, 65140); (65142, 65276); (65281, 65470); (65474, 65479);
   (65482, 65487); (65490, 65495); (65498, 65500); (65504, 65510); (65512, 65518);
   (65532, 65533); (65536, 65547); (65549, 65574); (65576, 65594); (65596, 65597);
   (65599, 65613); (65616, 65629); (65664, 65786); (65792, 65794); (65799, 65843);
   (65847, 65934); (65936, 65948); (65952, 65952); (66000, 66045); (66176, 66204);
   (66208, 66256); (66272, 66299); (66304, 66339); (66349, 66378); (66384, 66426);
   (66432, 66461); (66463, 66499); (66504, 66517); (66560, 66717); (66720, 66729);
   (66736, 66771); (66776, 66811); (66816, 66855); (66864, 66915); (66927, 66938);
   (66940, 66954); (66956, 66962); (66964, 66965); (66967, 66977); (66979, 66993);
   (66995, 67001); (67003, 67004); (67072, 67382); (67392, 67413); (67424, 67431);
   (67456, 67461); (67463, 67504); (67506, 67514); (67584, 67589); (67592, 67592);
   (67594, 67637); (67639, 67640); (67644, 67644); (67647, 67669); (67671, 67742);
   (67751, 67759); (67808, 67826); (67828, 67829); (67835, 67867); (67871, 67897);
   (67903, 67903); (67968, 68023); (68028, 68047); (68050, 68099); (68101, 68102);
   (68108, 68115); (68117, 68119); (68121, 68149); (68152, 68154); (68159, 68168);
   (68176, 68184); (68192, 68255); (68288, 68326); (68331, 68342); (68352, 68405);
   (68409, 68437); (68440, 68466); (68472, 68497); (68505, 68508); (68521, 68527);
   (68608, 68680); (68736, 68786); (68800, 68850); (68858, 68903); (68912, 68921);
   (69216, 69246); (69248, 69289); (69291, 69293); (69296, 69297); (69376, 69415);
   (69424, 69465); (69488, 69513); (69552, 69579); (69600, 69622); (69632, 69709);
   (69714, 69749); (69759, 69820); (69822, 69826); (69840, 69864); (69872, 69881);
   (69888, 69940); (69942, 69959); (69968, 70006); (70016, 70111); (70113, 70132);
   (70144, 70161); (70163, 70206); (70272, 70278); (70280, 70280); (70282, 70285);
   (70287, 70301); (70303, 70313); (70320, 70378); (70384, 70393); (70400, 70403);
   (70405, 70412); (70415, 70416); (70419, 70440); (70442, 70448); (70450, 70451);
   (70453, 70457); (70459, 70468); (70471, 70472); (70475, 70477); (70480, 70480);
   (70487, 70487); (70493, 70499); (70502, 70508); (70512, 70516); (70656, 70747);
   (70749, 70753); (70784, 70855); (70864, 70873); (71040, 71093); (71096, 71133);
   (71168, 71236); (71248, 71257); (71264, 71276); (71296, 71353); (71360, 71369);
   (71424, 71450); (71453, 71467); (71472, 71494); (71680, 71739); (71840, 71922);
   (71935, 71942); (71945, 71945); (71948, 71955); (71957, 71958); (71960, 71989);
   (71991, 71992); (71995, 72006); (72016, 72025); (72096, 72103); (72106, 72151);
   (72154, 72164); (72192, 72263); (72272, 72354); (72368, 72440); (72704, 72712);
   (72714, 72758); (72760, 72773); (72784, 72812); (72816, 72847); (72850, 72871);
   (72873, 72886); (72960, 72966); (72968, 72969); (72971, 73014); (73018, 73018);
   (73020, 73021); (73023, 73031); (73040, 73049); (73056, 73061); (73063, 73064);
   (73066, 73102); (73104, 73105); (73107, 73112); (73120, 73129); (73440, 73464);
   (73648, 73648); (73664, 73713); (73727, 74649); (74752, 74862); (74864, 74868);
   (74880, 75075); (77712, 77810); (77824, 78894); (82944, 83526); (92160, 92728);
   (92736, 92766); (92768, 92777); (92782, 92862); (92864, 92873); (92880, 92909);
   (92912, 92917); (92928, 92997); (93008, 93017); (93019, 93025); (93027, 93047);
   (93053, 93071); (93760, 93850); (93952, 94026); (94031, 94087); (94095, 94111);
   (94176, 94180); (94192, 94193); (94208, 100343); (100352, 101589); (101632, 101640);
   (110576, 110579); (110581, 110587); (110589, 110590); (110592, 110882); (110928, 110930);
   (110948, 110951); (110960, 111355); (113664, 113770); (113776, 113788); (113792, 113800);
   (113808, 113817); (113820, 113823); (118528, 118573); (118576, 118598); (118608, 118723);
   (118784, 119029); (119040, 119078); (119081, 119154); (119163, 119274); (119296, 119365);
   (119520, 119539); (119552, 119638); (119648, 119672); (119808, 119892); (119894, 119964);
   (119966, 119967); (119970, 119970); (119973, 119974); (119977, 119980); (119982, 119993);
   (119995, 119995); (119997, 120003); (120005, 120069); (120071, 120074); (120077, 120084);
   (120086, 120092); (120094, 120121); (120123, 120126); (120128, 120132); (120134, 120134);
   (120138, 120144); (120146, 120485); (120488, 120779); (120782, 121483); (121499, 121503);
   (121505, 121519); (122624, 122654); (122880, 122886); (122888, 122904); (122907, 122913);
   (122915, 122916); (122918, 122922); (123136, 123180); (123184, 123197); (123200, 123209);
   (123214, 123215); (123536, 123566); (123584, 123641); (123647, 123647); (124896, 124902);
   (124904, 124907); (124909, 124910); (124912, 124926); (124928, 125124); (125127, 125142);
   (125184, 125259); (125264, 125273); (125278, 125279); (126065, 126132); (126209, 126269);
   (126464, 126467); (126469, 126495); (126497, 126498); (126500, 126500); (126503, 126503);
   (126505, 126514); (126516, 126519); (126521, 126521); (126523, 126523); (126530, 126530);
   (126535, 126535); (126537, 126537); (126539, 126539); (126541, 126543); (126545, 126546);
   (126548, 126548); (126551, 126551); (126553, 126553); (126555, 126555); (126557, 126557);
   (126559, 126559); (126561, 126562); (126564, 126564); (126567, 126570); (126572, 126578);
   (126580, 126583); (126585, 126588); (126590, 126590); (126592, 126601); (126603, 126619);
   (126625, 126627); (126629, 126633); (126635, 126651); (126704, 126705); (126976, 127019);
   (127024, 127123); (127136, 127150); (127153, 127167); (127169, 127183); (127185, 127221);
   (127232, 127405); (127462, 127490); (127504, 127547); (127552, 127560); (127568, 127569);
   (127584, 127589); (127744, 128727); (128733, 128748); (128752, 128764); (128768, 128883);
   (128896, 128984); (128992, 129003); (129008, 129008); (129024, 129035); (129040, 129095);
   (129104, 129113); (129120, 129159); (129168, 129197); (129200, 129201); (129280, 129619);
   (129632, 129645); (129648, 129652); (129656, 129660); (129664, 129670); (129680, 129708);
   (129712, 129722); (129728, 129733); (129744, 129753); (129760, 129767); (129776, 129782);
   (129792, 129938); (129940, 129994); (130032, 130041); (131072, 173791); (173824, 177976);
   (177984, 178205); (178208, 183969); (183984, 191456); (194560, 195101); (196608, 201546);
   (917760, 917999)].

Definition in_ranges (ranges : list (Z * Z)) (ch : Z) : bool :=
  existsb (fun r => (fst r <=? ch) && (ch <=? snd r)) ranges.

Definition decimal_in (zeros : list Z) (ch : Z) : option Z :=
  match find (fun z => (z <=? ch) && (ch <? z + 10)) zeros with
  | Some z => Some (ch - z)
  | None => None
  end.

(** The interpreter of CPython 3.11, with the limit it starts with. *)
Definition cpython_3_11 : interpreter :=
  mk_interpreter (in_ranges unicode_14_spaces) (decimal_in unicode_14_zeros)
                 (in_ranges unicode_14_printable) 4300.

(** ** Exceptions *)

(** The classes the two scripts name in an [except] clause or can meet
    from the calls they make.  Each is a subclass of [Exception];
    [ModuleNotFoundError] is an [ImportError].  What is raised
    asynchronously outside [Exception] ([KeyboardInterrupt],
    [SystemExit]) is not a result of a call and is not modelled. *)
Inductive exn_class : Type :=
  | ImportError
  | ValueError
  | IndexError
  | KeyError
  | CalledProcessError
  | OtherException.

Record exn : Type := mk_exn { exn_cls : exn_class; exn_msg : string }.

Definition exn_class_eqb (a b : exn_class) : bool :=
  match a, b with
  | ImportError, ImportError
  | ValueError, ValueError
  | IndexError, IndexError
  | KeyError, KeyError
  | CalledProcessError, CalledProcessError
  | OtherException, OtherException => true
  | _, _ => false
  end.

(** [isinstance(e, cls)] for the classes above. *)
Definition is_a (cls : exn_class) (e : exn) : bool := exn_class_eqb (exn_cls e) cls.

(** ** Statements: a trace of events and an outcome *)

Section Monad.

(** [E]: the events a script leaves behind; [R]: what the enclosing
    function returns. *)
Context {E R : Type}.

(** How a block of statements ends: it falls through with a value, it
    executes [return r], or an exception is on its way up. *)
Inductive outcome (A : Type) : Type :=
  | Normal (a : A)
  | Returned (r : R)
  | Raised (e : exn).

Definition M (A : Type) : Type := (list E * outcome A)%type.

Definition ret {A} (a : A) : M A := ([], Normal A a).

Definition bind {A B} (m : M A) (k : A -> M B) : M B :=
  match m with
  | (t, Normal _ a) => let '(t', o) := k a in ((t ++ t')%list, o)
  | (t, Returned _ r) => (t, Returned B r)
  | (t, Raised _ e) => (t, Raised B e)
  end.

Definition emit (ev : E) : M unit := ([ev], Normal unit tt).

Definition raise {A} (e : exn) : M A := ([], Raised A e).

(** [return r] *)
Definition return_ {A} (r : R) : M A := ([], Returned A r).

(** [try: body except ...: handler].  [handler e] is the clause that
    matches [e], if one does; an exception no clause matches goes on.
    A [return] in the body leaves the [try] untouched. *)
Definition try_except {A} (body : M A) (handler : exn -> option (M A)) : M A :=
  match body with
  | (t, Raised _ e) =>
      match handler e with
      | Some h => let '(t', o) := h in ((t ++ t')%list, o)
      | None => (t, Raised A e)
      end
  | other => other
  end.

(** The result of an external call: [None] when it succeeds. *)
Definition check (r : option exn) : M unit :=
  match r with
  | None => ret tt
  | Some e => raise e
  end.

Definition value {A} (r : exn + A) : M A :=
  match r with
  | inl e => raise e
  | inr a => ret a
  end.

End Monad.

Arguments outcome : clear implicits.
Arguments M : clear implicits.
Arguments Normal {R A} a.
Arguments Returned {R A} r.
Arguments Raised {R A} e.

(** A function run to its end: [return r] and falling off the end with
    [dflt] (Python's [None]) both give a value, an exception leaves the
    function. *)
Definition run {E R} (body : M E R unit) (dflt : R) : list E * (exn + R) :=
  match body with
  | (t, Normal _) => (t, inr dflt)
  | (t, Returned r) => (t, inr r)
  | (t, Raised e) => (t, inl e)
  end.

(** The same function called from inside another one. *)
Definition call {E R R'} (body : M E R unit) (dflt : R) : M E R' R :=
  let '(t, r) := run body dflt in
  (t, match r with inl e => Raised e | inr v => Normal v end).

End Py.

Notation "x <- m ;; k" := (Py.bind m (fun x => k))
  (at level 61, m at next level, right associativity).
Notation "m ;; k" := (Py.bind m (fun _ => k))
  (at level 61, right associativity).

(* ================================================================== *)
(** * fix_sagemaker_workflow_import.py *)
(* ================================================================== *)

Module Doctor.

Import Py.

(** What the script does to its surroundings, in program order. *)
Inductive event : Type :=
  | EPrint (line : string)           (* print(line) *)
  | EImport (module : string) (raised : option exn)   (* import ... *)
  | ERun (argv : list string) (raised : option exn).  (* subprocess.check_call(argv) *)

(** What the surroundings answer.  An import or a subprocess either
    succeeds or raises; the second pair of import results is what the
    same statements give after the upgrade. *)
Record world : Type := mk_world {
  (* the interpreter that runs the script *)
  interp : interpreter;
  sys_version : string;
  sys_executable : string;
  (* import sagemaker; sagemaker.__version__ *)
  import_sagemaker : exn + string;
  (* from sagemaker.workflow.pipeline / .parameters / .steps import ... *)
  import_workflow : option exn;
  (* subprocess.check_call([...pip install...]) *)
  pip_install : option exn;
  (* import sagemaker; sagemaker.__version__, after the install *)
  reimport_sagemaker : exn + string;
  (* from sagemaker.workflow.pipeline import Pipeline, after the install *)
  reimport_workflow : option exn
}.

(** The same surroundings with another answer to [import sagemaker]. *)
Definition with_sagemaker (w : world) (r : exn + string) : world :=
  mk_world (interp w) (sys_version w) (sys_executable w) r (import_workflow w)
           (pip_install w) (reimport_sagemaker w) (reimport_workflow w).

Definition with_version (w : world) (version : string) : world :=
  with_sagemaker w (inr version).

Definition print {R} (line : string) : M event R unit := emit (EPrint line).

Definition raised_by {A} (r : exn + A) : option exn :=
  match r with inl e => Some e | inr _ => None end.

(** [import module], and the attribute read from it. *)
Definition import_ {R A} (module : string) (r : exn + A) : M event R A :=
  emit (EImport module (raised_by r)) ;; value r.

(** [from module import ...] *)
Definition from_import {R} (module : string) (r : option exn) : M event R unit :=
  emit (EImport module r) ;; check r.

Definition rule : string := str_mul "=" 60.

Definition invalid_literal (py : interpreter) (s : string) : exn :=
  mk_exn ValueError ("invalid literal for int() with base 10: " ++ repr_200 py s).

Definition too_many_digits (py : interpreter) (digits : Z) : exn :=
  mk_exn ValueError
    ("Exceeds the limit (" ++ str_of_int (int_max_str_digits py) ++
     " digits) for integer string conversion: value has " ++ str_of_int digits ++
     " digits; use sys.set_int_max_str_digits() to increase the limit").

(** [int(s)] *)
Definition int_ {R} (py : interpreter) (s : string) : M event R Z :=
  match int_result_of py s with
  | IntValue n => ret n
  | IntInvalid => raise (invalid_literal py s)
  | IntTooLong digits => raise (too_many_digits py digits)
  end.

Definition not_enough_values (got : Z) : exn :=
  mk_exn ValueError
    ("not enough values to unpack (expected 2, got " ++ str_of_int got ++ ")").

(** [major, minor = map(int, version.split('.')[:2])].  [map] is lazy:
    the unpacking converts one component at a time and stops at the first
    that is not an integer; fewer than two components fail the
    unpacking. *)
Definition parse_major_minor {R} (py : interpreter) (version : string)
  : M event R (Z * Z) :=
  match firstn 2 (split "."%char version) with
  | [] => raise (not_enough_values 0)
  | [a] => _ <- int_ py a ;; raise (not_enough_values 1)
  | a :: b :: _ =>
      major <- int_ py a ;;
      minor <- int_ py b ;;
      ret (major, minor)
  end.

(** Lines 25-43: is the SDK there, and is it recent enough?  The value is
    [needs_upgrade]. *)
Definition check_version {R} (w : world) : M event R bool :=
  try_except
    (version <- import_ "sagemaker" (import_sagemaker w) ;;
     print (nl ++ "✓ SageMaker SDK found: version " ++ version) ;;
     (* Check version *)
     mm <- parse_major_minor (interp w) version ;;
     let '(major, minor) := mm in
     if major <? 2 then
       print ("✗ Version " ++ version ++ " is too old. Need >= 2.0.0") ;;
       ret true
     else
       print ("✓ Version " ++ version ++ " is compatible (>= 2.0.0)") ;;
       ret false)
    (fun e =>
       if is_a ImportError e then
         Some (print (nl ++ "✗ SageMaker SDK not found") ;; ret true)
       else None).

(** Lines 45-56: the value is [(workflow_available, needs_upgrade)]. *)
Definition check_workflow {R} (w : world) (needs_upgrade : bool)
  : M event R (bool * bool) :=
  if negb needs_upgrade then
    try_except
      (from_import "sagemaker.workflow" (import_workflow w) ;;
       print "✓ sagemaker.workflow module is available" ;;
       ret (true, needs_upgrade))
      (fun e =>
         if is_a ImportError e then
           Some (print ("✗ sagemaker.workflow module not available: " ++ exn_msg e) ;;
                 ret (false, true))
         else None)
  else ret (false, needs_upgrade).

Definition pip_argv (w : world) : list string :=
  [sys_executable w; "-m"; "pip"; "install"; "--upgrade"; "sagemaker>=2.0.0"].

(** The three lines the operator gets when pip fails with [e]. *)
Definition remediation (w : world) (e : exn) : list event :=
  [EPrint (nl ++ "✗ Installation failed: " ++ exn_msg e);
   EPrint (nl ++ "Try installing manually:");
   EPrint ("  " ++ sys_executable w ++ " -m pip install --upgrade sagemaker>=2.0.0")].

(** Lines 58-88: the value is [workflow_available]. *)
Definition upgrade (w : world) (workflow_available needs_upgrade : bool)
  : M event bool bool :=
  if needs_upgrade then
    print (nl ++ rule) ;;
    print "Installing/Upgrading SageMaker SDK..." ;;
    print rule ;;
    try_except
      (emit (ERun (pip_argv w) (pip_install w)) ;;
       check (pip_install w) ;;
       print (nl ++ "✓ Installation complete!") ;;
       (* Verify installation *)
       version <- import_ "sagemaker" (reimport_sagemaker w) ;;
       print ("✓ New version: " ++ version) ;;
       (* Check workflow module again *)
       try_except
         (from_import "sagemaker.workflow" (reimport_workflow w) ;;
          print "✓ sagemaker.workflow module is now available" ;;
          ret true)
         (fun e =>
            if is_a ImportError e then
              Some (print ("✗ Still cannot import workflow module: " ++ exn_msg e) ;;
                    print "  Please restart your Python kernel/IDE and try again" ;;
                    return_ false)
            else None))
      (fun e =>
         if is_a CalledProcessError e then
           Some (print (nl ++ "✗ Installation failed: " ++ exn_msg e) ;;
                 print (nl ++ "Try installing manually:") ;;
                 print ("  " ++ sys_executable w ++
                        " -m pip install --upgrade sagemaker>=2.0.0") ;;
                 return_ false)
         else None)
  else ret workflow_available.

Definition check_and_install_sagemaker (w : world) : M event bool unit :=
  print rule ;;
  print "SageMaker SDK Installation Check" ;;
  print rule ;;
  (* Check Python version *)
  print (nl ++ "Python version: " ++ sys_version w) ;;
  print ("Python executable: " ++ sys_executable w) ;;
  (* Check if sagemaker is installed *)
  needs_upgrade <- check_version w ;;
  (* Check if workflow module is available *)
  wn <- check_workflow w needs_upgrade ;;
  let '(workflow_available, needs_upgrade) := wn in
  (* Install/upgrade if needed *)
  workflow_available <- upgrade w workflow_available needs_upgrade ;;
  print (nl ++ rule) ;;
  (if workflow_available then
     print "✓ All checks passed! SageMaker workflow module is ready." ;;
     print (nl ++ "Next steps:") ;;
     print "1. If you're in a Jupyter notebook, restart the kernel" ;;
     print "2. Re-run your notebook cells" ;;
     print "3. The sagemaker.workflow imports should work now"
   else
     print "✗ Some issues remain. Please check the errors above.") ;;
  print rule ;;
  return_ workflow_available.

(** The process: [success = check_and_install_sagemaker()], then
    [sys.exit(0 if success else 1)].  An exception nobody caught ends the
    interpreter with a traceback and status 1. *)
Definition main (w : world) : list event * Z :=
  match run (check_and_install_sagemaker w) false with
  | (t, inr success) => (t, if success then 0 else 1)
  | (t, inl _) => (t, 1)
  end.

(** The five lines every run starts with. *)
Definition banner (w : world) : list event :=
  [EPrint rule; EPrint "SageMaker SDK Installation Check"; EPrint rule;
   EPrint (nl ++ "Python version: " ++ sys_version w);
   EPrint ("Python executable: " ++ sys_executable w)].

(** The three lines before pip is started. *)
Definition upgrade_banner : list event :=
  [EPrint (nl ++ rule); EPrint "Installing/Upgrading SageMaker SDK..."; EPrint rule].

(** Do the first two dot-separated components of [version] both read
    as integers? *)
Definition parses (py : interpreter) (version : string) : bool :=
  match split "."%char version with
  | a :: b :: _ =>
      match int_of_str py a, int_of_str py b with
      | Some _, Some _ => true
      | _, _ => false
      end
  | _ => false
  end.

(** Observations on a trace. *)

Definition is_run (ev : event) : bool :=
  match ev with ERun _ _ => true | _ => false end.

(** Was pip started? *)
Definition pip_ran (t : list event) : bool := existsb is_run t.

(** How the last import of [module] went, if there was one. *)
Fixpoint last_import (module : string) (t : list event) : option (option exn) :=
  match t with
  | [] => None
  | ev :: rest =>
      match last_import module rest, ev with
      | Some r, _ => Some r
      | None, EImport m r => if String.eqb m module then Some r else None
      | None, _ => None
      end
  end.

(** Two concrete surroundings: an old SDK that pip upgrades, and one
    where pip fails. *)
Definition pip_failure : exn :=
  mk_exn CalledProcessError "Command returned non-zero exit status 1.".

Definition w_old_sdk : world :=
  mk_world cpython_3_11 "3.11.2" "/usr/bin/python3" (inr "1.72.0") None None (inr "2.214.3") None.

Definition w_pip_fails : world :=
  mk_world cpython_3_11 "3.11.2" "/usr/bin/python3" (inr "1.72.0") None (Some pip_failure)
           (inr "1.72.0") None.

(** ** Further observations *)

(** Was [line] printed? *)
Definition printed (line : string) (t : list event) : bool :=
  existsb (fun ev => match ev with
                     | EPrint l => String.eqb l line
                     | _ => false
                     end) t.

(** The argument vectors given to [subprocess.check_call], in program
    order. *)
Fixpoint runs (t : list event) : list (list string) :=
  match t with
  | [] => []
  | ERun argv _ :: rest => argv :: runs rest
  | _ :: rest => runs rest
  end.

(** [major] and [minor] of line 32, when both are there and read as
    integers. *)
Definition version_numbers (py : interpreter) (version : string) : option (Z * Z) :=
  match split "."%char version with
  | a :: b :: _ =>
      match int_of_str py a, int_of_str py b with
      | Some major, Some minor => Some (major, minor)
      | _, _ => None
      end
  | _ => None
  end.

(** The two closing lines of lines 92 and 98. *)
Definition all_passed : string :=
  "✓ All checks passed! SageMaker workflow module is ready.".

Definition issues_remain : string :=
  "✗ Some issues remain. Please check the errors above.".

(** [needs_upgrade] at line 59, read off the surroundings: the SDK is
    missing, or older than 2, or its workflow module does not import. *)
Definition upgrade_needed (w : world) : bool :=
  match import_sagemaker w with
  | inl e => is_a ImportError e
  | inr version =>
      match version_numbers (interp w) version with
      | Some (major, _) =>
          (major <? 2) ||
          match import_workflow w with
          | Some e => is_a ImportError e
          | None => false
          end
      | None => false
      end
  end.

(** Two more surroundings: after the install the workflow module still
    does not import, and after the install the SDK itself does not. *)
Definition no_workflow : exn :=
  mk_exn ImportError "No module named 'sagemaker.workflow'".

Definition no_sagemaker : exn :=
  mk_exn ImportError "No module named 'sagemaker'".

Definition w_needs_restart : world :=
  mk_world cpython_3_11 "3.11.2" "/usr/bin/python3" (inr "1.72.0") None None (inr "2.214.3")
           (Some no_workflow).

Definition w_broken_install : world :=
  mk_world cpython_3_11 "3.11.2" "/usr/bin/python3" (inl no_sagemaker) None None
           (inl no_sagemaker) None.

End Doctor.

(* ================================================================== *)
(** * seedcode/pipelines/abalone/preprocess.py *)
(* ================================================================== *)

Module Preprocess.

Import Py.

(** ** Tables *)

(** A cell of a frame or of an array: a string ([sex], the synthetic
    columns) or a binary64 number; pandas' missing value is the number
    [nan]. *)
Inductive cell : Type :=
  | CStr (s : string)
  | CNum (x : float).

Definition NaN : cell := CNum nan.

(** A column label: a name, or a position for a frame built from an
    array. *)
Inductive label : Type :=
  | LStr (s : string)
  | LInt (i : Z).

Definition label_eqb (a b : label) : bool :=
  match a, b with
  | LStr s, LStr t => String.eqb s t
  | LInt i, LInt j => Z.eqb i j
  | _, _ => false
  end.

(** A two-dimensional array: its rows, and its number of columns, which
    an array without rows still has ([a.shape[1]]). *)
Record ndarray : Type := mk_array {
  shape1 : nat;
  a_rows : list (list cell)
}.

(** A pandas Series: values under row labels. *)
Record Series : Type := mk_series {
  s_index : list Z;
  s_values : list cell
}.

(** A pandas DataFrame with integer row labels, row by row.  Column
    labels are distinct (pandas refuses duplicate [names] in
    [read_csv]). *)
Record DataFrame : Type := mk_frame {
  df_index : list Z;
  df_columns : list label;
  df_rows : list (list cell)
}.

(** [len(df)] *)
Definition len (df : DataFrame) : nat := List.length (df_index df).

(** [range(n)], the labels of a default index. *)
Definition range (n : nat) : list Z := map Z.of_nat (seq 0 n).

Fixpoint position (l : label) (cols : list label) : option nat :=
  match cols with
  | [] => None
  | c :: r => if label_eqb c l then Some O else option_map S (position l r)
  end.

(** [col in df.columns] *)
Definition has_column (col : string) (df : DataFrame) : bool :=
  match position (LStr col) (df_columns df) with Some _ => true | None => false end.

Fixpoint remove_nth {A} (j : nat) (l : list A) : list A :=
  match j, l with
  | _, [] => []
  | O, _ :: r => r
  | S k, x :: r => x :: remove_nth k r
  end.

Fixpoint replace_nth {A} (j : nat) (v : A) (l : list A) : list A :=
  match j, l with
  | _, [] => []
  | O, _ :: r => v :: r
  | S k, x :: r => x :: replace_nth k v r
  end.

Definition key_error (col : string) : exn := mk_exn KeyError ("'" ++ col ++ "'").

(** [df.pop(col)]: the column leaves the frame (the frame is changed in
    place: what comes back second is [df] afterwards) and is returned
    under the frame's row labels. *)
Definition pop (col : string) (df : DataFrame) : exn + (Series * DataFrame) :=
  match position (LStr col) (df_columns df) with
  | None => inl (key_error col)
  | Some j =>
      inr (mk_series (df_index df) (map (fun row => nth j row NaN) (df_rows df)),
           mk_frame (df_index df) (remove_nth j (df_columns df))
                    (map (remove_nth j) (df_rows df)))
  end.

(** [df[col] = vals] for values already in row order: an existing column
    is overwritten where it stands, a new one goes last. *)
Definition set_column (col : string) (vals : list cell) (df : DataFrame) : DataFrame :=
  match position (LStr col) (df_columns df) with
  | Some j =>
      mk_frame (df_index df) (df_columns df)
               (map (fun rv => replace_nth j (snd rv) (fst rv)) (combine (df_rows df) vals))
  | None =>
      mk_frame (df_index df) (df_columns df ++ [LStr col])%list
               (map (fun rv => (fst rv ++ [snd rv])%list) (combine (df_rows df) vals))
  end.

Fixpoint positions (cols : list string) (have : list label) : exn + list nat :=
  match cols with
  | [] => inr []
  | c :: r =>
      match position (LStr c) have, positions r have with
      | None, _ => inl (key_error c)
      | _, inl e => inl e
      | Some j, inr js => inr (j :: js)
      end
  end.

(** [df[cols]]: the named columns, in the order asked for. *)
Definition select (cols : list string) (df : DataFrame) : exn + DataFrame :=
  match positions cols (df_columns df) with
  | inl e => inl e
  | inr js =>
      inr (mk_frame (df_index df) (map LStr cols)
                    (map (fun row => map (fun j => nth j row NaN) js) (df_rows df)))
  end.

Fixpoint index_equals (a b : list Z) : bool :=
  match a, b with
  | [], [] => true
  | x :: a', y :: b' => Z.eqb x y && index_equals a' b'
  | _, _ => false
  end.

Fixpoint lookup (l : Z) (idx : list Z) (vals : list cell) : option cell :=
  match idx, vals with
  | i :: idx', v :: vals' => if Z.eqb i l then Some v else lookup l idx' vals'
  | _, _ => None
  end.

Fixpoint has_duplicates (idx : list Z) : bool :=
  match idx with
  | [] => false
  | i :: r => existsb (Z.eqb i) r || has_duplicates r
  end.

(** What pandas does with a Series on the right of [df[col] = ...]: the
    values are taken as they are when the Series carries the frame's own
    row labels (or the frame has no rows); otherwise the Series is
    re-indexed by the frame's labels, and a label the Series does not
    have gets [nan].  Re-indexing a Series with repeated labels fails. *)
Definition reindex_for_setitem (s : Series) (idx : list Z) : exn + list cell :=
  if index_equals (s_index s) idx || (List.length idx =? 0)%nat then inr (s_values s)
  else if has_duplicates (s_index s) then
    inl (mk_exn ValueError "cannot reindex on an axis with duplicate labels")
  else
    inr (map (fun l => match lookup l (s_index s) (s_values s) with
                       | Some v => v
                       | None => NaN
                       end) idx).

(** [pd.DataFrame(a)]: default row and column labels. *)
Definition pd_DataFrame (a : ndarray) : DataFrame :=
  mk_frame (range (List.length (a_rows a))) (map LInt (range (shape1 a))) (a_rows a).

(** ** [to_csv] *)

Inductive field : Type :=
  | FName (l : label)
  | FRow (i : Z)
  | FCell (c : cell).

(** The records of [df.to_csv(path, header=..., index=...)], one list of
    fields per line: a line of column labels when [header], and the row
    label in front of every line when [index]. *)
Definition csv_records (df : DataFrame) (header index : bool) : list (list field) :=
  ((if header then
      [((if index then [FName (LStr "")] else []) ++ map FName (df_columns df))%list]
    else []) ++
   map (fun ir => ((if index then [FRow (fst ir)] else []) ++ map FCell (snd ir))%list)
       (combine (df_index df) (df_rows df)))%list.

(** ** numpy *)

(** A slice bound the way Python reads it on a sequence of [n] items. *)
Definition clip (i : Z) (n : nat) : nat :=
  if i <? 0 then Z.to_nat (Z.max (i + Z.of_nat n) 0)
  else Nat.min (Z.to_nat i) n.

(** [a[start:stop]] *)
Definition slice {A} (start stop : Z) (a : list A) : list A :=
  firstn (clip stop (List.length a) - clip start (List.length a))
         (skipn (clip start (List.length a)) a).

(** [np.split(a, indices)] along the first axis: the pieces between
    consecutive division points [0, i1, ..., ik, len(a)]. *)
Definition np_split {A} (a : list A) (indices : list Z) : list (list A) :=
  let points := (0 :: indices ++ [Z.of_nat (List.length a)])%list in
  map (fun se => slice (fst se) (snd se) a) (combine points (tl points)).

(** [np.split(a, indices)] along the rows: every part keeps the
    columns. *)
Definition array_split (a : ndarray) (indices : list Z) : list ndarray :=
  map (mk_array (shape1 a)) (np_split (a_rows a) indices).

(** [np.concatenate((left, right), axis=1)] *)
Definition concatenate_columns (left right : ndarray) : exn + ndarray :=
  if (List.length (a_rows left) =? List.length (a_rows right))%nat then
    inr (mk_array (shape1 left + shape1 right)
                  (map (fun lr => (fst lr ++ snd lr)%list)
                       (combine (a_rows left) (a_rows right))))
  else
    inl (mk_exn ValueError
           "all the input array dimensions except for the concatenation axis must match exactly").

(** ** binary64, as far as [int(0.7 * len(X))] needs it *)

(** A non-negative binary64 number [mant * 2 ^ expo].  The exponent is
    not bounded here: a length is below [2 ^ 63], far from the largest
    binary64 number, and no product below is small enough to be
    subnormal. *)
Record binary64 : Type := mk_binary64 { mant : Z; expo : Z }.

(** The nearest integer with at most 53 significant bits, ties to the
    even significand: IEEE 754 round-to-nearest-even at precision 53,
    exponent range aside. *)
Definition round53 (m : Z) : Z :=
  let s := Z.log2 m - 52 in
  if s <=? 0 then m
  else
    let q := Z.shiftr m s in
    let r := m - Z.shiftl q s in
    let half := 2 ^ (s - 1) in
    let q' := if (half <? r) || ((r =? half) && Z.odd q) then q + 1 else q in
    Z.shiftl q' s.

(** The literals [0.7] and [0.85]: 0x1.6666666666666p-1 and
    0x1.b333333333333p-1. *)
Definition c0_7 : binary64 := mk_binary64 6305039478318694 (-53).
Definition c0_85 : binary64 := mk_binary64 7656119366529843 (-53).

(** [float(n)] for a length [n]: correctly rounded. *)
Definition float_of_int (n : Z) : binary64 := mk_binary64 (round53 n) 0.

(** [x * y]: the exact product, rounded. *)
Definition fmul (x y : binary64) : binary64 :=
  mk_binary64 (round53 (mant x * mant y)) (expo x + expo y).

(** [int(x)]: truncation. *)
Definition int_of_float (x : binary64) : Z :=
  if 0 <=? expo x then mant x * 2 ^ expo x else mant x / 2 ^ (- expo x).

(** The same truncation on the kernel's binary64 numbers, to compare
    against. *)
Definition int_of_prim (x : float) : Z :=
  match Prim2SF x with
  | S754_finite false m e =>
      if 0 <=? e then Z.pos m * 2 ^ e else Z.pos m / 2 ^ (- e)
  | _ => 0
  end.

(** [int(c * n)] for a float literal [c] and a length [n]. *)
Definition point (c : binary64) (n : nat) : Z :=
  int_of_float (fmul c (float_of_int (Z.of_nat n))).

(** [[int(0.7 * n), int(0.85 * n)]] *)
Definition split_points (n : nat) : list Z := [point c0_7 n; point c0_85 n].

(** ** The script and its surroundings *)

(** Since we get a headerless CSV file we specify the column names
    here. *)
Definition feature_columns_names : list string :=
  ["sex"; "length"; "diameter"; "height"; "whole_weight";
   "shucked_weight"; "viscera_weight"; "shell_weight"].

Definition label_column : string := "rings".

Inductive level : Type := DEBUG | INFO | WARNING.

(** A call into the feature-store SDK. *)
Inductive fs_call : Type :=
  | FsImport                                    (* import sagemaker, ...feature_store... *)
  | FsSession (region : string)                 (* boto3.Session, sagemaker.Session *)
  | FsCreate (name role : string)               (* default_bucket(), feature_group.create *)
  | FsIngest (frame : DataFrame).               (* feature_group.ingest *)

Inductive event : Type :=
  | ELog (lvl : level) (msg : string)           (* logger.debug / info / warning *)
  | EMkdir (path : string)
  | EDownload (bucket key fn : string)          (* s3.Bucket(bucket).download_file(key, fn) *)
  | EReadCsv (fn : string)
  | EUnlink (fn : string)
  | EFit (df : DataFrame)                       (* preprocess.fit_transform(df) *)
  | EToCsv (path : string) (frame : DataFrame) (header index : bool)
  | EFeatureStore (c : fs_call) (raised : option exn)
  | ESleep (seconds : Z).

(** The parsed command line. *)
Record args : Type := mk_args {
  input_data : string;
  feature_group_name : option string;
  enable_feature_store : string;
  region : option string
}.

(** What the surroundings answer.  Directory creation, [os.unlink] and
    [to_csv] on the local disk are taken to succeed. *)
Record world : Type := mk_world {
  environ : string -> option string;            (* os.environ.get *)
  download_file : option exn;
  (* pd.read_csv(fn, header=None, names=..., dtype=...): row labels and rows *)
  read_csv : exn + (list Z * list (list cell));
  fit_transform : DataFrame -> exn + ndarray;    (* preprocess.fit_transform(df) *)
  (* np.random.shuffle, in place: the rows afterwards *)
  shuffle : list (list cell) -> list (list cell);
  import_feature_store : option exn;
  new_session : option exn;
  current_time_sec : Z;                         (* int(round(time.time())) *)
  create_feature_group : option exn;
  ingest : DataFrame -> option exn
}.

Definition log {R} (lvl : level) (msg : string) : M event R unit := emit (ELog lvl msg).

(** A call into the SDK, with what it raised. *)
Definition sdk {R} (c : fs_call) (r : option exn) : M event R unit :=
  emit (EFeatureStore c r) ;; check r.

Definition required_cols : list string :=
  ["event_time"; "record_id"; "sex"; "length"; "diameter"; "height";
   "whole_weight"; "shucked_weight"; "viscera_weight"; "shell_weight"; "rings"].

(** Lines 106-113: ensure all columns are present. *)
Fixpoint fill_required (cols : list string) (df_fs : DataFrame) : M event unit DataFrame :=
  match cols with
  | [] => ret df_fs
  | col :: rest =>
      if has_column col df_fs then fill_required rest df_fs
      else if String.eqb col "rings" then
        log WARNING ("Column " ++ col ++ " not found, skipping Feature Store write") ;;
        return_ tt
      else
        fill_required rest
          (set_column col (repeat (CNum 0%float) (len df_fs)) df_fs)
  end.

(** Lines 98-101: the two synthetic columns.  [event_time] is assigned
    from a fresh Series (default labels [0 .. n-1]), [record_id] from the
    frame's own index. *)
Definition add_synthetic_columns (current_time_sec : Z) (df : DataFrame) : exn + DataFrame :=
  let df_fs := df in
  let event_time :=
    mk_series (range (len df_fs))
              (repeat (CStr (str_of_int current_time_sec)) (len df_fs)) in
  match reindex_for_setitem event_time (df_index df_fs) with
  | inl e => inl e
  | inr values =>
      let df_fs := set_column "event_time" values df_fs in
      inr (set_column "record_id"
             (map (fun i => CStr (str_of_int i)) (df_index df_fs)) df_fs)
  end.

(** The test of line 131 on [str(e)]. *)
Definition already_exists (msg : string) : bool :=
  contains "ResourceInUse" msg || contains "already exists" (lower msg).

Definition write_to_feature_store (w : world) (df : DataFrame)
    (feature_group_name region role : string) : M event unit unit :=
  try_except
    (sdk FsImport (import_feature_store w) ;;
     log INFO ("Writing features to Feature Store: " ++ feature_group_name) ;;
     (* Create boto3 session *)
     sdk (FsSession region) (new_session w) ;;
     (* Prepare data for Feature Store *)
     df_fs <- value (add_synthetic_columns (current_time_sec w) df) ;;
     (* Ensure all columns are present *)
     df_fs <- fill_required required_cols df_fs ;;
     (* Select only required columns in correct order *)
     df_fs <- value (select required_cols df_fs) ;;
     (* Try to create feature group *)
     try_except
       (sdk (FsCreate feature_group_name role) (create_feature_group w) ;;
        log INFO ("Created new feature group: " ++ feature_group_name) ;;
        emit (ESleep 10))
       (fun e =>
          Some (if already_exists (exn_msg e) then
                  log INFO ("Feature group " ++ feature_group_name ++
                            " already exists, using existing one")
                else
                  log WARNING ("Could not create feature group: " ++ exn_msg e) ;;
                  return_ tt)) ;;
     (* Ingest data to Feature Store *)
     sdk (FsIngest df_fs) (ingest w df_fs) ;;
     log INFO ("Successfully ingested " ++ str_of_int (Z.of_nat (len df_fs)) ++
               " records to Feature Store"))
    (fun e =>
       if is_a ImportError e then
         Some (log WARNING
                 "SageMaker Feature Store SDK not available, skipping Feature Store write")
       else
         Some (log WARNING ("Failed to write to Feature Store: " ++ exn_msg e) ;;
               log WARNING "Continuing without Feature Store...")).

Definition base_dir : string := "/opt/ml/processing".

Definition getitem {R} (parts : list string) (i : nat) : M event R string :=
  match nth_error parts i with
  | Some s => ret s
  | None => raise (mk_exn IndexError "list index out of range")
  end.

Definition unpack3 {R} (parts : list ndarray) : M event R (ndarray * ndarray * ndarray) :=
  match parts with
  | [a; b; c] => ret (a, b, c)
  | _ => raise (mk_exn ValueError "wrong number of values to unpack (expected 3)")
  end.

(** Lines 157-175: fetch the object and read it under the fixed column
    names. *)
Definition load (a : args) (w : world) : M event unit DataFrame :=
  log DEBUG "Starting preprocessing." ;;
  emit (EMkdir (base_dir ++ "/data")) ;;
  let input_data := input_data a in
  bucket <- getitem (split "/"%char input_data) 2 ;;
  let key := join "/" (skipn 3 (split "/"%char input_data)) in
  log INFO ("Downloading data from bucket: " ++ bucket ++ ", key: " ++ key) ;;
  let fn := base_dir ++ "/data/abalone-dataset.csv" in
  emit (EDownload bucket key fn) ;;
  check (download_file w) ;;
  log DEBUG "Reading downloaded data." ;;
  emit (EReadCsv fn) ;;
  raw <- value (read_csv w) ;;
  let df := mk_frame (fst raw)
                     (map LStr (feature_columns_names ++ [label_column])%list)
                     (snd raw) in
  emit (EUnlink fn) ;;
  ret df.

(** Lines 205-210: the label leaves the frame, the transformer is fitted
    on what is left, and the label goes back in front.  The value is
    [(df, y, X)]. *)
Definition transform (w : world) (df : DataFrame)
  : M event unit (DataFrame * Series * ndarray) :=
  log DEBUG "Defining transformers." ;;
  log INFO "Applying transforms." ;;
  popped <- value (pop "rings" df) ;;
  let '(y, df) := popped in
  emit (EFit df) ;;
  X_pre <- value (fit_transform w df) ;;
  let y_pre := mk_array 1 (map (fun v => [v]) (s_values y)) in
  X <- value (concatenate_columns y_pre X_pre) ;;
  ret (df, y, X).

Definition train_csv : string := base_dir ++ "/train/train.csv".
Definition validation_csv : string := base_dir ++ "/validation/validation.csv".
Definition test_csv : string := base_dir ++ "/test/test.csv".
Definition features_csv : string := base_dir ++ "/features" ++ "/features.csv".

(** Lines 212-230: shuffle, split 70/15/15, write the three partitions. *)
Definition split_and_write (w : world) (X : ndarray) : M event unit unit :=
  log INFO ("Splitting " ++ str_of_int (Z.of_nat (List.length (a_rows X))) ++
            " rows of data into train, validation, test datasets.") ;;
  let X := mk_array (shape1 X) (shuffle w (a_rows X)) in
  parts <- unpack3 (array_split X (split_points (List.length (a_rows X)))) ;;
  let '(train, validation, test) := parts in
  log INFO ("Writing out datasets to " ++ base_dir ++ ".") ;;
  emit (EToCsv train_csv (pd_DataFrame train) false false) ;;
  emit (EToCsv validation_csv (pd_DataFrame validation) false false) ;;
  emit (EToCsv test_csv (pd_DataFrame test) false false).

(** Lines 232-243: the untransformed features with the label put back.
    The value is [original_df]. *)
Definition write_features (df : DataFrame) (y : Series) : M event unit DataFrame :=
  let features_dir := base_dir ++ "/features" in
  emit (EMkdir features_dir) ;;
  (* Reconstruct original dataframe with features and label *)
  let original_df := df in
  rings <- value (reindex_for_setitem y (df_index original_df)) ;;
  let original_df := set_column "rings" rings original_df in
  emit (EToCsv (features_dir ++ "/features.csv") original_df true false) ;;
  log INFO "Saved features for Feature Store ingestion." ;;
  ret original_df.

(** [args.region or os.environ.get("AWS_DEFAULT_REGION", "us-east-1")] *)
Definition region_of (a : args) (w : world) : string :=
  the (or_else (region a)
                (Some (match environ w "AWS_DEFAULT_REGION" with
                       | Some r => r
                       | None => "us-east-1"
                       end))).

(** Lines 245-260: write to Feature Store if enabled. *)
Definition feature_store_step (a : args) (w : world) (original_df : DataFrame)
  : M event unit unit :=
  if String.eqb (lower (enable_feature_store a)) "true"
     && truthy_opt (feature_group_name a) then
    try_except
      ((* Get IAM role from environment *)
       let role := or_else (environ w "SAGEMAKER_ROLE_ARN")
                           (environ w "TRAINING_JOB_ROLE_ARN") in
       if negb (truthy_opt role) then
         log WARNING "IAM role not found in environment, skipping Feature Store write"
       else
         call (write_to_feature_store w original_df
                 (the (feature_group_name a)) (region_of a w) (the role)) tt)
      (fun e =>
         Some (log WARNING ("Feature Store ingestion failed: " ++ exn_msg e ++
                            ", continuing...")))
  else ret tt.

(** The script, from [parse_args] on. *)
Definition main (a : args) (w : world) : M event unit unit :=
  df <- load a w ;;
  t <- transform w df ;;
  let '(df, y, X) := t in
  split_and_write w X ;;
  original_df <- write_features df y ;;
  feature_store_step a w original_df.

(** ** Observations on a trace *)

Definition is_feature_store (ev : event) : bool :=
  match ev with EFeatureStore _ _ => true | _ => false end.

Definition is_ingest (ev : event) : bool :=
  match ev with EFeatureStore (FsIngest _) _ => true | _ => false end.

(** Was [feature_group.ingest] called? *)
Definition ingest_attempted (t : list event) : bool := existsb is_ingest t.

(** Every SDK call that raised is directly followed by a log record:
    the handler's. *)
Fixpoint handled (t : list event) : bool :=
  match t with
  | [] => true
  | EFeatureStore _ (Some _) :: rest =>
      match rest with
      | ELog _ _ :: _ => handled rest
      | _ => false
      end
  | _ :: rest => handled rest
  end.

(** The last [to_csv] to [path]: the frame written and its [header] and
    [index] flags. *)
Fixpoint csv_written (path : string) (t : list event) : option (DataFrame * bool * bool) :=
  match t with
  | [] => None
  | ev :: rest =>
      match csv_written path rest, ev with
      | Some r, _ => Some r
      | None, EToCsv p frame header index =>
          if String.eqb p path then Some (frame, header, index) else None
      | None, _ => None
      end
  end.

(** The records of the file at [path], as the last [to_csv] to it left
    them. *)
Definition file_records (path : string) (t : list event) : list (list field) :=
  match csv_written path t with
  | Some (frame, header, index) => csv_records frame header index
  | None => []
  end.

(** [df[col]], as a list of cells. *)
Definition column (col : string) (df : DataFrame) : option (list cell) :=
  match position (LStr col) (df_columns df) with
  | Some j => Some (map (fun row => nth j row NaN) (df_rows df))
  | None => None
  end.

(** A frame is well formed when it has a row per row label and a cell
    per column in every row. *)
Definition well_formed (df : DataFrame) : Prop :=
  List.length (df_rows df) = List.length (df_index df) /\
  Forall (fun row => List.length row = List.length (df_columns df)) (df_rows df).

(** The events of lines 212-243, for the three partitions and the
    snapshot [original_df]. *)
Definition writes (X : ndarray) (train validation test : list (list cell))
    (original_df : DataFrame) : list event :=
  [ELog INFO ("Splitting " ++ str_of_int (Z.of_nat (List.length (a_rows X))) ++
              " rows of data into train, validation, test datasets.");
   ELog INFO ("Writing out datasets to " ++ base_dir ++ ".");
   EToCsv train_csv (pd_DataFrame (mk_array (shape1 X) train)) false false;
   EToCsv validation_csv (pd_DataFrame (mk_array (shape1 X) validation)) false false;
   EToCsv test_csv (pd_DataFrame (mk_array (shape1 X) test)) false false;
   EMkdir (base_dir ++ "/features");
   EToCsv features_csv original_df true false;
   ELog INFO "Saved features for Feature Store ingestion."].

(** The cell [event_time] gets in the row labelled [l] of a frame of [n]
    rows when the time is [now]: the fresh Series of lines 98-100 has a
    value under the labels [0 .. n-1] only. *)
Definition event_time_at (now : Z) (n : nat) (l : Z) : cell :=
  if (0 <=? l) && (l <? Z.of_nat n) then CStr (str_of_int now) else NaN.

(** ** Concrete runs *)

Definition abalone (sex : string) (rings : float) : list cell :=
  [CStr sex; CNum 0.5; CNum 0.375; CNum 0.125; CNum 0.75; CNum 0.25;
   CNum 0.125; CNum 0.1875; CNum rings].

Definition three_rows : list (list cell) :=
  [abalone "M" 15; abalone "F" 7; abalone "I" 9].

Definition role_in_env (k : string) : option string :=
  if String.eqb k "SAGEMAKER_ROLE_ARN" then Some "arn:aws:iam::123456789012:role/sm"
  else None.

Definition empty_env (k : string) : option string := None.

Definition resource_in_use : exn :=
  mk_exn OtherException
    "An error occurred (ResourceInUse) when calling the CreateFeatureGroup operation".

(** Three rows under the default index; the transformer drops [sex];
    the shuffle reverses; the feature group is already there. *)
Definition w_three : world :=
  mk_world role_in_env None (inr (range 3, three_rows))
           (fun df => inr (mk_array 7 (map (@tl cell) (df_rows df))))
           (@rev (list cell))
           None None 1700000000 (Some resource_in_use) (fun _ => None).

(** The same where the creation fails with a message that says so in
    capitals only, and where it fails for another reason. *)
Definition group_exists : exn :=
  mk_exn OtherException
    "Resource Already Exists: FeatureGroup with name abalone-features".

Definition access_denied : exn :=
  mk_exn OtherException
    "An error occurred (AccessDeniedException) when calling the CreateFeatureGroup operation".

Definition w_group_exists : world :=
  mk_world role_in_env None (inr (range 3, three_rows))
           (fun df => inr (mk_array 7 (map (@tl cell) (df_rows df))))
           (@rev (list cell))
           None None 1700000000 (Some group_exists) (fun _ => None).

Definition w_access_denied : world :=
  mk_world role_in_env None (inr (range 3, three_rows))
           (fun df => inr (mk_array 7 (map (@tl cell) (df_rows df))))
           (@rev (list cell))
           None None 1700000000 (Some access_denied) (fun _ => None).

(** The same without a role in the environment. *)
Definition w_no_role : world :=
  mk_world empty_env None (inr (range 3, three_rows))
           (fun df => inr (mk_array 7 (map (@tl cell) (df_rows df))))
           (@rev (list cell))
           None None 1700000000 None (fun _ => None).

Definition a_enabled : args :=
  mk_args "s3://bucket/abalone/abalone-dataset.csv" (Some "abalone-features") "True" None.

Definition names : list label :=
  map LStr (feature_columns_names ++ [label_column])%list.

Definition frame_three : DataFrame := mk_frame (range 3) names three_rows.

(** One row whose label is 5, not 0. *)
Definition frame_labelled_5 : DataFrame := mk_frame [5] names [abalone "M" 15].

(** Three rows under the labels a filter left them: 5, 2 and 9. *)
Definition frame_relabelled : DataFrame := mk_frame [5; 2; 9] names three_rows.

(** Lengths on which the binary64 model is compared with the kernel's
    floats. *)
Definition sample_lengths : list Z :=
  (map Z.of_nat (seq 0 3000) ++
   map (fun k => 7 * Z.of_nat k * Z.of_nat k * 1234577 + 1) (seq 0 1000) ++
   [2 ^ 52; 2 ^ 53 - 1; 2 ^ 53; 2 ^ 53 + 1; 2 ^ 53 + 3; 2 ^ 54 + 2; 2 ^ 54 + 6;
    2 ^ 60 + 12345; 2 ^ 61 + 2 ^ 8; 2 ^ 62 + 2 ^ 9; 2 ^ 62 + 2 ^ 9 + 1;
    2 ^ 62 + 3 * 2 ^ 9; 2 ^ 63 - 1])%list.

(** [int(c * n)] on the kernel's floats. *)
Definition prim_point (c : float) (n : Z) : Z :=
  int_of_prim (c * PrimFloat.of_uint63 (Uint63.of_Z n))%float.

(** ** [merge_two_dicts] and the column types (lines 37-55) *)

(** A [dict] keeps its keys in insertion order; a key is there once. *)
Section Dict.

Context {V : Type}.

Definition dict : Type := list (string * V).

(** [list(d)] *)
Definition keys (d : dict) : list string := map fst d.

(** [d.get(k)] *)
Fixpoint dict_get (k : string) (d : dict) : option V :=
  match d with
  | [] => None
  | (k', v) :: r => if String.eqb k' k then Some v else dict_get k r
  end.

(** [d[k] = v]: a key that is there keeps its place, a new one goes
    last. *)
Fixpoint dict_set (k : string) (v : V) (d : dict) : dict :=
  match d with
  | [] => [(k, v)]
  | (k', v') :: r => if String.eqb k' k then (k, v) :: r else (k', v') :: dict_set k v r
  end.

(** [z.update(y)]; the value is [z] afterwards. *)
Definition dict_update (z y : dict) : dict :=
  fold_left (fun acc kv => dict_set (fst kv) (snd kv) acc) y z.

(** Lines 51-55. *)
Definition merge_two_dicts (x y : dict) : dict :=
  let z := x in          (* z = x.copy() *)
  dict_update z y.       (* z.update(y); return z *)

End Dict.

Arguments dict V : clear implicits.

Inductive dtype : Type := dtype_str | dtype_float64.

Definition feature_columns_dtype : dict dtype :=
  [("sex", dtype_str); ("length", dtype_float64); ("diameter", dtype_float64);
   ("height", dtype_float64); ("whole_weight", dtype_float64);
   ("shucked_weight", dtype_float64); ("viscera_weight", dtype_float64);
   ("shell_weight", dtype_float64)].

Definition label_column_dtype : dict dtype := [("rings", dtype_float64)].

(** ** Further observations *)

(** [fn] of line 164: where the object is downloaded to. *)
Definition staged : string := base_dir ++ "/data/abalone-dataset.csv".

Definition level_eqb (a b : level) : bool :=
  match a, b with
  | DEBUG, DEBUG | INFO, INFO | WARNING, WARNING => true
  | _, _ => false
  end.

(** Was [msg] logged at level [lvl]? *)
Definition logged (lvl : level) (msg : string) (t : list event) : bool :=
  existsb (fun ev => match ev with
                     | ELog l m => level_eqb l lvl && String.eqb m msg
                     | _ => false
                     end) t.

Definition is_sleep (ev : event) : bool :=
  match ev with ESleep _ => true | _ => false end.

(** A [feature_group.create] that did not raise. *)
Definition is_created (ev : event) : bool :=
  match ev with EFeatureStore (FsCreate _ _) None => true | _ => false end.

(** The warning of line 110. *)
Definition rings_warning : string :=
  "Column rings not found, skipping Feature Store write".

(** The frames handed to [feature_group.ingest], in program order. *)
Fixpoint ingested (t : list event) : list DataFrame :=
  match t with
  | [] => []
  | EFeatureStore (FsIngest frame) _ :: rest => frame :: ingested rest
  | _ :: rest => ingested rest
  end.

(** The paths given to [to_csv], in program order. *)
Fixpoint written (t : list event) : list string :=
  match t with
  | [] => []
  | EToCsv path _ _ _ :: rest => path :: written rest
  | _ :: rest => written rest
  end.

(** A frame without the label, and arguments whose [--input-data] is not
    a URI. *)
Definition frame_no_rings : DataFrame :=
  mk_frame (range 2) [LStr "sex"; LStr "length"]
           [[CStr "M"; CNum 0.5]; [CStr "F"; CNum 0.375]].

Definition a_local_file : args := mk_args "abalone-dataset.csv" None "False" None.

End Preprocess.

(* ================================================================== *)
(** * Proof steps *)
(* ================================================================== *)

(** Unfolds the statements of a block, one after the other. *)
Ltac run_py :=
  cbn [Py.bind Py.ret Py.emit Py.raise Py.return_ Py.try_except Py.check Py.value
       Py.run Py.call
       Doctor.print Doctor.import_ Doctor.from_import Doctor.raised_by
       Preprocess.log Preprocess.sdk
       app fst snd].

(** Two oracle answers that are the same answer. *)
Ltac same_exn :=
  match goal with
  | H : Some _ = Some _ |- _ => injection H as <-
  end.

(** Closes a case of a stage of the doctor: the trace and the outcome
    are what the case computed, and the side conditions are decided. *)
Ltac finish_stage :=
  do 2 eexists; repeat split; intros;
  try reflexivity; try discriminate; try congruence;
  try (same_exn; first [reflexivity | congruence]).

(** Pushes the observations of the doctor's trace through appends and
    prints. *)
Ltac observe :=
  repeat (autorewrite with doctor_trace;
          cbn [Doctor.last_import Doctor.pip_ran existsb orb]).

(** Closes a case of the feature-store path: the trace is what the case
    computed, every raising call is handled, nothing went to disk. *)
Ltac by_cases :=
  eexists; split; [reflexivity | split; [reflexivity | intros p; reflexivity]].

(* ================================================================== *)
(** * Facts about the Python operations *)
(* ================================================================== *)

Module PyFacts.

Import Py.

(** ** Substrings *)

Lemma prefix_spec (p s : string) :
  String.prefix p s = true <-> exists post, s = p ++ post.
Proof.
  revert p. induction s as [| d s IH]; intros [| c p]; cbn [String.prefix].
  - split; [intros _; exists ""; reflexivity | reflexivity].
  - split; [discriminate | intros [post H]; discriminate H].
  - split; [intros _; eexists; reflexivity | reflexivity].
  - destruct (Ascii.ascii_dec c d) as [-> | Hne].
    + rewrite IH. split; intros [post H]; exists post; cbn in *; congruence.
    + split; [discriminate | intros [post H]; cbn in H; congruence].
Qed.

(** [pat in s] holds exactly when [s] is some text, then [pat], then
    some text. *)
Lemma contains_spec (pat s : string) :
  contains pat s = true <-> exists pre post, s = pre ++ pat ++ post.
Proof.
  induction s as [| c s IH]; cbn [contains]; rewrite orb_true_iff, prefix_spec.
  - split.
    + intros [[post H] | H]; [| discriminate]. exists "", post. exact H.
    + intros (pre & post & H). left.
      destruct pre; [exists post; exact H |]. discriminate H.
  - rewrite IH. split.
    + intros [[post H] | (pre & post & H)].
      * exists "", post. exact H.
      * exists (String c pre), post. cbn. rewrite H. reflexivity.
    + intros (pre & post & H). destruct pre as [| d pre].
      * left. exists post. exact H.
      * right. exists pre, post. cbn in H. congruence.
Qed.

(** ** Lower case *)

Lemma lower_app (s t : string) : lower (s ++ t) = lower s ++ lower t.
Proof. induction s as [| c s IH]; cbn [append lower]; [| rewrite IH]; reflexivity. Qed.

Lemma lower_app_inv (s a b : string) :
  lower s = a ++ b -> exists a' b', s = a' ++ b' /\ lower a' = a /\ lower b' = b.
Proof.
  revert s. induction a as [| c a IH]; intros s H.
  - exists EmptyString, s. repeat split. exact H.
  - destruct s as [| d s]; [discriminate H |]. cbn [lower append] in H.
    injection H as Hc Hs. destruct (IH s Hs) as (a' & b' & -> & Ha & Hb).
    exists (String d a'), b'. cbn [append lower]. rewrite Ha, Hc. repeat split. exact Hb.
Qed.

Lemma nat_of_lower_char (d : ascii) :
  nat_of_ascii (lower_char d) =
  if in_range 65 90 d then (nat_of_ascii d + 32)%nat else nat_of_ascii d.
Proof.
  unfold lower_char. destruct (in_range 65 90 d) eqn:E; [| reflexivity].
  apply nat_ascii_embedding.
  unfold in_range in E. apply andb_true_iff in E. destruct E as [_ E].
  apply Nat.leb_le in E. lia.
Qed.

(** [d] lower-cased is [c] exactly when the two are the same up to
    case, for a [c] that is no capital letter. *)
Lemma lower_char_same (c d : ascii) :
  in_range 65 90 c = false ->
  (lower_char d = c <-> same_letter d c = true).
Proof.
  intros Hc. unfold same_letter.
  rewrite Hc, andb_false_l, orb_false_r, orb_true_iff, andb_true_iff, !Nat.eqb_eq.
  split.
  - intros <-. rewrite nat_of_lower_char.
    destruct (in_range 65 90 d); [right; split; reflexivity | left; reflexivity].
  - intros H.
    rewrite <- (ascii_nat_embedding (lower_char d)), <- (ascii_nat_embedding c).
    f_equal. rewrite nat_of_lower_char.
    destruct H as [H | [Hd H]].
    + destruct (in_range 65 90 d) eqn:Hd; [| exact H].
      unfold in_range in Hc, Hd. rewrite <- H in Hc. congruence.
    + rewrite Hd. symmetry. exact H.
Qed.

Lemma lower_same (pat s : string) :
  no_capital pat = true ->
  (lower s = pat <-> same_ignoring_case s pat = true).
Proof.
  revert s. induction pat as [| c pat IH]; intros [| d s] Hp;
    cbn [lower same_ignoring_case]; try (split; [discriminate | discriminate]);
    try (split; reflexivity).
  cbn [no_capital] in Hp. apply andb_true_iff in Hp. destruct Hp as [Hc Hp].
  apply negb_true_iff in Hc.
  rewrite andb_true_iff, <- (IH s Hp), <- (lower_char_same c d Hc).
  split; [intros [= -> ->]; split; reflexivity | intros [-> ->]; reflexivity].
Qed.

(** [s.lower() == pat], for a [pat] without capital letters. *)
Lemma lower_eqb_same (pat s : string) :
  no_capital pat = true ->
  String.eqb (lower s) pat = same_ignoring_case s pat.
Proof.
  intros Hp. apply Bool.eq_iff_eq_true. rewrite String.eqb_eq. apply lower_same, Hp.
Qed.

(** [pat in s.lower()], for a [pat] without capital letters: somewhere
    in [s] stands [pat] up to the case of the letters. *)
Lemma contains_lower_spec (pat s : string) :
  no_capital pat = true ->
  (contains pat (lower s) = true <->
   exists pre mid post, s = pre ++ mid ++ post /\ same_ignoring_case mid pat = true).
Proof.
  intros Hp. rewrite contains_spec. split.
  - intros (pre & post & H).
    destruct (lower_app_inv _ _ _ H) as (pre' & rest & -> & _ & Hrest).
    destruct (lower_app_inv _ _ _ Hrest) as (mid & post' & -> & Hmid & _).
    exists pre', mid, post'. split; [reflexivity |]. apply (lower_same _ _ Hp), Hmid.
  - intros (pre & mid & post & -> & Hmid).
    exists (lower pre), (lower post). rewrite !lower_app.
    rewrite (proj2 (lower_same _ _ Hp) Hmid). reflexivity.
Qed.

(** ** [str] of an integer *)

Lemma str_of_int_inj (a b : Z) : str_of_int a = str_of_int b -> a = b.
Proof.
  unfold str_of_int. intros H. apply DecimalZ.to_int_inj.
  assert (back : forall z, NilZero.int_of_string (NilZero.string_of_int (Z.to_int z)) =
                           Some (Z.to_int z)).
  { intros z. apply NilZero.isi; destruct z; cbn; try discriminate;
      intros [= E]; apply (DecimalPos.Unsigned.to_uint_nonnil _ E). }
  pose proof (back a) as Ha. rewrite H, back in Ha. congruence.
Qed.

Example int_of_str_examples :
  map (int_of_str cpython_3_11)
      ["2"; " 12 "; "+3"; "-07"; "1_000"; "_1"; "1__0"; "1_"; "+"; "0rc1"; "1 2"; "+ 3"; ""] =
  [Some 2; Some 12; Some 3; Some (-7); Some 1000; None; None; None; None; None; None; None;
   None].
Proof. reflexivity. Qed.

(** Outside ASCII: the digits of other scripts count, and so do the
    spaces of the database; the separators 28 to 31, which [str.isspace]
    accepts, do not. *)
Example int_of_str_unicode :
  map (int_of_str cpython_3_11)
      ["٣"; "١"; "٣_٤"; "１２"; chr 194 ++ chr 160 ++ "7"; chr 28 ++ "2"; "2" ++ chr 31;
       "٣x"; "²"] =
  [Some 3; Some 1; Some 34; Some 12; Some 7; None; None; None; None].
Proof. reflexivity. Qed.

(** The limit on the digits: 4300 go through, 4301 do not; without a
    limit they do. *)
Example int_of_str_limit :
  int_of_str cpython_3_11 (str_mul "0" 4299 ++ "7") = Some 7 /\
  int_result_of cpython_3_11 (str_mul "0" 4300 ++ "7") = IntTooLong 4301 /\
  int_of_str (mk_interpreter (isspace cpython_3_11) (todecimal cpython_3_11)
                             (isprintable cpython_3_11) 0)
             (str_mul "0" 4300 ++ "7") = Some 7.
Proof. repeat split; vm_compute; reflexivity. Qed.

(** [repr] in the message of the [ValueError]. *)
Example repr_examples :
  map (repr cpython_3_11) ["0rc1"; "it's"; chr 28 ++ "2"; "é" ++ chr 9] =
  ["'0rc1'"; chr 34 ++ "it's" ++ chr 34; "'" ++ chr 92 ++ "x1c2'";
   "'é" ++ chr 92 ++ "t'"].
Proof. reflexivity. Qed.

Example split_examples :
  split "."%char "2.214.3" = ["2"; "214"; "3"] /\
  split "."%char "2" = ["2"] /\
  split "."%char "a..b." = ["a"; EmptyString; "b"; EmptyString] /\
  split "/"%char "s3://bucket/a/b.csv" = ["s3:"; EmptyString; "bucket"; "a"; "b.csv"].
Proof. repeat split. Qed.

(** ** [split] and [join] *)

Lemma split_nonempty (sep : ascii) (s : string) : split sep s <> [].
Proof.
  destruct s as [| c t]; cbn [split]; [discriminate |].
  destruct (Ascii.eqb c sep); [discriminate |].
  destruct (split sep t); discriminate.
Qed.

Lemma join_cons (sep p : string) (r : list string) :
  r <> [] -> join sep (p :: r) = p ++ sep ++ join sep r.
Proof. destruct r; [congruence | reflexivity]. Qed.

(** [sep.join(s.split(sep))] is [s]. *)
Lemma join_split (sep : ascii) (s : string) :
  join (String sep EmptyString) (split sep s) = s.
Proof.
  induction s as [| c t IH]; cbn [split]; [reflexivity |].
  destruct (Ascii.eqb_spec c sep) as [-> | Hne].
  - rewrite join_cons by apply split_nonempty. rewrite IH. reflexivity.
  - pose proof (split_nonempty sep t) as Hn.
    destruct (split sep t) as [| h r]; [congruence |].
    destruct r as [| h' r'].
    + cbn [join] in *. rewrite IH. reflexivity.
    + rewrite !join_cons in * by discriminate. rewrite <- IH. reflexivity.
Qed.

Lemma contains_char (c d : ascii) (t : string) :
  contains (String c EmptyString) (String d t) =
  Ascii.eqb d c || contains (String c EmptyString) t.
Proof.
  cbn [contains String.prefix].
  destruct (Ascii.ascii_dec c d) as [-> | Hne].
  - rewrite Ascii.eqb_refl. destruct t; reflexivity.
  - destruct (Ascii.eqb_spec d c); [congruence | reflexivity].
Qed.

(** The first part of [(a + sep + b).split(sep)] is [a] when [a] has no
    [sep]. *)
Lemma split_app (sep : ascii) (a b : string) :
  contains (String sep EmptyString) a = false ->
  split sep (a ++ String sep b) = a :: split sep b.
Proof.
  induction a as [| c a IH]; intros H.
  - cbn [append split]. rewrite Ascii.eqb_refl. reflexivity.
  - rewrite contains_char in H. apply orb_false_iff in H. destruct H as [Hc Ha].
    cbn [append split]. rewrite Hc, (IH Ha). reflexivity.
Qed.

End PyFacts.

(* ================================================================== *)
(** * The SDK doctor *)
(* ================================================================== *)

Module DoctorFacts.

Import Py Doctor.

(** ** The version check *)

Lemma int_value (py : interpreter) (s : string) (n : Z) :
  int_of_str py s = Some n -> int_ (R := bool) py s = ([], Normal n).
Proof.
  unfold int_of_str, int_. destruct (int_result_of py s); intros [=]. subst. reflexivity.
Qed.

Lemma int_error (py : interpreter) (s : string) :
  int_of_str py s = None ->
  exists e, int_ (R := bool) py s = ([], Raised e) /\ exn_cls e = ValueError.
Proof.
  unfold int_of_str, int_. destruct (int_result_of py s); intros [=];
    eexists; split; reflexivity.
Qed.

Lemma parse_major_minor_split
    (py : interpreter) (version a b : string) (rest : list string) (major minor : Z) :
  split "."%char version = a :: b :: rest ->
  int_of_str py a = Some major ->
  int_of_str py b = Some minor ->
  parse_major_minor (R := bool) py version = ([], Normal (major, minor)).
Proof.
  intros Hs Ha Hb. unfold parse_major_minor.
  rewrite Hs. cbn [firstn]. rewrite (int_value _ _ _ Ha), (int_value _ _ _ Hb). reflexivity.
Qed.

(** C2: for every installed version string whose first two
    dot-separated components parse as integers [major] and [minor]
    ([int] gives these values, under the interpreter of the run: digits
    of any script, white space around them, single underscores between
    them), the version check of lines 25-43 ends without an exception,
    prints the verdict, and sets [needs_upgrade] exactly when
    [major < 2] (the SDK is compatible exactly when [2 <= major]). *)
Theorem version_check_classifies
    (w : world) (version a b : string) (rest : list string) (major minor : Z) :
  split "."%char version = a :: b :: rest ->
  int_of_str (interp w) a = Some major ->
  int_of_str (interp w) b = Some minor ->
  exists needs_upgrade : bool,
    check_version (R := bool) (with_version w version) =
      ([EImport "sagemaker" None;
        EPrint (nl ++ "✓ SageMaker SDK found: version " ++ version);
        EPrint (if needs_upgrade
                then "✗ Version " ++ version ++ " is too old. Need >= 2.0.0"
                else "✓ Version " ++ version ++ " is compatible (>= 2.0.0)")],
       Normal needs_upgrade) /\
    (needs_upgrade = true <-> major < 2) /\
    (needs_upgrade = false <-> 2 <= major).
Proof.
  intros Hs Ha Hb. exists (major <? 2). split.
  - unfold check_version, with_version, with_sagemaker.
    cbn [import_sagemaker interp]. run_py.
    rewrite (parse_major_minor_split _ _ _ _ _ _ _ Hs Ha Hb). run_py.
    destruct (major <? 2); reflexivity.
  - split.
    + apply Z.ltb_lt.
    + rewrite Z.ltb_ge. reflexivity.
Qed.

Lemma version_check_classifies_witness :
  (exists needs_upgrade : bool,
     check_version (R := bool) (with_version w_pip_fails "1.72.0") =
       ([EImport "sagemaker" None;
         EPrint (nl ++ "✓ SageMaker SDK found: version " ++ "1.72.0");
         EPrint (if needs_upgrade
                 then "✗ Version " ++ "1.72.0" ++ " is too old. Need >= 2.0.0"
                 else "✓ Version " ++ "1.72.0" ++ " is compatible (>= 2.0.0)")],
        Normal needs_upgrade) /\
     (needs_upgrade = true <-> 1 < 2) /\
     (needs_upgrade = false <-> 2 <= 1)) /\
  (exists needs_upgrade : bool,
     check_version (R := bool) (with_version w_pip_fails "٣.0") =
       ([EImport "sagemaker" None;
         EPrint (nl ++ "✓ SageMaker SDK found: version " ++ "٣.0");
         EPrint (if needs_upgrade
                 then "✗ Version " ++ "٣.0" ++ " is too old. Need >= 2.0.0"
                 else "✓ Version " ++ "٣.0" ++ " is compatible (>= 2.0.0)")],
        Normal needs_upgrade) /\
     (needs_upgrade = true <-> 3 < 2) /\
     (needs_upgrade = false <-> 2 <= 3)).
Proof.
  split.
  - apply (version_check_classifies w_pip_fails "1.72.0" "1" "72" ["0"] 1 72); reflexivity.
  - apply (version_check_classifies w_pip_fails "٣.0" "٣" "0" [] 3 0); reflexivity.
Defined.

Example version_2_is_compatible :
  snd (check_version (R := bool) (with_version w_old_sdk "2.214.3")) = Normal false.
Proof. reflexivity. Qed.

(** Digits of another script are read as [int] reads them: ["٣.0"] is
    version 3, compatible, and ["١.0"] is version 1, too old. *)
Example version_in_other_digits :
  snd (check_version (R := bool) (with_version w_old_sdk "٣.0")) = Normal false /\
  snd (main (with_version w_old_sdk "٣.0")) = 0 /\
  snd (check_version (R := bool) (with_version w_old_sdk "١.0")) = Normal true /\
  pip_ran (fst (main (with_version w_old_sdk "١.0"))) = true.
Proof. repeat split. Qed.

(** A separator in front of the number is no white space for [int]:
    the check raises, and pip is not started. *)
Example version_after_separator :
  snd (check_version (R := bool) (with_version w_old_sdk (chr 28 ++ "2.0"))) =
    Raised (invalid_literal cpython_3_11 (chr 28 ++ "2")) /\
  snd (main (with_version w_old_sdk (chr 28 ++ "2.0"))) = 1 /\
  pip_ran (fst (main (with_version w_old_sdk (chr 28 ++ "1.0")))) = false.
Proof. repeat split. Qed.

(** C10: there are version strings whose first two components do not
    both parse -- ["2"] has one component only, and in ["2.0rc1"] the
    second is not an integer -- on which the version check raises a
    [ValueError] that no [except] clause of the function catches: the
    function prints neither verdict, returns nothing, and the process
    ends with the interpreter's status for an uncaught exception. *)
Theorem malformed_version_raises (w : world) :
  firstn 2 (split "."%char "2") = ["2"] /\
  firstn 2 (split "."%char "2.0rc1") = ["2"; "0rc1"] /\
  int_of_str (interp w) "0rc1" = None /\
  check_and_install_sagemaker (with_version w "2") =
    ((banner w ++
      [EImport "sagemaker" None;
       EPrint (nl ++ "✓ SageMaker SDK found: version 2")])%list,
     Raised (not_enough_values 1)) /\
  check_and_install_sagemaker (with_version w "2.0rc1") =
    ((banner w ++
      [EImport "sagemaker" None;
       EPrint (nl ++ "✓ SageMaker SDK found: version 2.0rc1")])%list,
     Raised (invalid_literal (interp w) "0rc1")) /\
  exn_cls (not_enough_values 1) = ValueError /\
  exn_cls (invalid_literal (interp w) "0rc1") = ValueError /\
  exn_msg (invalid_literal (interp w) "0rc1") =
    "invalid literal for int() with base 10: '0rc1'" /\
  snd (main (with_version w "2")) = 1 /\
  snd (main (with_version w "2.0rc1")) = 1.
Proof.
  repeat split; reflexivity.
Qed.

(** X4: every version string whose first two components do not both
    parse (there is one component only, or [int] raises on one of the
    two, under the interpreter of the run) ends the function with a
    [ValueError], and the process with status 1. *)
Theorem unparsable_version_raises (w : world) (version : string) :
  parses (interp w) version = false ->
  exists e,
    check_and_install_sagemaker (with_version w version) =
      ((banner w ++
        [EImport "sagemaker" None;
         EPrint (nl ++ "✓ SageMaker SDK found: version " ++ version)])%list,
       Raised e) /\
    exn_cls e = ValueError /\
    snd (main (with_version w version)) = 1.
Proof.
  intros Hp.
  assert (Hparse : exists e, parse_major_minor (R := bool) (interp w) version =
                               ([], Raised e) /\
                             exn_cls e = ValueError).
  { unfold parses in Hp. unfold parse_major_minor.
    destruct (split "."%char version) as [| a [| b r]]; cbn [firstn].
    - eexists. split; reflexivity.
    - destruct (int_of_str (interp w) a) as [n |] eqn:Ha.
      + rewrite (int_value _ _ _ Ha). eexists. split; reflexivity.
      + destruct (int_error _ _ Ha) as (e & -> & He). exists e. split; [reflexivity | exact He].
    - destruct (int_of_str (interp w) a) as [n |] eqn:Ha.
      + rewrite (int_value _ _ _ Ha). run_py.
        destruct (int_of_str (interp w) b) as [m |] eqn:Hb; [discriminate Hp |].
        destruct (int_error _ _ Hb) as (e & -> & He). exists e. split; [reflexivity | exact He].
      + destruct (int_error _ _ Ha) as (e & -> & He). exists e. split; [reflexivity | exact He]. }
  destruct Hparse as (e & Hparse & He).
  assert (Hrun : check_and_install_sagemaker (with_version w version) =
                 ((banner w ++
                   [EImport "sagemaker" None;
                    EPrint (nl ++ "✓ SageMaker SDK found: version " ++ version)])%list,
                  Raised e)).
  { unfold check_and_install_sagemaker, check_version, with_version, with_sagemaker.
    cbn [import_sagemaker sys_version sys_executable interp]. run_py.
    rewrite Hparse. run_py. unfold is_a. rewrite He. reflexivity. }
  exists e. split; [exact Hrun |]. split; [exact He |].
  unfold main, run. rewrite Hrun. reflexivity.
Qed.

Lemma unparsable_version_raises_witness :
  (exists e,
     check_and_install_sagemaker (with_version w_old_sdk "latest") =
       ((banner w_old_sdk ++
         [EImport "sagemaker" None;
          EPrint (nl ++ "✓ SageMaker SDK found: version " ++ "latest")])%list,
        Raised e) /\
     exn_cls e = ValueError /\
     snd (main (with_version w_old_sdk "latest")) = 1) /\
  (exists e,
     check_and_install_sagemaker (with_version w_old_sdk (chr 28 ++ "2.0")) =
       ((banner w_old_sdk ++
         [EImport "sagemaker" None;
          EPrint (nl ++ "✓ SageMaker SDK found: version " ++ (chr 28 ++ "2.0"))])%list,
        Raised e) /\
     exn_cls e = ValueError /\
     snd (main (with_version w_old_sdk (chr 28 ++ "2.0"))) = 1).
Proof.
  split.
  - apply (unparsable_version_raises w_old_sdk "latest"). reflexivity.
  - apply (unparsable_version_raises w_old_sdk (chr 28 ++ "2.0")). reflexivity.
Defined.

(** ** How the stages end *)

Lemma parse_major_minor_ends (py : interpreter) (version : string) :
  (exists mm, parse_major_minor (R := bool) py version = ([], Normal mm)) \/
  (exists e, parse_major_minor (R := bool) py version = ([], Raised e) /\
             exn_cls e = ValueError).
Proof.
  unfold parse_major_minor.
  destruct (firstn 2 (split "."%char version)) as [| a [| b r]].
  - right. eexists. split; reflexivity.
  - right. destruct (int_of_str py a) as [n |] eqn:Ha.
    + rewrite (int_value _ _ _ Ha). eexists. split; reflexivity.
    + destruct (int_error _ _ Ha) as (e & -> & He). exists e. split; [reflexivity | exact He].
  - destruct (int_of_str py a) as [n |] eqn:Ha.
    + rewrite (int_value _ _ _ Ha). run_py.
      destruct (int_of_str py b) as [m |] eqn:Hb.
      * rewrite (int_value _ _ _ Hb). left. eexists. reflexivity.
      * right. destruct (int_error _ _ Hb) as (e & -> & He).
        exists e. split; [reflexivity | exact He].
    + right. destruct (int_error _ _ Ha) as (e & -> & He).
      exists e. split; [reflexivity | exact He].
Qed.

Lemma check_version_ends (w : world) :
  exists t o,
    check_version (R := bool) w = (t, o) /\
    pip_ran t = false /\
    last_import "sagemaker.workflow" t = None /\
    match o with Returned _ => False | _ => True end.
Proof.
  unfold check_version.
  destruct (import_sagemaker w) as [e | version]; run_py.
  - destruct (is_a ImportError e); run_py; do 2 eexists; repeat split; reflexivity.
  - destruct (parse_major_minor_ends (interp w) version) as [[[major minor] H] | [e [H He]]];
      rewrite H; run_py.
    + destruct (major <? 2); run_py; do 2 eexists; repeat split; reflexivity.
    + unfold is_a. rewrite He. do 2 eexists; repeat split; reflexivity.
Qed.

Lemma check_workflow_ends (w : world) (needs_upgrade : bool) :
  exists t o,
    check_workflow (R := bool) w needs_upgrade = (t, o) /\
    pip_ran t = false /\
    match o with
    | Normal (true, nu) => nu = false /\ last_import "sagemaker.workflow" t = Some None
    | Normal (false, nu) => nu = true /\ last_import "sagemaker.workflow" t <> Some None
    | Returned _ => False
    | Raised _ => last_import "sagemaker.workflow" t <> Some None
    end.
Proof.
  unfold check_workflow. destruct needs_upgrade; cbn [negb].
  - do 2 eexists. repeat split; try reflexivity. discriminate.
  - destruct (import_workflow w) as [e |]; run_py.
    + destruct (is_a ImportError e); run_py; do 2 eexists;
        repeat split; try reflexivity; discriminate.
    + do 2 eexists. repeat split; reflexivity.
Qed.

Lemma upgrade_ends (w : world) (workflow_available : bool) :
  exists t o,
    upgrade w workflow_available true = (t, o) /\
    pip_ran t = true /\
    match o with
    | Normal wa => wa = true /\ last_import "sagemaker.workflow" t = Some None
    | Returned r => r = false /\ last_import "sagemaker.workflow" t <> Some None
    | Raised _ => last_import "sagemaker.workflow" t <> Some None
    end /\
    (forall e, pip_install w = Some e -> is_a CalledProcessError e = true ->
       t = (upgrade_banner ++ [ERun (pip_argv w) (Some e)] ++ remediation w e)%list /\
       o = Returned false).
Proof.
  unfold upgrade. run_py.
  destruct (pip_install w) as [e |]; run_py.
  - destruct (is_a CalledProcessError e) eqn:He; run_py; finish_stage.
  - destruct (reimport_sagemaker w) as [e | version]; run_py.
    + destruct (is_a CalledProcessError e) eqn:He; run_py; finish_stage.
    + destruct (reimport_workflow w) as [e |]; run_py.
      * destruct (is_a ImportError e) eqn:He; run_py; [finish_stage |].
        destruct (is_a CalledProcessError e) eqn:He'; run_py; finish_stage.
      * finish_stage.
Qed.

(** ** Observations across stages *)

Lemma last_import_app (m : string) (t u : list event) :
  last_import m (t ++ u) =
  match last_import m u with
  | Some r => Some r
  | None => last_import m t
  end.
Proof.
  induction t as [| ev t IH]; cbn [app last_import].
  - destruct (last_import m u); reflexivity.
  - rewrite IH. destruct (last_import m u); reflexivity.
Qed.

Lemma last_import_print (m line : string) (t : list event) :
  last_import m (EPrint line :: t) = last_import m t.
Proof. cbn [last_import]. destruct (last_import m t); reflexivity. Qed.

Lemma pip_ran_print (line : string) (t : list event) :
  pip_ran (EPrint line :: t) = pip_ran t.
Proof. reflexivity. Qed.

Lemma pip_ran_app (t u : list event) : pip_ran (t ++ u) = pip_ran t || pip_ran u.
Proof. apply existsb_app. Qed.

Create Rewrite HintDb doctor_trace.

#[local] Hint Rewrite last_import_print pip_ran_print last_import_app pip_ran_app
  : doctor_trace.

(** The whole function: the value it gives, whether pip was started, and
    how the last import of the workflow module went. *)
Lemma check_and_install_ends (w : world) :
  exists t r,
    run (check_and_install_sagemaker w) false = (t, r) /\
    (r = inr true <-> last_import "sagemaker.workflow" t = Some None) /\
    (forall e, pip_install w = Some e -> is_a CalledProcessError e = true ->
       pip_ran t = true ->
       r = inr false /\ exists t0, t = (t0 ++ remediation w e)%list).
Proof.
  unfold check_and_install_sagemaker. run_py.
  destruct (check_version_ends w) as (t1 & o1 & E1 & P1 & L1 & S1).
  rewrite E1. destruct o1 as [needs_upgrade | r | e]; [| contradiction |]; run_py.
  2:{ do 2 eexists. split; [reflexivity |]. observe. rewrite L1, P1. split.
      - split; discriminate.
      - intros; discriminate. }
  destruct (check_workflow_ends w needs_upgrade) as (t2 & o2 & E2 & P2 & S2).
  rewrite E2. destruct o2 as [[wa nu] | r | e]; [| contradiction |]; run_py.
  2:{ do 2 eexists. split; [reflexivity |]. observe. rewrite L1, P1, P2.
      destruct (last_import "sagemaker.workflow" t2) as [[x |] |]; split;
        try (split; congruence); intros; discriminate. }
  destruct nu.
  - assert (L2 : last_import "sagemaker.workflow" t2 <> Some None)
      by (destruct wa; [destruct S2; discriminate | apply S2]).
    destruct (upgrade_ends w wa) as (t3 & o3 & E3 & P3 & S3 & C3).
    rewrite E3. destruct o3 as [wa' | r | e]; run_py.
    + destruct S3 as [-> L3]. run_py.
      do 2 eexists. split; [reflexivity |]. observe. rewrite L3. split.
      * split; reflexivity.
      * intros e He Hc _. destruct (C3 e He Hc) as [_ [=]].
    + destruct S3 as [-> L3].
      do 2 eexists. split; [reflexivity |]. observe. rewrite L1. split.
      * split; [discriminate |].
        destruct (last_import "sagemaker.workflow" t3) as [[x |] |];
          [discriminate | congruence |].
        destruct (last_import "sagemaker.workflow" t2) as [[x |] |];
          [discriminate | congruence | discriminate].
      * intros e He Hc _. destruct (C3 e He Hc) as [-> _].
        split; [reflexivity |].
        eexists. rewrite !app_comm_cons, !app_assoc. reflexivity.
    + do 2 eexists. split; [reflexivity |]. observe. rewrite L1. split.
      * split; [discriminate |].
        destruct (last_import "sagemaker.workflow" t3) as [[x |] |];
          [discriminate | congruence |].
        destruct (last_import "sagemaker.workflow" t2) as [[x |] |];
          [discriminate | congruence | discriminate].
      * intros e' He Hc _. destruct (C3 e' He Hc) as [_ [=]].
  - destruct wa; [| destruct S2; discriminate].
    destruct S2 as [_ L2]. unfold upgrade. run_py.
    do 2 eexists. split; [reflexivity |]. observe. rewrite L2, P1, P2. split.
    + split; reflexivity.
    + intros; discriminate.
Qed.

(** C6: the process ends with status 0 exactly when
    [check_and_install_sagemaker] returns [True], and with status 1 in
    every other case; the function returns [True] exactly when the last
    import of the workflow module succeeded; and when pip was started
    and [check_call] raised [CalledProcessError], the function returns
    [False] after the three lines of manual remediation, and the status
    is 1. *)
Theorem doctor_exit_status (w : world) :
  let t := fst (main w) in
  let result := snd (run (check_and_install_sagemaker w) false) in
  let status := snd (main w) in
  (status = 0 <-> result = inr true) /\
  (status = 1 <-> result <> inr true) /\
  (result = inr true <-> last_import "sagemaker.workflow" t = Some None) /\
  (forall e,
     pip_install w = Some e -> is_a CalledProcessError e = true -> pip_ran t = true ->
     result = inr false /\ status = 1 /\
     exists t0, t = (t0 ++ remediation w e)%list).
Proof.
  unfold main.
  destruct (check_and_install_ends w) as (t & r & E & L & C).
  rewrite E. cbn zeta.
  assert (Ht : fst (let '(t0, r0) := (t, r) in
                    match r0 with
                    | inl _ => (t0, 1)
                    | inr success => (t0, if success then 0 else 1)
                    end) = t) by (destruct r as [e | []]; reflexivity).
  rewrite Ht. cbn [snd fst].
  repeat split.
  - destruct r as [e | []]; cbn [snd]; intros; congruence.
  - intros ->. reflexivity.
  - destruct r as [e | []]; cbn [snd]; intros; congruence.
  - destruct r as [e | []]; cbn [snd]; intros; congruence.
  - apply L.
  - apply L.
  - apply (C e); assumption.
  - destruct (C e H H0 H1) as [-> _]. reflexivity.
  - apply (C e); assumption.
Qed.

Lemma doctor_exit_status_witness :
  snd (run (check_and_install_sagemaker w_pip_fails) false) = inr false /\
  snd (main w_pip_fails) = 1 /\
  exists t0, fst (main w_pip_fails) = (t0 ++ remediation w_pip_fails pip_failure)%list.
Proof.
  apply (doctor_exit_status w_pip_fails); reflexivity.
Defined.

Example old_sdk_is_upgraded :
  snd (main w_old_sdk) = 0 /\ pip_ran (fst (main w_old_sdk)) = true.
Proof. split; reflexivity. Qed.

(** ** Every way through the function *)

(** Line 32 either gives the two numbers or raises something neither
    handler of the function catches. *)
Lemma value_error_uncaught (e : exn) :
  exn_cls e = ValueError ->
  is_a ImportError e = false /\ is_a CalledProcessError e = false.
Proof. unfold is_a. intros ->. split; reflexivity. Qed.

Lemma parse_major_minor_numbers (py : interpreter) (version : string) :
  match version_numbers py version with
  | Some mm => parse_major_minor (R := bool) py version = ([], Normal mm)
  | None => exists e, parse_major_minor (R := bool) py version = ([], Raised e) /\
                      is_a ImportError e = false /\ is_a CalledProcessError e = false
  end.
Proof.
  unfold version_numbers, parse_major_minor.
  destruct (split "."%char version) as [| a [| b r]]; cbn [firstn].
  - eexists. repeat split.
  - destruct (int_of_str py a) as [n |] eqn:Ha.
    + rewrite (int_value _ _ _ Ha). eexists. repeat split.
    + destruct (int_error _ _ Ha) as (e & -> & He).
      exists e. split; [reflexivity | apply value_error_uncaught, He].
  - destruct (int_of_str py a) as [n |] eqn:Ha.
    + rewrite (int_value _ _ _ Ha). run_py.
      destruct (int_of_str py b) as [m |] eqn:Hb.
      * rewrite (int_value _ _ _ Hb). reflexivity.
      * destruct (int_error _ _ Hb) as (e & -> & He).
        exists e. split; [reflexivity | apply value_error_uncaught, He].
    + destruct (int_error _ _ Ha) as (e & -> & He).
      exists e. split; [reflexivity | apply value_error_uncaught, He].
Qed.

Ltac step := run_py; cbn [negb]; run_py.

(** Every way through the upgrade, where the run gets there. *)
Ltac upgrade_paths w :=
  lazymatch goal with
  | |- context [pip_install w] =>
      let ep := fresh "ep" in
      let er := fresh "er" in
      let ew := fresh "ew" in
      let version' := fresh "version'" in
      destruct (pip_install w) as [ep |] eqn:Hpip; step;
      [ destruct (is_a CalledProcessError ep) eqn:Hpipe; step
      | destruct (reimport_sagemaker w) as [er | version'] eqn:Hre; step;
        [ destruct (is_a CalledProcessError er) eqn:Hree; step
        | destruct (reimport_workflow w) as [ew |] eqn:Hrw; step;
          [ destruct (is_a ImportError ew) eqn:Hrwi; step;
            [ | destruct (is_a CalledProcessError ew) eqn:Hrwc; step ]
          | ] ] ]
  | |- _ => idtac
  end.

(** Every way through [check_and_install_sagemaker]: one goal per
    combination of answers the run asks for. *)
Ltac doctor_paths w :=
  unfold main, check_and_install_sagemaker, check_version, check_workflow, upgrade;
  step;
  let version := fresh "version" in
  let e := fresh "e" in
  let P := fresh "P" in
  let Pi := fresh "Pi" in
  let Pc := fresh "Pc" in
  destruct (import_sagemaker w) as [e | version] eqn:Hsdk; step;
  [ destruct (is_a ImportError e) eqn:Hmissing; step
  | pose proof (parse_major_minor_numbers (interp w) version) as P;
    destruct (version_numbers (interp w) version) as [[major minor] |] eqn:Hver;
    [ rewrite P; step;
      destruct (major <? 2) eqn:Hold; step;
      [ | destruct (import_workflow w) as [e |] eqn:Hwf; step;
          [ destruct (is_a ImportError e) eqn:Hwfe; step | ] ]
    | destruct P as (e & P & Pi & Pc); rewrite P; step; rewrite Pi; step ] ];
  upgrade_paths w.

(** Makes the answers named in the hypotheses the ones the path met, or
    closes the path when they differ. *)
Ltac same_answers :=
  intros; try discriminate;
  repeat match goal with
         | H : Some _ = Some _ |- _ => injection H as <-
         | H : inl _ = inl _ |- _ => injection H as <-
         | H : inr _ = inr _ |- _ => injection H as <-
         end;
  try congruence.

Lemma ends_cons {A} (x : A) (l s : list A) :
  (exists t0, l = (t0 ++ s)%list) -> exists t0, x :: l = (t0 ++ s)%list.
Proof. intros [t0 ->]. exists (x :: t0). reflexivity. Qed.

(** The trace ends with the given events. *)
Ltac ends_with := repeat first [ solve [exists []; reflexivity] | apply ends_cons ].

(** X5: no run prints the line [Some issues remain] of line 98, and the
    line [All checks passed] of line 92 is printed exactly in the runs
    in which the function returns [True]. *)
Theorem closing_verdict (w : world) :
  printed issues_remain (fst (main w)) = false /\
  (printed all_passed (fst (main w)) = true <->
   snd (run (check_and_install_sagemaker w) false) = inr true).
Proof.
  doctor_paths w.
  all: split; [reflexivity |
               split; [try discriminate; reflexivity | try discriminate; reflexivity]].
Qed.

(** X6: pip is started at most once in a run, and then with the argument
    vector of lines 64-67. *)
Theorem pip_at_most_once (w : world) :
  runs (fst (main w)) = [] \/ runs (fst (main w)) = [pip_argv w].
Proof.
  doctor_paths w.
  all: first [left; reflexivity | right; reflexivity].
Qed.

Lemma pip_ran_upgrade_needed (w : world) :
  pip_ran (fst (main w)) = upgrade_needed w.
Proof.
  unfold upgrade_needed. doctor_paths w.
  all: reflexivity.
Qed.

(** X7: pip is started exactly when [import sagemaker] raises
    [ImportError], or [int] reads the version's first two components
    as integers (under the interpreter of the run) and either the first
    is below 2 or the import of the workflow module raises
    [ImportError]. *)
Theorem pip_exactly_when_needed (w : world) :
  pip_ran (fst (main w)) = true <->
  (exists e, import_sagemaker w = inl e /\ is_a ImportError e = true) \/
  (exists version major minor,
     import_sagemaker w = inr version /\
     version_numbers (interp w) version = Some (major, minor) /\
     (major < 2 \/
      exists e, import_workflow w = Some e /\ is_a ImportError e = true)).
Proof.
  rewrite pip_ran_upgrade_needed. unfold upgrade_needed.
  destruct (import_sagemaker w) as [e | version].
  - split.
    + intros H. left. exists e. split; [reflexivity | exact H].
    + intros [(e' & [= <-] & H) | (v & ma & mi & [=] & _)]. exact H.
  - destruct (version_numbers (interp w) version) as [[major minor] |] eqn:Hver.
    + rewrite orb_true_iff, Z.ltb_lt. split.
      * intros H. right. exists version, major, minor.
        split; [reflexivity |]. split; [exact Hver |].
        destruct H as [H | H]; [left; exact H | right].
        destruct (import_workflow w) as [e |]; [| discriminate H].
        exists e. split; [reflexivity | exact H].
      * intros [(e' & [=] & _) | (v & ma & mi & [= <-] & Hv & H)].
        rewrite Hver in Hv. injection Hv as <- <-.
        destruct H as [H | (e & -> & H)]; [left; exact H | right; exact H].
    + split; [discriminate |].
      intros [(e' & [=] & _) | (v & ma & mi & [= <-] & Hv & _)].
      rewrite Hver in Hv. discriminate Hv.
Qed.

(** X8: when pip was started and succeeded, the SDK imports again, and
    the workflow module then raises [ImportError], the function returns
    [False] right after the two lines of lines 80-81 (no closing
    verdict is printed), and the status is 1. *)
Theorem still_unimportable (w : world) (version' : string) (e : exn) :
  pip_ran (fst (main w)) = true ->
  pip_install w = None ->
  reimport_sagemaker w = inr version' ->
  reimport_workflow w = Some e ->
  is_a ImportError e = true ->
  snd (run (check_and_install_sagemaker w) false) = inr false /\
  snd (main w) = 1 /\
  exists t0,
    fst (main w) =
    (t0 ++ [ERun (pip_argv w) None;
            EPrint (nl ++ "✓ Installation complete!");
            EImport "sagemaker" None;
            EPrint ("✓ New version: " ++ version');
            EImport "sagemaker.workflow" (Some e);
            EPrint ("✗ Still cannot import workflow module: " ++ exn_msg e);
            EPrint "  Please restart your Python kernel/IDE and try again"])%list.
Proof.
  doctor_paths w; same_answers.
  all: split; [reflexivity | split; [reflexivity |]].
  all: ends_with.
Qed.

Lemma still_unimportable_witness :
  snd (run (check_and_install_sagemaker w_needs_restart) false) = inr false /\
  snd (main w_needs_restart) = 1 /\
  exists t0,
    fst (main w_needs_restart) =
    (t0 ++ [ERun (pip_argv w_needs_restart) None;
            EPrint (nl ++ "✓ Installation complete!");
            EImport "sagemaker" None;
            EPrint ("✓ New version: " ++ "2.214.3");
            EImport "sagemaker.workflow" (Some no_workflow);
            EPrint ("✗ Still cannot import workflow module: " ++ exn_msg no_workflow);
            EPrint "  Please restart your Python kernel/IDE and try again"])%list.
Proof.
  apply (still_unimportable w_needs_restart "2.214.3" no_workflow); reflexivity.
Defined.

(** X9: the handler around the install (line 84) catches
    [CalledProcessError] only: when pip was started and succeeded and
    the [import sagemaker] of line 71 raises anything else, that
    exception leaves the function right after the import, and the
    status is 1. *)
Theorem reimport_failure_escapes (w : world) (e : exn) :
  pip_ran (fst (main w)) = true ->
  pip_install w = None ->
  reimport_sagemaker w = inl e ->
  is_a CalledProcessError e = false ->
  snd (run (check_and_install_sagemaker w) false) = inl e /\
  snd (main w) = 1 /\
  exists t0,
    fst (main w) =
    (t0 ++ [ERun (pip_argv w) None;
            EPrint (nl ++ "✓ Installation complete!");
            EImport "sagemaker" (Some e)])%list.
Proof.
  doctor_paths w; same_answers.
  all: split; [reflexivity | split; [reflexivity |]].
  all: ends_with.
Qed.

Lemma reimport_failure_escapes_witness :
  snd (run (check_and_install_sagemaker w_broken_install) false) = inl no_sagemaker /\
  snd (main w_broken_install) = 1 /\
  exists t0,
    fst (main w_broken_install) =
    (t0 ++ [ERun (pip_argv w_broken_install) None;
            EPrint (nl ++ "✓ Installation complete!");
            EImport "sagemaker" (Some no_sagemaker)])%list.
Proof.
  apply (reimport_failure_escapes w_broken_install no_sagemaker); reflexivity.
Defined.

End DoctorFacts.

(* ================================================================== *)
(** * The preprocessor *)
(* ================================================================== *)

Module PreprocessFacts.

Import Py Preprocess.

(** ** The 70/15/15 split *)

(** Rounding to 53 bits moves a number by at most one part in [2 ^ 53]. *)
Lemma round53_error (m : Z) :
  0 <= m ->
  (2 ^ 53 - 1) * m <= 2 ^ 53 * round53 m <= (2 ^ 53 + 1) * m.
Proof.
  intros Hm. unfold round53.
  destruct (Z.leb_spec (Z.log2 m - 52) 0) as [Hs | Hs]; [lia |].
  set (s := Z.log2 m - 52) in *.
  assert (H0 : 0 < m) by (destruct (Z.eq_dec m 0) as [-> |]; [discriminate Hs | lia]).
  pose proof (Z.log2_spec m H0) as [Hlo _].
  replace (Z.log2 m) with (53 + (s - 1)) in Hlo by (unfold s; lia).
  rewrite Z.pow_add_r in Hlo by lia.
  rewrite Z.shiftr_div_pow2 by lia.
  rewrite !Z.shiftl_mul_pow2 by lia.
  replace (2 ^ s) with (2 * 2 ^ (s - 1))
    by (rewrite <- Z.pow_succ_r by lia; f_equal; lia).
  assert (Hh : 0 < 2 ^ (s - 1)) by (apply Z.pow_pos_nonneg; lia).
  set (h := 2 ^ (s - 1)) in *.
  pose proof (Z.div_mod m (2 * h) ltac:(lia)) as Hdm.
  pose proof (Z.mod_pos_bound m (2 * h) ltac:(lia)) as Hr.
  set (q := m / (2 * h)) in *.
  replace (m - q * (2 * h)) with (m mod (2 * h)) by lia.
  set (r := m mod (2 * h)) in *.
  change (2 ^ 53) with 9007199254740992 in *.
  destruct (Z.ltb_spec h r) as [Hlt | Hge]; cbn [orb].
  - lia.
  - destruct (Z.eqb_spec r h) as [Heq | Hne]; cbn [andb].
    + destruct (Z.odd q); lia.
    + lia.
Qed.

Lemma round53_nonneg (m : Z) : 0 <= m -> 0 <= round53 m.
Proof. intros H. pose proof (round53_error m H). lia. Qed.

Lemma point_eq (c : Z) (n : nat) :
  point (mk_binary64 c (-53)) n = round53 (c * round53 (Z.of_nat n)) / 2 ^ 53.
Proof. reflexivity. Qed.

(** The two division points are in order and inside the array. *)
Lemma split_points_ordered (n : nat) :
  0 <= point c0_7 n <= point c0_85 n /\ point c0_85 n <= Z.of_nat n.
Proof.
  unfold c0_7, c0_85. rewrite !point_eq.
  set (N := Z.of_nat n). assert (HN : 0 <= N) by (unfold N; lia).
  pose proof (round53_error N HN) as HF.
  pose proof (round53_nonneg N HN) as HF0.
  set (F := round53 N) in *.
  pose proof (round53_error (6305039478318694 * F) ltac:(lia)) as HA.
  pose proof (round53_error (7656119366529843 * F) ltac:(lia)) as HB.
  set (A := round53 (6305039478318694 * F)) in *.
  set (B := round53 (7656119366529843 * F)) in *.
  change (2 ^ 53) with 9007199254740992 in *.
  repeat split.
  - apply Z.div_pos; lia.
  - apply Z.div_le_mono; lia.
  - apply Z.div_le_upper_bound; lia.
Qed.

Lemma clip_nonneg (i : Z) (n : nat) :
  0 <= i <= Z.of_nat n -> clip i n = Z.to_nat i.
Proof.
  intros H. unfold clip. destruct (Z.ltb_spec i 0); lia.
Qed.

Lemma np_split_two {A} (X : list A) (a b : Z) :
  0 <= a <= b -> b <= Z.of_nat (List.length X) ->
  exists train validation test,
    np_split X [a; b] = [train; validation; test] /\
    Z.of_nat (List.length train) = a /\
    Z.of_nat (List.length validation) = b - a /\
    Z.of_nat (List.length test) = Z.of_nat (List.length X) - b /\
    (train ++ validation ++ test)%list = X.
Proof.
  intros Hab Hb.
  exists (firstn (Z.to_nat a) X),
         (firstn (Z.to_nat b - Z.to_nat a) (skipn (Z.to_nat a) X)),
         (skipn (Z.to_nat b) X).
  split.
  - unfold np_split, slice. cbn [app combine tl map fst snd].
    rewrite !clip_nonneg by lia.
    change (Z.to_nat 0) with O. rewrite Nat.sub_0_r. cbn [skipn].
    rewrite Nat2Z.id.
    f_equal. f_equal. f_equal.
    apply firstn_all2. rewrite length_skipn. lia.
  - rewrite !length_firstn, !length_skipn.
    repeat split; try lia.
    rewrite <- (firstn_skipn (Z.to_nat a) X) at 4.
    f_equal.
    rewrite <- (firstn_skipn (Z.to_nat b - Z.to_nat a) (skipn (Z.to_nat a) X)) at 2.
    f_equal. rewrite skipn_skipn. f_equal. lia.
Qed.

(** C1: for every array [X] of [n] rows, [np.split] at
    [[int(0.7 * n), int(0.85 * n)]] gives exactly three pieces, of
    [int(0.7 * n)], [int(0.85 * n) - int(0.7 * n)] and
    [n - int(0.85 * n)] rows, which together are the [n] rows of [X] in
    order. *)
Theorem split_sizes {A : Type} (X : list A) :
  let n := List.length X in
  exists train validation test,
    np_split X (split_points n) = [train; validation; test] /\
    Z.of_nat (List.length train) = point c0_7 n /\
    Z.of_nat (List.length validation) = point c0_85 n - point c0_7 n /\
    Z.of_nat (List.length test) = Z.of_nat n - point c0_85 n /\
    (List.length train + List.length validation + List.length test)%nat = n /\
    (train ++ validation ++ test)%list = X.
Proof.
  intros n.
  destruct (split_points_ordered n) as [H1 H2].
  destruct (np_split_two X _ _ H1 H2)
    as (train & validation & test & E & Lt & Lv & Ls & App).
  exists train, validation, test.
  repeat split; try assumption.
  fold n in Ls. lia.
Qed.

(** The model of [int(c * n)] gives what the kernel's binary64
    arithmetic gives, on four thousand lengths up to [2 ^ 63 - 1]. *)
Example point_agrees_with_binary64 :
  forallb (fun n =>
             (int_of_float (fmul c0_7 (float_of_int n)) =?
              prim_point 0x1.6666666666666p-1 n) &&
             (int_of_float (fmul c0_85 (float_of_int n)) =?
              prim_point 0x1.b333333333333p-1 n))
          sample_lengths = true.
Proof. vm_compute. reflexivity. Qed.

Example abalone_split : split_points 4177 = [2923; 3550].
Proof. reflexivity. Qed.

(** ** Columns *)

Lemma label_eqb_eq (a b : label) : label_eqb a b = true <-> a = b.
Proof.
  destruct a, b; cbn [label_eqb]; try (split; [discriminate | intros [=]]).
  - rewrite String.eqb_eq. split; congruence.
  - rewrite Z.eqb_eq. split; congruence.
Qed.

Lemma position_app (l l' : label) (cols : list label) :
  position l (cols ++ [l']) =
  match position l cols with
  | Some j => Some j
  | None => if label_eqb l' l then Some (List.length cols) else None
  end.
Proof.
  induction cols as [| c r IH]; cbn [app position List.length].
  - destruct (label_eqb l' l); reflexivity.
  - destruct (label_eqb c l); [reflexivity |].
    rewrite IH. destruct (position l r); [reflexivity |].
    destruct (label_eqb l' l); reflexivity.
Qed.

Lemma position_lt (l : label) (cols : list label) (j : nat) :
  position l cols = Some j -> (j < List.length cols)%nat.
Proof.
  revert j. induction cols as [| c r IH]; intros j; cbn [position List.length].
  - discriminate.
  - destruct (label_eqb c l); [intros [= <-]; lia |].
    destruct (position l r) as [k |]; [| discriminate].
    intros [= <-]. specialize (IH k eq_refl). lia.
Qed.

Lemma position_nth (l : label) (cols : list label) (j : nat) :
  position l cols = Some j -> nth_error cols j = Some l.
Proof.
  revert j. induction cols as [| c r IH]; intros j; cbn [position].
  - discriminate.
  - destruct (label_eqb c l) eqn:E.
    + intros [= <-]. apply label_eqb_eq in E. subst. reflexivity.
    + destruct (position l r) as [k |]; [| discriminate].
      intros [= <-]. cbn. apply IH. reflexivity.
Qed.

Lemma has_column_set_column (c c' : string) (vals : list cell) (df : DataFrame) :
  has_column c (set_column c' vals df) = has_column c df || String.eqb c' c.
Proof.
  unfold has_column, set_column.
  destruct (position (LStr c') (df_columns df)) as [j |] eqn:Hc'; cbn [df_columns].
  - destruct (String.eqb_spec c' c) as [-> | Hne].
    + rewrite Hc'. reflexivity.
    + rewrite orb_false_r. reflexivity.
  - rewrite position_app. cbn [label_eqb].
    destruct (position (LStr c) (df_columns df)); [reflexivity |].
    destruct (String.eqb c' c); reflexivity.
Qed.

Lemma set_column_index (c : string) (vals : list cell) (df : DataFrame) :
  df_index (set_column c vals df) = df_index df.
Proof. unfold set_column. destruct (position _ _); reflexivity. Qed.

Lemma nth_replace_nth_same {A} (j : nat) (v d : A) (l : list A) :
  (j < List.length l)%nat -> nth j (replace_nth j v l) d = v.
Proof.
  revert j. induction l as [| x l IH]; intros [| j] H; cbn in *; try lia; auto.
  apply IH. lia.
Qed.

Lemma nth_replace_nth_other {A} (j k : nat) (v d : A) (l : list A) :
  j <> k -> nth j (replace_nth k v l) d = nth j l d.
Proof.
  revert j k. induction l as [| x l IH]; intros [| j] [| k] H; cbn; try lia; auto.
Qed.

Lemma length_replace_nth {A} (j : nat) (v : A) (l : list A) :
  List.length (replace_nth j v l) = List.length l.
Proof.
  revert j. induction l as [| x l IH]; intros [| j]; cbn; auto.
Qed.

(** Column assignment on a well-formed frame: the frame stays well
    formed, the column reads back as given, the others are untouched. *)
Lemma set_column_rows (c : string) (vals : list cell) (df : DataFrame) :
  well_formed df ->
  List.length vals = List.length (df_rows df) ->
  well_formed (set_column c vals df) /\
  column c (set_column c vals df) = Some vals /\
  forall c', c' <> c -> column c' (set_column c vals df) = column c' df.
Proof.
  intros [Hlen Hrows] Hvals. unfold set_column, column, well_formed.
  destruct (position (LStr c) (df_columns df)) as [j |] eqn:Hj;
    cbn [df_index df_columns df_rows].
  - pose proof (position_lt _ _ _ Hj) as Hlt. rewrite Hj.
    assert (G : forall rows vals,
               Forall (fun row => List.length row = List.length (df_columns df)) rows ->
               List.length vals = List.length rows ->
               let rows' := map (fun rv => replace_nth j (snd rv) (fst rv)) (combine rows vals) in
               List.length rows' = List.length rows /\
               Forall (fun row => List.length row = List.length (df_columns df)) rows' /\
               map (fun row => nth j row NaN) rows' = vals /\
               forall k, k <> j ->
                 map (fun row => nth k row NaN) rows' = map (fun row => nth k row NaN) rows).
    { clear - Hlt. induction rows as [| row rows IH]; intros [| v vals] HF HL;
        cbn [combine map List.length fst snd] in *; try discriminate.
      - repeat split; auto.
      - inversion HF as [| ? ? Hrow HF']; subst.
        destruct (IH vals HF' ltac:(lia)) as (L & F & S & O).
        repeat split.
        + cbn zeta in L. lia.
        + constructor; [rewrite length_replace_nth; exact Hrow | exact F].
        + cbn zeta in S. rewrite S, nth_replace_nth_same by lia. reflexivity.
        + intros k Hk. cbn zeta in O. rewrite (O k Hk), nth_replace_nth_other by exact Hk.
          reflexivity. }
    destruct (G (df_rows df) vals Hrows Hvals) as (L & F & S & O). cbn zeta in *.
    repeat split.
    + lia.
    + exact F.
    + rewrite S. reflexivity.
    + intros c' Hc'.
      destruct (position (LStr c') (df_columns df)) as [k |] eqn:Hk; [| reflexivity].
      rewrite O; [reflexivity |].
      intros ->. apply position_nth in Hj, Hk. congruence.
  - assert (G : forall rows vals,
               Forall (fun row => List.length row = List.length (df_columns df)) rows ->
               List.length vals = List.length rows ->
               let rows' := map (fun rv => (fst rv ++ [snd rv])%list) (combine rows vals) in
               List.length rows' = List.length rows /\
               Forall (fun row => List.length row =
                                  List.length (df_columns df ++ [LStr c])%list) rows' /\
               map (fun row => nth (List.length (df_columns df)) row NaN) rows' = vals /\
               forall k, (k < List.length (df_columns df))%nat ->
                 map (fun row => nth k row NaN) rows' = map (fun row => nth k row NaN) rows).
    { clear. induction rows as [| row rows IH]; intros [| v vals] HF HL;
        cbn [combine map List.length fst snd] in *; try discriminate.
      - repeat split; auto.
      - inversion HF as [| ? ? Hrow HF']; subst.
        destruct (IH vals HF' ltac:(lia)) as (L & F & S & O).
        repeat split.
        + cbn zeta in L. lia.
        + constructor; [rewrite !length_app; cbn; lia | exact F].
        + cbn zeta in S. rewrite S, <- Hrow, nth_middle. reflexivity.
        + intros k Hk. cbn zeta in O. rewrite (O k Hk), app_nth1 by lia. reflexivity. }
    destruct (G (df_rows df) vals Hrows Hvals) as (L & F & S & O). cbn zeta in *.
    rewrite position_app, Hj. cbn [label_eqb]. rewrite String.eqb_refl.
    repeat split.
    + lia.
    + exact F.
    + rewrite S. reflexivity.
    + intros c' Hc'. rewrite position_app. cbn [label_eqb].
      destruct (position (LStr c') (df_columns df)) as [k |] eqn:Hk.
      * rewrite O; [reflexivity | eapply position_lt; exact Hk].
      * destruct (String.eqb_spec c c'); [congruence | reflexivity].
Qed.

Lemma positions_ok (cols : list string) (have : list label) :
  (forall c, In c cols -> position (LStr c) have <> None) ->
  exists js, positions cols have = inr js.
Proof.
  induction cols as [| c r IH]; intros H; cbn [positions].
  - eexists. reflexivity.
  - destruct (position (LStr c) have) as [j |] eqn:Hj.
    + destruct IH as [js ->]; [intros; apply H; right; assumption |].
      eexists. reflexivity.
    + exfalso. apply (H c); [left; reflexivity | exact Hj].
Qed.

Lemma select_ok (cols : list string) (df : DataFrame) :
  (forall c, In c cols -> has_column c df = true) ->
  exists rows, select cols df = inr (mk_frame (df_index df) (map LStr cols) rows).
Proof.
  intros H. unfold select.
  destruct (positions_ok cols (df_columns df)) as [js ->].
  - intros c Hc. specialize (H c Hc). unfold has_column in H.
    destruct (position (LStr c) (df_columns df)); [discriminate | discriminate H].
  - eexists. reflexivity.
Qed.

(** ** The default index *)

Lemma existsb_eqb_seq (a b n : nat) :
  (a < b)%nat -> existsb (Z.eqb (Z.of_nat a)) (map Z.of_nat (seq b n)) = false.
Proof.
  revert b. induction n as [| n IH]; intros b Hab; cbn [seq map existsb].
  - reflexivity.
  - rewrite IH by lia. destruct (Z.eqb_spec (Z.of_nat a) (Z.of_nat b)); [lia | reflexivity].
Qed.

Lemma has_duplicates_seq (a n : nat) :
  has_duplicates (map Z.of_nat (seq a n)) = false.
Proof.
  revert a. induction n as [| n IH]; intros a; cbn [seq map has_duplicates].
  - reflexivity.
  - rewrite IH, existsb_eqb_seq by lia. reflexivity.
Qed.

Lemma index_equals_refl (idx : list Z) : index_equals idx idx = true.
Proof.
  induction idx as [| i r IH]; cbn [index_equals]; [reflexivity |].
  rewrite Z.eqb_refl, IH. reflexivity.
Qed.

Lemma index_equals_eq (a b : list Z) : index_equals a b = true -> a = b.
Proof.
  revert b. induction a as [| x a IH]; intros [| y b]; cbn [index_equals];
    try discriminate; [reflexivity |].
  rewrite andb_true_iff, Z.eqb_eq. intros [-> H]. f_equal. apply IH, H.
Qed.

Lemma lookup_seq (l : Z) (v : cell) (a m : nat) :
  lookup l (map Z.of_nat (seq a m)) (repeat v m) =
  if (Z.of_nat a <=? l) && (l <? Z.of_nat (a + m)) then Some v else None.
Proof.
  revert a. induction m as [| m IH]; intros a; cbn [seq map repeat lookup].
  - destruct (Z.leb_spec (Z.of_nat a) l), (Z.ltb_spec l (Z.of_nat (a + 0))); try reflexivity; lia.
  - rewrite IH.
    destruct (Z.eqb_spec (Z.of_nat a) l) as [<- | Hne].
    + destruct (Z.leb_spec (Z.of_nat a) (Z.of_nat a)),
               (Z.ltb_spec (Z.of_nat a) (Z.of_nat (a + S m))); try reflexivity; lia.
    + destruct (Z.leb_spec (Z.of_nat (S a)) l), (Z.ltb_spec l (Z.of_nat (S a + m))),
               (Z.leb_spec (Z.of_nat a) l), (Z.ltb_spec l (Z.of_nat (a + S m)));
        try reflexivity; lia.
Qed.

(** ** The synthetic columns *)

Lemma event_time_default (now : Z) (n a m : nat) :
  (a + m <= n)%nat ->
  map (event_time_at now n) (map Z.of_nat (seq a m)) = repeat (CStr (str_of_int now)) m.
Proof.
  revert a. induction m as [| m IH]; intros a H; cbn [seq map repeat]; [reflexivity |].
  rewrite IH by lia. f_equal. unfold event_time_at.
  destruct (Z.leb_spec 0 (Z.of_nat a)), (Z.ltb_spec (Z.of_nat a) (Z.of_nat n));
    try reflexivity; lia.
Qed.

(** What the assignment of the fresh Series leaves in [event_time]. *)
Lemma event_time_values (now : Z) (idx : list Z) :
  reindex_for_setitem
    (mk_series (range (List.length idx))
               (repeat (CStr (str_of_int now)) (List.length idx))) idx =
  inr (map (event_time_at now (List.length idx)) idx).
Proof.
  unfold reindex_for_setitem. cbn [s_index s_values].
  destruct (index_equals (range (List.length idx)) idx) eqn:Heq; cbn [orb].
  - apply index_equals_eq in Heq. f_equal.
    rewrite <- Heq at 3. unfold range. rewrite event_time_default by lia. reflexivity.
  - destruct (Nat.eqb_spec (List.length idx) 0) as [H0 | Hn].
    + destruct idx; [reflexivity | discriminate H0].
    + unfold range at 1. rewrite has_duplicates_seq. f_equal.
      apply map_ext. intros l. unfold range. rewrite lookup_seq.
      unfold event_time_at. cbn [Z.of_nat Nat.add].
      destruct (_ && _); reflexivity.
Qed.

Lemma add_synthetic_columns_ok (now : Z) (df : DataFrame) :
  exists df_fs,
    add_synthetic_columns now df = inr df_fs /\
    df_index df_fs = df_index df /\
    has_column "rings" df_fs = has_column "rings" df.
Proof.
  unfold add_synthetic_columns, len. rewrite event_time_values.
  eexists. split; [reflexivity |]. split.
  - rewrite !set_column_index. reflexivity.
  - rewrite !has_column_set_column.
    change ("event_time" =? "rings")%string with false.
    change ("record_id" =? "rings")%string with false.
    rewrite !orb_false_r. reflexivity.
Qed.

(** The two columns of lines 98-101 on a well-formed frame. *)
Lemma synthetic_columns_values (now : Z) (df : DataFrame) :
  well_formed df ->
  exists df_fs,
    add_synthetic_columns now df = inr df_fs /\
    column "event_time" df_fs = Some (map (event_time_at now (len df)) (df_index df)) /\
    column "record_id" df_fs = Some (map (fun i => CStr (str_of_int i)) (df_index df)).
Proof.
  intros Hwf. unfold add_synthetic_columns, len. rewrite event_time_values.
  eexists. split; [reflexivity |].
  destruct Hwf as [Hlen Hrows].
  destruct (set_column_rows "event_time"
              (map (event_time_at now (List.length (df_index df))) (df_index df)) df
              (conj Hlen Hrows))
    as (Hwf1 & He & _); [rewrite length_map; lia |].
  set (df1 := set_column "event_time" _ df) in *.
  assert (Hi1 : df_index df1 = df_index df) by apply set_column_index.
  destruct (set_column_rows "record_id"
              (map (fun i => CStr (str_of_int i)) (df_index df1)) df1 Hwf1)
    as (_ & Hr & Ho); [rewrite length_map; destruct Hwf1; lia |].
  rewrite Ho by discriminate. rewrite He, Hr, Hi1. split; reflexivity.
Qed.

Lemma well_formed_three : well_formed frame_three.
Proof. split; [reflexivity | repeat constructor]. Qed.

Lemma well_formed_labelled_5 : well_formed frame_labelled_5.
Proof. split; [reflexivity | repeat constructor]. Qed.

(** X1: for every well-formed frame, the row labelled [l] has the
    stringified timestamp in [event_time] exactly when [0 <= l < n], and
    [nan] otherwise. *)
Theorem event_time_by_label (now : Z) (df : DataFrame) :
  well_formed df ->
  exists df_fs,
    add_synthetic_columns now df = inr df_fs /\
    column "event_time" df_fs =
      Some (map (fun l => if (0 <=? l) && (l <? Z.of_nat (len df))
                          then CStr (str_of_int now) else CNum nan)
                (df_index df)).
Proof.
  intros Hwf.
  destruct (synthetic_columns_values now df Hwf) as (df_fs & E & He & _).
  exists df_fs. split; [exact E | exact He].
Qed.

Lemma event_time_by_label_witness :
  exists df_fs,
    add_synthetic_columns 1700000000 frame_labelled_5 = inr df_fs /\
    column "event_time" df_fs =
      Some (map (fun l => if (0 <=? l) && (l <? Z.of_nat (len frame_labelled_5))
                          then CStr (str_of_int 1700000000) else CNum nan)
                (df_index frame_labelled_5)).
Proof.
  apply (event_time_by_label 1700000000 frame_labelled_5).
  split; [reflexivity | repeat constructor].
Defined.

(** X2: under the default index every row of the batch has the same
    stringified timestamp. *)
Theorem event_time_default_index (now : Z) (df : DataFrame) :
  well_formed df ->
  df_index df = range (len df) ->
  exists df_fs,
    add_synthetic_columns now df = inr df_fs /\
    column "event_time" df_fs = Some (repeat (CStr (str_of_int now)) (len df)).
Proof.
  intros Hwf Hidx.
  destruct (synthetic_columns_values now df Hwf) as (df_fs & E & He & _).
  exists df_fs. split; [exact E |].
  rewrite He. f_equal. rewrite Hidx. unfold range.
  apply event_time_default. lia.
Qed.

Lemma event_time_default_index_witness :
  exists df_fs,
    add_synthetic_columns 1700000000 frame_three = inr df_fs /\
    column "event_time" df_fs = Some (repeat (CStr (str_of_int 1700000000)) (len frame_three)).
Proof.
  apply (event_time_default_index 1700000000 frame_three).
  - split; [reflexivity | repeat constructor].
  - reflexivity.
Defined.

Lemma NoDup_map_injective {A B} (f : A -> B) (l : list A) :
  (forall x y, f x = f y -> x = y) -> NoDup l -> NoDup (map f l).
Proof.
  intros Hf H. induction H as [| x l Hx _ IH]; cbn [map]; constructor; [| exact IH].
  intros Hin. apply in_map_iff in Hin. destruct Hin as (y & Hy & Hin).
  apply Hf in Hy. subst y. contradiction.
Qed.

(** X3: [record_id] is the stringified row label, so the record ids of
    a batch are pairwise distinct whenever the row labels are. *)
Theorem record_id_distinct (now : Z) (df : DataFrame) :
  well_formed df ->
  NoDup (df_index df) ->
  exists df_fs,
    add_synthetic_columns now df = inr df_fs /\
    column "record_id" df_fs = Some (map (fun i => CStr (str_of_int i)) (df_index df)) /\
    NoDup (map (fun i => CStr (str_of_int i)) (df_index df)).
Proof.
  intros Hwf Hnd.
  destruct (synthetic_columns_values now df Hwf) as (df_fs & E & _ & Hr).
  exists df_fs. split; [exact E |]. split; [exact Hr |].
  apply NoDup_map_injective; [| exact Hnd].
  intros i j [= H]. apply PyFacts.str_of_int_inj, H.
Qed.

Lemma record_id_distinct_witness :
  exists df_fs,
    add_synthetic_columns 1700000000 frame_relabelled = inr df_fs /\
    column "record_id" df_fs =
      Some (map (fun i => CStr (str_of_int i)) (df_index frame_relabelled)) /\
    NoDup (map (fun i => CStr (str_of_int i)) (df_index frame_relabelled)).
Proof.
  apply (record_id_distinct 1700000000 frame_relabelled).
  - split; [reflexivity | repeat constructor].
  - repeat constructor; cbn; intuition discriminate.
Defined.

(** The three identifiers of that frame. *)
Example record_id_relabelled :
  map (fun i => CStr (str_of_int i)) (df_index frame_relabelled) =
  [CStr "5"; CStr "2"; CStr "9"].
Proof. reflexivity. Qed.

(** C7 (the code departs from it): the frame [frame_labelled_5] has one
    row, labelled 5 -- a unique index.  Lines 98-101 leave [nan] in its
    [event_time], not the stringified timestamp, because the fresh
    Series has a value under label 0 only; with every SDK call
    succeeding, that frame is what [write_to_feature_store] ingests.
    [record_id] is the stringified label, as the claim has it. *)
Theorem event_time_misaligned :
  well_formed frame_labelled_5 /\
  NoDup (df_index frame_labelled_5) /\
  (exists df_fs,
     add_synthetic_columns 1700000000 frame_labelled_5 = inr df_fs /\
     column "event_time" df_fs = Some [NaN] /\
     column "record_id" df_fs = Some [CStr "5"]) /\
  NaN <> CStr (str_of_int 1700000000) /\
  (exists frame,
     In (EFeatureStore (FsIngest frame) None)
        (fst (run (write_to_feature_store w_no_role frame_labelled_5
                     "abalone-features" "us-east-1" "role") tt)) /\
     column "event_time" frame = Some [NaN]).
Proof.
  split; [split; [reflexivity | repeat constructor] |].
  split; [repeat constructor; cbn; tauto |].
  split; [eexists; repeat split; reflexivity |].
  split; [discriminate |].
  eexists. split.
  - cbn. do 6 right. left. reflexivity.
  - reflexivity.
Qed.

(** ** The feature store *)

(** The test of line 131, in words that do not go through [lower]:
    the message has ["ResourceInUse"] in it, or has in it a piece that
    is ["already exists"] up to the case of its letters. *)
Lemma already_exists_words (msg : string) :
  already_exists msg = true <->
  (exists pre post, msg = pre ++ "ResourceInUse" ++ post) \/
  (exists pre mid post,
     msg = pre ++ mid ++ post /\ same_ignoring_case mid "already exists" = true).
Proof.
  unfold already_exists.
  rewrite orb_true_iff, PyFacts.contains_spec, PyFacts.contains_lower_spec by reflexivity.
  reflexivity.
Qed.

(** The loop of lines 106-113 either completes the frame, or finds no
    [rings] column, logs and returns. *)
Lemma fill_required_ends (cols : list string) (df : DataFrame) :
  (exists df', fill_required cols df = ([], Normal df') /\
               df_index df' = df_index df /\
               (forall c, In c cols -> has_column c df' = true) /\
               (In "rings" cols -> has_column "rings" df = true)) \/
  (has_column "rings" df = false /\
   fill_required cols df =
     ([ELog WARNING "Column rings not found, skipping Feature Store write"],
      Returned tt)).
Proof.
  assert (keep : forall cols df,
             (exists df', fill_required cols df = ([], Normal df') /\
                df_index df' = df_index df /\
                (forall c, has_column c df = true -> has_column c df' = true) /\
                (forall c, In c cols -> has_column c df' = true) /\
                (In "rings" cols -> has_column "rings" df = true)) \/
             (has_column "rings" df = false /\
              fill_required cols df =
                ([ELog WARNING "Column rings not found, skipping Feature Store write"],
                 Returned tt))).
  { clear. induction cols as [| col rest IH]; intros df; cbn [fill_required].
    - left. exists df. repeat split; [auto | intros c [] | intros []].
    - destruct (has_column col df) eqn:Hcol.
      + destruct (IH df) as [(df' & E & I & K & A & R) | [Hr E]]; [left | right; auto].
        exists df'. repeat split; auto.
        * intros c [<- | Hin]; auto.
        * intros [<- | Hin]; auto.
      + destruct (String.eqb_spec col "rings") as [-> | Hne].
        * right. split; [exact Hcol | reflexivity].
        * set (df1 := set_column col _ df).
          assert (K1 : forall c, has_column c df = true -> has_column c df1 = true).
          { intros c Hc. unfold df1. rewrite has_column_set_column, Hc. reflexivity. }
          assert (C1 : has_column col df1 = true).
          { unfold df1. rewrite has_column_set_column, String.eqb_refl. apply orb_true_r. }
          assert (R1 : has_column "rings" df1 = has_column "rings" df).
          { unfold df1. rewrite has_column_set_column.
            destruct (String.eqb_spec col "rings"); [contradiction | apply orb_false_r]. }
          destruct (IH df1) as [(df' & E & I & K & A & R) | [Hr E]].
          -- left. exists df'. repeat split; auto.
             ++ rewrite I. apply set_column_index.
             ++ intros c [<- | Hin]; auto.
             ++ intros [-> | Hin]; [contradiction |]. rewrite <- R1. auto.
          -- right. split; [| exact E]. rewrite <- R1. exact Hr. }
  destruct (keep cols df) as [(df' & E & I & K & A & R) | H]; [left | right; exact H].
  exists df'. auto.
Qed.

(** Lines 96-116: the frame that goes to the feature store, when the
    frame given has a [rings] column; without one the function logs and
    returns. *)
Lemma prepare_ends (w : world) (df : DataFrame) :
  exists df1,
    add_synthetic_columns (current_time_sec w) df = inr df1 /\
    ((has_column "rings" df = true /\
      exists df2 rows,
        fill_required required_cols df1 = ([], Normal df2) /\
        select required_cols df2 =
          inr (mk_frame (df_index df) (map LStr required_cols) rows)) \/
     (has_column "rings" df = false /\
      fill_required required_cols df1 =
        ([ELog WARNING "Column rings not found, skipping Feature Store write"],
         Returned tt))).
Proof.
  destruct (add_synthetic_columns_ok (current_time_sec w) df) as (df1 & E1 & I1 & R1).
  exists df1. split; [exact E1 |].
  destruct (fill_required_ends required_cols df1) as [(df2 & E2 & I2 & A2 & R2) | [Hr E2]].
  - left. split.
    + rewrite <- R1. apply R2. unfold required_cols. cbn. tauto.
    + destruct (select_ok required_cols df2 A2) as [rows Es].
      exists df2, rows. split; [exact E2 |].
      rewrite Es, I2, I1. reflexivity.
  - right. split; [| exact E2]. rewrite <- R1. exact Hr.
Qed.

(** However the SDK answers, [write_to_feature_store] returns; every
    call that raised has its log record; nothing is written to disk. *)
Lemma write_to_feature_store_returns
    (w : world) (df : DataFrame) (name region role : string) :
  exists t,
    run (write_to_feature_store w df name region role) tt = (t, inr tt) /\
    handled t = true /\
    forall p, csv_written p t = None.
Proof.
  unfold write_to_feature_store. run_py.
  destruct (import_feature_store w) as [e |]; run_py.
  { destruct (is_a ImportError e); run_py; by_cases. }
  destruct (new_session w) as [e |]; run_py.
  { destruct (is_a ImportError e); run_py; by_cases. }
  destruct (prepare_ends w df) as (df1 & -> & [[_ (df2 & rows & E2 & Es)] | [_ E2]]);
    run_py; rewrite E2; run_py; [rewrite Es; run_py | by_cases].
  set (df_fs := mk_frame _ _ rows).
  destruct (create_feature_group w) as [e |]; run_py.
  - destruct (already_exists (exn_msg e)); run_py; [| by_cases].
    destruct (ingest w df_fs) as [e' |]; run_py; [| by_cases].
    destruct (is_a ImportError e'); run_py; by_cases.
  - destruct (ingest w df_fs) as [e' |]; run_py; [| by_cases].
    destruct (is_a ImportError e'); run_py; by_cases.
Qed.

Lemma feature_store_step_ends (a : args) (w : world) (original_df : DataFrame) :
  exists t,
    feature_store_step a w original_df = (t, Normal tt) /\
    handled t = true /\
    forall p, csv_written p t = None.
Proof.
  unfold feature_store_step.
  destruct (_ && _); [| by_cases].
  destruct (negb _); run_py; [by_cases |].
  destruct (write_to_feature_store_returns w original_df
              (the (feature_group_name a)) (region_of a w)
              (the (or_else (environ w "SAGEMAKER_ROLE_ARN")
                            (environ w "TRAINING_JOB_ROLE_ARN"))))
    as (t & E & H & C).
  unfold call. rewrite E. run_py.
  exists t. auto.
Qed.

(** C5: when the flags enable the feature store and neither
    [SAGEMAKER_ROLE_ARN] nor [TRAINING_JOB_ROLE_ARN] is set, lines
    245-260 log one warning and end normally: no call into the feature
    store, no exception. *)
Theorem missing_role_skips (a : args) (w : world) (original_df : DataFrame) :
  String.eqb (lower (enable_feature_store a)) "true" = true ->
  truthy_opt (feature_group_name a) = true ->
  environ w "SAGEMAKER_ROLE_ARN" = None ->
  environ w "TRAINING_JOB_ROLE_ARN" = None ->
  feature_store_step a w original_df =
    ([ELog WARNING "IAM role not found in environment, skipping Feature Store write"],
     Normal tt).
Proof.
  intros He Hn H1 H2. unfold feature_store_step.
  rewrite He, Hn, H1, H2. reflexivity.
Qed.

Lemma missing_role_skips_witness :
  feature_store_step a_enabled w_no_role frame_three =
    ([ELog WARNING "IAM role not found in environment, skipping Feature Store write"],
     Normal tt).
Proof.
  apply (missing_role_skips a_enabled w_no_role frame_three); reflexivity.
Defined.

(** What a failed creation leads to: the handler of lines 130-135. *)
Lemma create_failure_ends
    (w : world) (df : DataFrame) (name region role : string) (e : exn) :
  import_feature_store w = None ->
  new_session w = None ->
  has_column "rings" df = true ->
  create_feature_group w = Some e ->
  exists t,
    run (write_to_feature_store w df name region role) tt = (t, inr tt) /\
    ingest_attempted t = already_exists (exn_msg e) /\
    (already_exists (exn_msg e) = false ->
       exists t0,
         t = (t0 ++ [EFeatureStore (FsCreate name role) (Some e);
                     ELog WARNING ("Could not create feature group: " ++ exn_msg e)])%list).
Proof.
  intros Hi Hs Hr Hc.
  unfold write_to_feature_store. rewrite Hi, Hs. run_py.
  destruct (prepare_ends w df) as (df1 & -> & [[_ (df2 & rows & E2 & Es)] | [Hr' _]]);
    [| congruence].
  run_py. rewrite E2. run_py. rewrite Es. run_py. rewrite Hc. run_py.
  set (df_fs := mk_frame _ _ rows).
  destruct (already_exists (exn_msg e)); run_py.
  - destruct (ingest w df_fs) as [e' |]; run_py.
    + destruct (is_a ImportError e'); run_py;
        (eexists; split; [reflexivity |]; split; [reflexivity | discriminate]).
    + eexists. split; [reflexivity |]. split; [reflexivity | discriminate].
  - eexists. split; [reflexivity |]. split; [reflexivity |].
    intros _. exists [EFeatureStore FsImport None;
                      ELog INFO ("Writing features to Feature Store: " ++ name);
                      EFeatureStore (FsSession region) None].
    reflexivity.
Qed.

(** C8: when the creation of the feature group raises [e] (the SDK was
    imported, the session made, the frame has its [rings] column), the
    function goes on to [ingest] exactly when [str(e)] contains
    ["ResourceInUse"], or contains ["already exists"] in any case of its
    letters (some piece of [str(e)] is that text up to the case of the
    letters); for any other [e] it does not call [ingest], and its last
    action is the warning that the group could not be created.  In both
    cases it returns without raising. *)
Theorem create_failure_policy
    (w : world) (df : DataFrame) (name region role : string) (e : exn) :
  import_feature_store w = None ->
  new_session w = None ->
  has_column "rings" df = true ->
  create_feature_group w = Some e ->
  exists t,
    run (write_to_feature_store w df name region role) tt = (t, inr tt) /\
    (ingest_attempted t = true <->
       (exists pre post, exn_msg e = pre ++ "ResourceInUse" ++ post) \/
       (exists pre mid post,
          exn_msg e = pre ++ mid ++ post /\
          same_ignoring_case mid "already exists" = true)) /\
    (ingest_attempted t = false ->
       exists t0,
         t = (t0 ++ [EFeatureStore (FsCreate name role) (Some e);
                     ELog WARNING ("Could not create feature group: " ++ exn_msg e)])%list).
Proof.
  intros Hi Hs Hr Hc.
  destruct (create_failure_ends w df name region role e Hi Hs Hr Hc) as (t & Hrun & Hing & Hlast).
  exists t. split; [exact Hrun |]. rewrite Hing. split.
  - apply already_exists_words.
  - exact Hlast.
Qed.

Lemma create_failure_policy_witness :
  exists t,
    run (write_to_feature_store w_group_exists frame_three
           "abalone-features" "us-east-1" "role") tt = (t, inr tt) /\
    (ingest_attempted t = true <->
       (exists pre post, exn_msg group_exists = pre ++ "ResourceInUse" ++ post) \/
       (exists pre mid post,
          exn_msg group_exists = pre ++ mid ++ post /\
          same_ignoring_case mid "already exists" = true)) /\
    (ingest_attempted t = false ->
       exists t0,
         t = (t0 ++ [EFeatureStore (FsCreate "abalone-features" "role") (Some group_exists);
                     ELog WARNING ("Could not create feature group: " ++
                                   exn_msg group_exists)])%list).
Proof.
  apply (create_failure_policy w_group_exists frame_three "abalone-features" "us-east-1"
           "role" group_exists); reflexivity.
Defined.

(** The three cases on concrete messages: the words in capitals lead to
    [ingest], as [ResourceInUse] does; another failure does not. *)
Example create_failure_cases :
  let attempted w :=
    ingest_attempted
      (fst (run (write_to_feature_store w frame_three "abalone-features" "us-east-1" "role")
                tt)) in
  same_ignoring_case "Already Exists" "already exists" = true /\
  attempted w_group_exists = true /\
  attempted w_three = true /\
  attempted w_access_denied = false.
Proof. repeat split. Qed.

Example already_exists_examples :
  map already_exists
      ["ResourceInUse: Resource Already Exists"; "Feature group ALREADY EXISTS";
       "resourceinuse"; "AccessDeniedException"] =
  [true; true; false; false].
Proof. reflexivity. Qed.

(** ** The run, stage by stage *)

Lemma load_inv (a : args) (w : world) (t : list event) (df : DataFrame) :
  load a w = (t, Normal df) ->
  exists bucket idx rows,
    read_csv w = inr (idx, rows) /\
    df = mk_frame idx names rows /\
    t = [ELog DEBUG "Starting preprocessing.";
         EMkdir (base_dir ++ "/data");
         ELog INFO ("Downloading data from bucket: " ++ bucket ++ ", key: " ++
                    join "/" (skipn 3 (split "/"%char (input_data a))));
         EDownload bucket (join "/" (skipn 3 (split "/"%char (input_data a))))
                   (base_dir ++ "/data/abalone-dataset.csv");
         ELog DEBUG "Reading downloaded data.";
         EReadCsv (base_dir ++ "/data/abalone-dataset.csv");
         EUnlink (base_dir ++ "/data/abalone-dataset.csv")].
Proof.
  unfold load, getitem. run_py.
  destruct (nth_error _ 2) as [bucket |]; run_py; [| discriminate].
  destruct (download_file w); run_py; [discriminate |].
  destruct (read_csv w) as [e | [idx rows]]; run_py; [discriminate |].
  intros [= <- <-]. exists bucket, idx, rows. repeat split.
Qed.

Lemma transform_inv (w : world) (df : DataFrame) (t : list event)
    (df' : DataFrame) (y : Series) (X : ndarray) :
  transform w df = (t, Normal (df', y, X)) ->
  exists X_pre,
    pop "rings" df = inr (y, df') /\
    fit_transform w df' = inr X_pre /\
    concatenate_columns (mk_array 1 (map (fun v => [v]) (s_values y))) X_pre = inr X /\
    t = [ELog DEBUG "Defining transformers."; ELog INFO "Applying transforms.";
         EFit df'].
Proof.
  unfold transform. run_py.
  destruct (pop "rings" df) as [e | [y0 df0]]; run_py; [discriminate |].
  destruct (fit_transform w df0) as [e | X_pre] eqn:Hfit; run_py; [discriminate |].
  destruct (concatenate_columns _ X_pre) as [e | X0] eqn:Hcat; run_py; [discriminate |].
  intros [= <- <- <- <-]. exists X_pre. auto.
Qed.

Lemma split_and_write_ends (w : world) (X : ndarray) :
  exists train validation test,
    np_split (shuffle w (a_rows X)) (split_points (List.length (shuffle w (a_rows X)))) =
      [train; validation; test] /\
    (train ++ validation ++ test)%list = shuffle w (a_rows X) /\
    split_and_write w X =
      ([ELog INFO ("Splitting " ++ str_of_int (Z.of_nat (List.length (a_rows X))) ++
                   " rows of data into train, validation, test datasets.");
        ELog INFO ("Writing out datasets to " ++ base_dir ++ ".");
        EToCsv train_csv (pd_DataFrame (mk_array (shape1 X) train)) false false;
        EToCsv validation_csv (pd_DataFrame (mk_array (shape1 X) validation)) false false;
        EToCsv test_csv (pd_DataFrame (mk_array (shape1 X) test)) false false],
       Normal tt).
Proof.
  destruct (split_points_ordered (List.length (shuffle w (a_rows X)))) as [H1 H2].
  destruct (np_split_two (shuffle w (a_rows X)) _ _ H1 H2)
    as (train & validation & test & E & _ & _ & _ & App).
  exists train, validation, test.
  split; [exact E |]. split; [exact App |].
  unfold split_and_write, array_split. cbn [a_rows shape1]. run_py.
  unfold split_points. rewrite E. reflexivity.
Qed.

Lemma pop_index (col : string) (df df' : DataFrame) (y : Series) :
  pop col df = inr (y, df') ->
  s_index y = df_index df /\ df_index df' = df_index df.
Proof.
  unfold pop. destruct (position _ _); [| discriminate].
  intros [= <- <-]. split; reflexivity.
Qed.

Lemma csv_written_app (p : string) (t u : list event) :
  csv_written p (t ++ u) =
  match csv_written p u with
  | Some r => Some r
  | None => csv_written p t
  end.
Proof.
  induction t as [| ev t IH]; cbn [app csv_written].
  - destruct (csv_written p u); reflexivity.
  - rewrite IH. destruct (csv_written p u); reflexivity.
Qed.

Lemma csv_written_before (p : string) (t u : list event) :
  (forall q, csv_written q u = None) ->
  csv_written p (t ++ u) = csv_written p t.
Proof. intros H. rewrite csv_written_app, H. reflexivity. Qed.

(** ** The label and the features *)

Lemma zip_label_first (ys : list cell) (rows : list (list cell)) :
  map (fun lr => (fst lr ++ snd lr)%list) (combine (map (fun v => [v]) ys) rows) =
  map (fun vr => fst vr :: snd vr) (combine ys rows).
Proof.
  revert rows. induction ys as [| v ys IH]; intros [| r rows];
    cbn [map combine]; try reflexivity.
  rewrite IH. reflexivity.
Qed.

Lemma concatenate_label_first (ys : list cell) (X_pre X : ndarray) :
  concatenate_columns (mk_array 1 (map (fun v => [v]) ys)) X_pre = inr X ->
  a_rows X = map (fun vr => fst vr :: snd vr) (combine ys (a_rows X_pre)) /\
  shape1 X = S (shape1 X_pre) /\
  List.length (a_rows X_pre) = List.length ys /\
  map (hd NaN) (a_rows X) = ys.
Proof.
  unfold concatenate_columns. cbn [a_rows shape1]. rewrite length_map.
  destruct (Nat.eqb_spec (List.length ys) (List.length (a_rows X_pre))) as [Hlen |];
    [| discriminate].
  intros [= <-]. cbn [a_rows shape1]. rewrite zip_label_first.
  split; [reflexivity |]. split; [reflexivity |]. split; [lia |].
  generalize (a_rows X_pre) Hlen. clear.
  induction ys as [| v ys IH]; intros [| r rows] Hlen;
    cbn [map combine] in *; try discriminate; try reflexivity.
  cbn [fst snd hd]. rewrite IH by (cbn in Hlen; lia). reflexivity.
Qed.

Lemma pop_rings (idx : list Z) (rows : list (list cell)) :
  pop "rings" (mk_frame idx names rows) =
  inr (mk_series idx (map (fun row => nth 8 row NaN) rows),
       mk_frame idx (map LStr feature_columns_names) (map (remove_nth 8) rows)).
Proof. reflexivity. Qed.

Lemma pop_rings_inv (idx : list Z) (rows : list (list cell)) (y : Series) (df' : DataFrame) :
  pop "rings" (mk_frame idx names rows) = inr (y, df') ->
  y = mk_series idx (map (fun row => nth 8 row NaN) rows) /\
  df' = mk_frame idx (map LStr feature_columns_names) (map (remove_nth 8) rows).
Proof. rewrite pop_rings. intros [= <- <-]. split; reflexivity. Qed.

Lemma rings_back (rows : list (list cell)) :
  Forall (fun row => List.length row = 9%nat) rows ->
  map (fun rv => (fst rv ++ [snd rv])%list)
      (combine (map (remove_nth 8) rows) (map (fun row => nth 8 row NaN) rows)) = rows.
Proof.
  induction 1 as [| row rows Hrow _ IH]; cbn [map combine]; [reflexivity |].
  rewrite IH. f_equal.
  do 9 (destruct row as [| ? row]; [discriminate Hrow |]).
  destruct row; [reflexivity | discriminate Hrow].
Qed.

(** Popping [rings] and assigning it again gives the frame back. *)
Lemma set_rings_back (idx : list Z) (rows : list (list cell)) :
  Forall (fun row => List.length row = 9%nat) rows ->
  set_column "rings" (map (fun row => nth 8 row NaN) rows)
    (mk_frame idx (map LStr feature_columns_names) (map (remove_nth 8) rows)) =
  mk_frame idx names rows.
Proof.
  intros H. unfold set_column. cbn [df_columns df_index df_rows].
  change (position (LStr "rings") (map LStr feature_columns_names)) with (@None nat).
  cbv iota. rewrite (rings_back rows H). reflexivity.
Qed.

Lemma records_of_array (arr : ndarray) :
  csv_records (pd_DataFrame arr) false false = map (map FCell) (a_rows arr).
Proof.
  unfold csv_records, pd_DataFrame, range. cbn [df_index df_rows app].
  generalize 0%nat. induction (a_rows arr) as [| row arr' IH]; intros k;
    cbn [List.length seq map combine snd]; [reflexivity |].
  rewrite IH. reflexivity.
Qed.

Lemma records_with_header (df : DataFrame) :
  List.length (df_index df) = List.length (df_rows df) ->
  csv_records df true false =
  map FName (df_columns df) :: map (map FCell) (df_rows df).
Proof.
  intros Hlen. unfold csv_records. cbn [app]. f_equal.
  revert Hlen. generalize (df_index df).
  induction (df_rows df) as [| row rows IH]; intros [| i idx] Hlen;
    cbn [combine map snd app] in *; try discriminate; try reflexivity.
  rewrite IH by (cbn in Hlen; lia). reflexivity.
Qed.

(** ** Before the feature store *)

Lemma load_no_feature_store (a : args) (w : world) :
  existsb is_feature_store (fst (load a w)) = false.
Proof.
  unfold load, getitem. run_py.
  destruct (nth_error _ 2) as [bucket |]; run_py; [| reflexivity].
  destruct (download_file w); run_py; [reflexivity |].
  destruct (read_csv w) as [e | [idx rows]]; reflexivity.
Qed.

Lemma transform_no_feature_store (w : world) (df : DataFrame) :
  existsb is_feature_store (fst (transform w df)) = false.
Proof.
  unfold transform. run_py.
  destruct (pop "rings" df) as [e | [y0 df0]]; run_py; [reflexivity |].
  destruct (fit_transform w df0) as [e | X_pre]; run_py; [reflexivity |].
  destruct (concatenate_columns _ X_pre) as [e | X0]; reflexivity.
Qed.

(** A run in which the feature store is called at all is a run in which
    the data was loaded and transformed. *)
Lemma feature_store_reached (a : args) (w : world) :
  existsb is_feature_store (fst (main a w)) = true ->
  exists t1 df t2 df' y X,
    load a w = (t1, Normal df) /\ transform w df = (t2, Normal (df', y, X)).
Proof.
  unfold main.
  pose proof (load_no_feature_store a w) as N1.
  destruct (load a w) as [t1 [df | [] | e]] eqn:Hl; cbn [fst] in N1; run_py;
    try (intros H; congruence).
  pose proof (transform_no_feature_store w df) as N2.
  destruct (transform w df) as [t2 [[[df' y] X] | [] | e]] eqn:Ht; cbn [fst] in N2; run_py;
    try (rewrite existsb_app, N1, N2; discriminate).
  intros _. exists t1, df, t2, df', y, X. split; [reflexivity | exact Ht].
Qed.

(** ** A run in which the data is loaded and transformed *)

Section SuccessfulRun.

Variables (a : args) (w : world).
Variables (t1 t2 : list event) (df df' : DataFrame) (y : Series) (X : ndarray).

Hypothesis loaded : load a w = (t1, Normal df).
Hypothesis transformed : transform w df = (t2, Normal (df', y, X)).

(** The script runs to its end without an exception: the two stages,
    the writes, then whatever the feature-store step leaves. *)
Lemma main_ends :
  exists train validation test t_fs,
    np_split (shuffle w (a_rows X)) (split_points (List.length (shuffle w (a_rows X)))) =
      [train; validation; test] /\
    (train ++ validation ++ test)%list = shuffle w (a_rows X) /\
    feature_store_step a w (set_column "rings" (s_values y) df') = (t_fs, Normal tt) /\
    handled t_fs = true /\
    (forall p, csv_written p t_fs = None) /\
    main a w =
      ((t1 ++ t2 ++
        writes X train validation test (set_column "rings" (s_values y) df') ++
        t_fs)%list, Normal tt).
Proof.
  destruct (transform_inv _ _ _ _ _ _ transformed) as (X_pre & Hpop & _ & _ & _).
  destruct (pop_index _ _ _ _ Hpop) as [Iy Id].
  destruct (split_and_write_ends w X) as (train & validation & test & E & App & Hsw).
  destruct (feature_store_step_ends a w (set_column "rings" (s_values y) df'))
    as (t_fs & Hfs & Hh & Hc).
  exists train, validation, test, t_fs.
  repeat (split; [assumption |]).
  unfold main. rewrite loaded. run_py. rewrite transformed. run_py.
  rewrite Hsw. run_py.
  unfold write_features, reindex_for_setitem. run_py.
  rewrite Iy, Id, index_equals_refl. cbn [orb]. run_py.
  rewrite Hfs. reflexivity.
Qed.

(** What the run leaves on disk. *)
Lemma main_writes :
  exists train validation test,
    np_split (shuffle w (a_rows X)) (split_points (List.length (shuffle w (a_rows X)))) =
      [train; validation; test] /\
    (train ++ validation ++ test)%list = shuffle w (a_rows X) /\
    csv_written train_csv (fst (main a w)) =
      Some (pd_DataFrame (mk_array (shape1 X) train), false, false) /\
    csv_written validation_csv (fst (main a w)) =
      Some (pd_DataFrame (mk_array (shape1 X) validation), false, false) /\
    csv_written test_csv (fst (main a w)) =
      Some (pd_DataFrame (mk_array (shape1 X) test), false, false) /\
    csv_written features_csv (fst (main a w)) =
      Some (set_column "rings" (s_values y) df', true, false).
Proof.
  destruct main_ends
    as (train & validation & test & t_fs & E & App & _ & _ & Hc & Hmain).
  destruct (load_inv _ _ _ _ loaded) as (bucket & idx & rows & _ & _ & Ht1).
  destruct (transform_inv _ _ _ _ _ _ transformed) as (X_pre & _ & _ & _ & Ht2).
  exists train, validation, test.
  split; [exact E |]. split; [exact App |].
  rewrite Hmain, Ht1, Ht2. cbn [fst].
  rewrite !app_assoc, !(csv_written_before _ _ t_fs Hc).
  repeat split; reflexivity.
Qed.

(** C3: whatever the feature-store calls raise, the run ends normally
    (nothing is raised again); the trace splits into a part with no call
    into the feature store, in which [train.csv], [validation.csv] and
    [test.csv] are written, and the part of the feature-store step, in
    which every call that raised is directly followed by the handler's
    log record. *)
Theorem feature_store_errors_swallowed :
  exists train validation test before t_fs,
    np_split (shuffle w (a_rows X)) (split_points (List.length (shuffle w (a_rows X)))) =
      [train; validation; test] /\
    main a w = ((before ++ t_fs)%list, Normal tt) /\
    existsb is_feature_store before = false /\
    csv_written train_csv before = Some (pd_DataFrame (mk_array (shape1 X) train), false, false) /\
    csv_written validation_csv before =
      Some (pd_DataFrame (mk_array (shape1 X) validation), false, false) /\
    csv_written test_csv before = Some (pd_DataFrame (mk_array (shape1 X) test), false, false) /\
    feature_store_step a w (set_column "rings" (s_values y) df') = (t_fs, Normal tt) /\
    handled t_fs = true.
Proof.
  destruct main_ends
    as (train & validation & test & t_fs & E & _ & Hfs & Hh & _ & Hmain).
  destruct (load_inv _ _ _ _ loaded) as (bucket & idx & rows & _ & _ & Ht1).
  destruct (transform_inv _ _ _ _ _ _ transformed) as (X_pre & _ & _ & _ & Ht2).
  exists train, validation, test,
    ((t1 ++ t2) ++
     writes X train validation test (set_column "rings" (s_values y) df'))%list,
    t_fs.
  split; [exact E |].
  split; [rewrite Hmain, !app_assoc; reflexivity |].
  rewrite Ht1, Ht2.
  repeat split; try reflexivity; assumption.
Qed.

(** C4: [rings] is popped before the fit, so the transformer is fitted
    on a frame without it; the array [X] is the popped label in front of
    the transformed features, row by row; the records of the three
    files are the rows of the three partitions of the shuffled [X],
    cell by cell; and, the shuffle being a permutation of the rows,
    these are the rows of [X]: the first field of every record written
    is a label, followed by the transformed features of its row. *)
Theorem label_first_column :
  (forall rows, Permutation (shuffle w rows) rows) ->
  (* the label leaves the frame before the fit *)
  pop "rings" df = inr (y, df') /\
  column "rings" df = Some (s_values y) /\
  has_column "rings" df' = false /\
  t2 = [ELog DEBUG "Defining transformers."; ELog INFO "Applying transforms.";
        EFit df'] /\
  exists X_pre train validation test,
    fit_transform w df' = inr X_pre /\
    (* the label in front of the transformed features *)
    concatenate_columns (mk_array 1 (map (fun v => [v]) (s_values y))) X_pre = inr X /\
    a_rows X = map (fun vr => fst vr :: snd vr) (combine (s_values y) (a_rows X_pre)) /\
    shape1 X = S (shape1 X_pre) /\
    map (hd NaN) (a_rows X) = s_values y /\
    (* what is written *)
    np_split (shuffle w (a_rows X)) (split_points (List.length (shuffle w (a_rows X)))) =
      [train; validation; test] /\
    csv_written train_csv (fst (main a w)) =
      Some (pd_DataFrame (mk_array (shape1 X) train), false, false) /\
    csv_written validation_csv (fst (main a w)) =
      Some (pd_DataFrame (mk_array (shape1 X) validation), false, false) /\
    csv_written test_csv (fst (main a w)) =
      Some (pd_DataFrame (mk_array (shape1 X) test), false, false) /\
    file_records train_csv (fst (main a w)) = map (map FCell) train /\
    file_records validation_csv (fst (main a w)) = map (map FCell) validation /\
    file_records test_csv (fst (main a w)) = map (map FCell) test /\
    Permutation (train ++ validation ++ test) (a_rows X) /\
    forall record,
      In record (file_records train_csv (fst (main a w)) ++
                 file_records validation_csv (fst (main a w)) ++
                 file_records test_csv (fst (main a w)))%list ->
      exists v features,
        record = FCell v :: map FCell features /\
        In (v, features) (combine (s_values y) (a_rows X_pre)).
Proof.
  intros Hperm.
  destruct main_writes as (train & validation & test & E & App & Wt & Wv & Ws & _).
  destruct (load_inv _ _ _ _ loaded) as (bucket & idx & rows & _ & Hdf & _).
  destruct (transform_inv _ _ _ _ _ _ transformed) as (X_pre & Hpop & Hfit & Hcat & Ht2).
  destruct (concatenate_label_first _ _ _ Hcat) as (HX & Hwidth & Hlen & Hhd).
  assert (HP : Permutation (train ++ validation ++ test) (a_rows X))
    by (rewrite App; apply Hperm).
  assert (Rt : file_records train_csv (fst (main a w)) = map (map FCell) train)
    by (unfold file_records; rewrite Wt; apply records_of_array).
  assert (Rv : file_records validation_csv (fst (main a w)) = map (map FCell) validation)
    by (unfold file_records; rewrite Wv; apply records_of_array).
  assert (Rs : file_records test_csv (fst (main a w)) = map (map FCell) test)
    by (unfold file_records; rewrite Ws; apply records_of_array).
  split; [exact Hpop |].
  rewrite Hdf in Hpop. destruct (pop_rings_inv _ _ _ _ Hpop) as [Hy Hdf'].
  split; [rewrite Hdf, Hy; reflexivity |].
  split; [rewrite Hdf'; reflexivity |].
  split; [exact Ht2 |].
  exists X_pre, train, validation, test.
  split; [exact Hfit |]. split; [exact Hcat |]. split; [exact HX |].
  split; [exact Hwidth |]. split; [exact Hhd |]. split; [exact E |].
  split; [exact Wt |]. split; [exact Wv |]. split; [exact Ws |].
  split; [exact Rt |]. split; [exact Rv |]. split; [exact Rs |].
  split; [exact HP |].
  intros record Hin. rewrite Rt, Rv, Rs, <- !map_app in Hin.
  apply in_map_iff in Hin. destruct Hin as (row & <- & Hin).
  apply (Permutation_in _ HP) in Hin. rewrite HX in Hin.
  apply in_map_iff in Hin. destruct Hin as ([v features] & <- & Hin).
  exists v, features. split; [reflexivity | exact Hin].
Qed.

(** C9: the three partitions are written with [header=False] and
    [index=False], so their records are the rows of the arrays and
    nothing else; [features.csv] is written with [header=True], so its
    first record is the line of column names; and the frame written
    there is the frame as it was read -- the untransformed feature
    columns with the popped [rings] assigned back. *)
Theorem csv_headers :
  well_formed df ->
  exists train validation test,
    np_split (shuffle w (a_rows X)) (split_points (List.length (shuffle w (a_rows X)))) =
      [train; validation; test] /\
    (* the three partitions: no header line, no row labels *)
    csv_written train_csv (fst (main a w)) =
      Some (pd_DataFrame (mk_array (shape1 X) train), false, false) /\
    csv_written validation_csv (fst (main a w)) =
      Some (pd_DataFrame (mk_array (shape1 X) validation), false, false) /\
    csv_written test_csv (fst (main a w)) =
      Some (pd_DataFrame (mk_array (shape1 X) test), false, false) /\
    csv_records (pd_DataFrame (mk_array (shape1 X) train)) false false = map (map FCell) train /\
    csv_records (pd_DataFrame (mk_array (shape1 X) validation)) false false =
      map (map FCell) validation /\
    csv_records (pd_DataFrame (mk_array (shape1 X) test)) false false = map (map FCell) test /\
    (* the snapshot: a header line, then the rows as they were read *)
    csv_written features_csv (fst (main a w)) = Some (df, true, false) /\
    csv_records df true false = map FName names :: map (map FCell) (df_rows df) /\
    (* ... which is the untransformed features with the label put back *)
    pop "rings" df = inr (y, df') /\
    df_columns df' = map LStr feature_columns_names /\
    df = set_column "rings" (s_values y) df'.
Proof.
  intros [Hlen Hrows].
  destruct main_writes as (train & validation & test & E & App & Wt & Wv & Ws & Wf).
  destruct (load_inv _ _ _ _ loaded) as (bucket & idx & rows & _ & Hdf & _).
  destruct (transform_inv _ _ _ _ _ _ transformed) as (X_pre & Hpop & Hfit & Hcat & _).
  rewrite Hdf in Hpop, Hlen, Hrows. cbn [df_index df_rows df_columns] in Hlen, Hrows.
  destruct (pop_rings_inv _ _ _ _ Hpop) as [Hy Hdf'].
  assert (Hback := set_rings_back idx rows Hrows).
  assert (Hsame : set_column "rings" (s_values y) df' = df)
    by (rewrite Hy, Hdf', Hdf; exact Hback).
  exists train, validation, test.
  split; [exact E |].
  rewrite Hsame in Wf. rewrite !records_of_array.
  split; [exact Wt |]. split; [exact Wv |]. split; [exact Ws |].
  do 3 (split; [reflexivity |]).
  split; [exact Wf |].
  split.
  - rewrite records_with_header by (rewrite Hdf; cbn [df_index df_rows]; lia).
    rewrite Hdf. reflexivity.
  - split; [rewrite Hdf; exact Hpop |].
    split; [rewrite Hdf'; reflexivity | symmetry; exact Hsame].
Qed.

End SuccessfulRun.

(** ** A concrete run *)

Lemma feature_store_errors_swallowed_witness :
  exists t1 df t2 df' y X,
    load a_enabled w_three = (t1, Normal df) /\
    transform w_three df = (t2, Normal (df', y, X)) /\
    exists train validation test before t_fs,
      np_split (shuffle w_three (a_rows X))
               (split_points (List.length (shuffle w_three (a_rows X)))) =
        [train; validation; test] /\
      main a_enabled w_three = ((before ++ t_fs)%list, Normal tt) /\
      existsb is_feature_store before = false /\
      csv_written train_csv before =
        Some (pd_DataFrame (mk_array (shape1 X) train), false, false) /\
      csv_written validation_csv before =
        Some (pd_DataFrame (mk_array (shape1 X) validation), false, false) /\
      csv_written test_csv before = Some (pd_DataFrame (mk_array (shape1 X) test), false, false) /\
      feature_store_step a_enabled w_three (set_column "rings" (s_values y) df') =
        (t_fs, Normal tt) /\
      handled t_fs = true.
Proof.
  do 6 eexists. split; [reflexivity |]. split; [reflexivity |].
  eapply feature_store_errors_swallowed; reflexivity.
Defined.

Lemma label_first_column_witness :
  exists t1 df t2 df' y X,
    load a_enabled w_three = (t1, Normal df) /\
    transform w_three df = (t2, Normal (df', y, X)) /\
    pop "rings" df = inr (y, df') /\
    column "rings" df = Some (s_values y) /\
    has_column "rings" df' = false /\
    map (hd NaN) (a_rows X) = [CNum 15; CNum 7; CNum 9] /\
    exists train validation test,
      file_records train_csv (fst (main a_enabled w_three)) = map (map FCell) train /\
      file_records validation_csv (fst (main a_enabled w_three)) =
        map (map FCell) validation /\
      file_records test_csv (fst (main a_enabled w_three)) = map (map FCell) test /\
      Permutation (train ++ validation ++ test) (a_rows X).
Proof.
  do 6 eexists. split; [reflexivity |]. split; [reflexivity |].
  destruct (label_first_column a_enabled w_three _ _ _ _ _ _ eq_refl eq_refl)
    as (Hpop & Hcol & Hhas & _ & X_pre & train & validation & test &
        _ & _ & _ & _ & Hhd & _ & _ & _ & _ & Rt & Rv & Rs & HP & _).
  - intros rows. apply Permutation_sym, Permutation_rev.
  - repeat (split; [assumption |]).
    exists train, validation, test. repeat split; assumption.
Defined.

Lemma csv_headers_witness :
  exists t1 df t2 df' y X,
    load a_enabled w_three = (t1, Normal df) /\
    transform w_three df = (t2, Normal (df', y, X)) /\
    csv_written features_csv (fst (main a_enabled w_three)) = Some (df, true, false) /\
    csv_records df true false = map FName names :: map (map FCell) (df_rows df) /\
    df = set_column "rings" (s_values y) df'.
Proof.
  do 6 eexists. split; [reflexivity |]. split; [reflexivity |].
  destruct (csv_headers a_enabled w_three _ _ _ _ _ _ eq_refl eq_refl)
    as (train & validation & test & _ & _ & _ & _ & _ & _ & _ & Wf & Hrec & _ & _ & Hsame).
  - split; [reflexivity | repeat constructor].
  - repeat split; assumption.
Defined.

(** The three files of that run: the shuffle reverses the three rows,
    two go to [train.csv], none to [validation.csv], one to
    [test.csv]; the label stands first. *)
Example three_rows_on_disk :
  file_records train_csv (fst (main a_enabled w_three)) =
    [[FCell (CNum 9); FCell (CNum 0.5); FCell (CNum 0.375); FCell (CNum 0.125);
      FCell (CNum 0.75); FCell (CNum 0.25); FCell (CNum 0.125); FCell (CNum 0.1875)];
     [FCell (CNum 7); FCell (CNum 0.5); FCell (CNum 0.375); FCell (CNum 0.125);
      FCell (CNum 0.75); FCell (CNum 0.25); FCell (CNum 0.125); FCell (CNum 0.1875)]] /\
  file_records validation_csv (fst (main a_enabled w_three)) = [] /\
  file_records test_csv (fst (main a_enabled w_three)) =
    [[FCell (CNum 15); FCell (CNum 0.5); FCell (CNum 0.375); FCell (CNum 0.125);
      FCell (CNum 0.75); FCell (CNum 0.25); FCell (CNum 0.125); FCell (CNum 0.1875)]] /\
  (* the empty partition still has the eight columns of the array *)
  csv_written validation_csv (fst (main a_enabled w_three)) =
    Some (mk_frame [] (map LInt (range 8)) [], false, false).
Proof. repeat split. Qed.

(** ** [merge_two_dicts] *)

Section DictFacts.

Context {V : Type}.
Implicit Types (x y z d : dict V) (k : string) (v : V).

Lemma dict_get_set k k' v d :
  dict_get k (dict_set k' v d) = if String.eqb k' k then Some v else dict_get k d.
Proof.
  induction d as [| [k0 v0] r IH]; cbn [dict_set dict_get].
  - reflexivity.
  - destruct (String.eqb_spec k0 k') as [-> | Hne]; cbn [dict_get].
    + destruct (String.eqb k' k); reflexivity.
    + rewrite IH. destruct (String.eqb_spec k' k) as [-> | Hne'].
      * destruct (String.eqb_spec k0 k); [congruence | reflexivity].
      * reflexivity.
Qed.

Lemma dict_get_absent k d : ~ In k (keys d) -> dict_get k d = None.
Proof.
  induction d as [| [k0 v0] r IH]; cbn [keys map fst dict_get In]; [reflexivity |].
  intros H. destruct (String.eqb_spec k0 k) as [-> | Hne]; [tauto |].
  apply IH. tauto.
Qed.

Lemma dict_get_update k z y :
  NoDup (keys y) ->
  dict_get k (dict_update z y) =
  match dict_get k y with
  | Some v => Some v
  | None => dict_get k z
  end.
Proof.
  unfold dict_update. revert z.
  induction y as [| [k0 v0] y IH]; intros z Hnd; cbn [fold_left dict_get fst snd].
  - reflexivity.
  - cbn [keys map fst] in Hnd. inversion Hnd as [| ? ? Hnot Hnd']; subst.
    rewrite (IH _ Hnd'), dict_get_set.
    destruct (String.eqb_spec k0 k) as [-> | Hne].
    + rewrite (dict_get_absent _ _ Hnot). reflexivity.
    + reflexivity.
Qed.

Lemma keys_dict_set k v d :
  keys (dict_set k v d) =
  if existsb (String.eqb k) (keys d) then keys d else (keys d ++ [k])%list.
Proof.
  induction d as [| [k0 v0] r IH]; cbn [dict_set keys map fst existsb app].
  - reflexivity.
  - destruct (String.eqb_spec k0 k) as [-> | Hne].
    + rewrite String.eqb_refl. reflexivity.
    + cbn [map fst]. fold (keys (dict_set k v r)). rewrite IH.
      destruct (String.eqb_spec k k0) as [-> | _]; [congruence |]. cbn [orb].
      fold (keys r). destruct (existsb (String.eqb k) (keys r)); reflexivity.
Qed.

Lemma existsb_eqb_In k (l : list string) : existsb (String.eqb k) l = true <-> In k l.
Proof.
  rewrite existsb_exists. split.
  - intros (x & Hin & Heq). apply String.eqb_eq in Heq. subst. exact Hin.
  - intros Hin. exists k. split; [exact Hin | apply String.eqb_refl].
Qed.

Lemma keys_dict_update z y :
  NoDup (keys y) ->
  keys (dict_update z y) =
  (keys z ++ filter (fun k => negb (existsb (String.eqb k) (keys z))) (keys y))%list.
Proof.
  unfold dict_update. revert z.
  induction y as [| [k0 v0] y IH]; intros z Hnd; cbn [fold_left fst snd].
  - change (keys (@nil (string * V))) with (@nil string). cbn [filter].
    rewrite app_nil_r. reflexivity.
  - change (keys ((k0, v0) :: y)) with (k0 :: keys y) in *.
    inversion Hnd as [| ? ? Hnot Hnd']; subst.
    rewrite (IH _ Hnd'), keys_dict_set. cbn [filter].
    destruct (existsb (String.eqb k0) (keys z)) eqn:Hin; cbn [negb].
    + reflexivity.
    + rewrite <- app_assoc. cbn [app]. f_equal. f_equal.
      apply filter_ext_in. intros k Hk. f_equal.
      rewrite existsb_app. cbn [existsb]. rewrite orb_false_r.
      destruct (String.eqb_spec k k0) as [-> | Hne]; [contradiction | apply orb_false_r].
Qed.

End DictFacts.

(** X10: a lookup in [merge_two_dicts(x, y)] gives [y]'s value for a key
    of [y], and [x]'s value (or nothing) for any other key. *)
Theorem merge_two_dicts_lookup {V} (x y : dict V) (k : string) :
  NoDup (keys y) ->
  dict_get k (merge_two_dicts x y) =
  match dict_get k y with
  | Some v => Some v
  | None => dict_get k x
  end.
Proof. intros H. unfold merge_two_dicts. apply dict_get_update, H. Qed.

Lemma merge_two_dicts_lookup_witness :
  dict_get "rings" (merge_two_dicts feature_columns_dtype label_column_dtype) =
  match dict_get "rings" label_column_dtype with
  | Some v => Some v
  | None => dict_get "rings" feature_columns_dtype
  end.
Proof.
  apply (merge_two_dicts_lookup feature_columns_dtype label_column_dtype "rings").
  repeat constructor. intros [].
Defined.

(** X11: the keys of [merge_two_dicts(x, y)] are the keys of [x], in
    [x]'s order, then the keys of [y] that [x] does not have, in [y]'s
    order; no key is there twice. *)
Theorem merge_two_dicts_keys {V} (x y : dict V) :
  NoDup (keys x) -> NoDup (keys y) ->
  keys (merge_two_dicts x y) =
    (keys x ++ filter (fun k => negb (existsb (String.eqb k) (keys x))) (keys y))%list /\
  NoDup (keys (merge_two_dicts x y)).
Proof.
  intros Hx Hy. unfold merge_two_dicts.
  rewrite (keys_dict_update x y Hy). split; [reflexivity |].
  apply NoDup_app; [exact Hx | apply NoDup_filter, Hy |].
  intros k Hk Hf. apply filter_In in Hf. destruct Hf as [_ Hf].
  apply negb_true_iff in Hf.
  apply (proj2 (existsb_eqb_In k (keys x))) in Hk. congruence.
Qed.

Lemma merge_two_dicts_keys_witness :
  keys (merge_two_dicts feature_columns_dtype label_column_dtype) =
    (keys feature_columns_dtype ++
     filter (fun k => negb (existsb (String.eqb k) (keys feature_columns_dtype)))
            (keys label_column_dtype))%list /\
  NoDup (keys (merge_two_dicts feature_columns_dtype label_column_dtype)).
Proof.
  apply (merge_two_dicts_keys feature_columns_dtype label_column_dtype).
  - repeat constructor; cbn; intuition discriminate.
  - repeat constructor. intros [].
Defined.

(** The [dtype] given to [read_csv] names the columns of [names], in
    the same order. *)
Example read_csv_dtype_keys :
  keys (merge_two_dicts feature_columns_dtype label_column_dtype) =
  (feature_columns_names ++ [label_column])%list.
Proof. reflexivity. Qed.

(** ** The object that is fetched *)

(** X12: for [--input-data] of the form [scheme//bucket/key], where
    neither [scheme] nor [bucket] has a slash, the run asks for the
    object [key] (slashes and all) of [bucket], and stages it under
    [/opt/ml/processing/data]. *)
Theorem s3_uri_parts (a : args) (w : world) (scheme bucket key : string) :
  contains "/" scheme = false ->
  contains "/" bucket = false ->
  input_data a = scheme ++ "//" ++ bucket ++ "/" ++ key ->
  exists rest outcome,
    load a w =
      (([ELog DEBUG "Starting preprocessing.";
         EMkdir (base_dir ++ "/data");
         ELog INFO ("Downloading data from bucket: " ++ bucket ++ ", key: " ++ key);
         EDownload bucket key staged] ++ rest)%list, outcome).
Proof.
  intros Hs Hb Hin.
  assert (Hsplit : split "/"%char (input_data a) =
                   scheme :: EmptyString :: bucket :: split "/"%char key).
  { rewrite Hin.
    change (scheme ++ "//" ++ bucket ++ "/" ++ key)
      with (scheme ++ String "/"%char
              (EmptyString ++ String "/"%char (bucket ++ String "/"%char key))).
    rewrite (PyFacts.split_app _ _ _ Hs),
            (PyFacts.split_app "/"%char EmptyString _ eq_refl),
            (PyFacts.split_app _ _ _ Hb).
    reflexivity. }
  unfold load, getitem. rewrite Hsplit. cbn [nth_error skipn].
  rewrite PyFacts.join_split. run_py.
  destruct (download_file w); run_py; [do 2 eexists; reflexivity |].
  destruct (read_csv w) as [e | raw]; run_py; do 2 eexists; reflexivity.
Qed.

Lemma s3_uri_parts_witness :
  exists rest outcome,
    load a_enabled w_three =
      (([ELog DEBUG "Starting preprocessing.";
         EMkdir (base_dir ++ "/data");
         ELog INFO ("Downloading data from bucket: " ++ "bucket" ++ ", key: " ++
                    "abalone/abalone-dataset.csv");
         EDownload "bucket" "abalone/abalone-dataset.csv" staged] ++ rest)%list,
       outcome).
Proof.
  apply (s3_uri_parts a_enabled w_three "s3:" "bucket" "abalone/abalone-dataset.csv");
    reflexivity.
Defined.

(** X13: when [--input-data] splits at its slashes into fewer than three
    parts, line 160 raises [IndexError]: the run ends there, with
    nothing downloaded and nothing written. *)
Theorem short_uri_fails (a : args) (w : world) :
  (List.length (split "/"%char (input_data a)) < 3)%nat ->
  main a w =
    ([ELog DEBUG "Starting preprocessing."; EMkdir (base_dir ++ "/data")],
     Raised (mk_exn IndexError "list index out of range")).
Proof.
  intros H. unfold main, load, getitem.
  replace (nth_error (split "/"%char (input_data a)) 2) with (@None string)
    by (symmetry; apply nth_error_None; lia).
  reflexivity.
Qed.

Lemma short_uri_fails_witness :
  main a_local_file w_three =
    ([ELog DEBUG "Starting preprocessing."; EMkdir (base_dir ++ "/data")],
     Raised (mk_exn IndexError "list index out of range")).
Proof.
  apply (short_uri_fails a_local_file w_three). cbn. lia.
Defined.

(** ** The split points, once more *)

Lemma round53_small (m : Z) : 0 <= m < 2 ^ 53 -> round53 m = m.
Proof.
  intros [H0 H1]. unfold round53.
  destruct (Z.leb_spec (Z.log2 m - 52) 0) as [_ | Hs]; [reflexivity |].
  exfalso. destruct (Z.eq_dec m 0) as [-> | Hne]; [discriminate Hs |].
  assert (Z.log2 m < 53) by (apply Z.log2_lt_pow2; lia). lia.
Qed.

(** X14: for fewer than [2^48] rows the split points of line 218 are the
    exact [7n/10] and [17n/20] rounded down, or one less (the binary64
    constants lie just below 0.7 and 0.85). *)
Theorem split_proportions (n : nat) :
  Z.of_nat n < 2 ^ 48 ->
  7 * Z.of_nat n / 10 - 1 <= point c0_7 n <= 7 * Z.of_nat n / 10 /\
  17 * Z.of_nat n / 20 - 1 <= point c0_85 n <= 17 * Z.of_nat n / 20.
Proof.
  intros Hn. unfold c0_7, c0_85. rewrite !point_eq.
  set (N := Z.of_nat n) in *. assert (HN : 0 <= N) by (unfold N; lia).
  change (2 ^ 48) with 281474976710656 in Hn.
  rewrite (round53_small N) by (change (2 ^ 53) with 9007199254740992; lia).
  pose proof (round53_error (6305039478318694 * N) ltac:(lia)) as HA.
  pose proof (round53_error (7656119366529843 * N) ltac:(lia)) as HB.
  set (A := round53 (6305039478318694 * N)) in *.
  set (B := round53 (7656119366529843 * N)) in *.
  change (2 ^ 53) with 9007199254740992 in *.
  pose proof (Z.div_mod A 9007199254740992 ltac:(lia)) as DA.
  pose proof (Z.mod_pos_bound A 9007199254740992 ltac:(lia)) as MA.
  pose proof (Z.div_mod B 9007199254740992 ltac:(lia)) as DB.
  pose proof (Z.mod_pos_bound B 9007199254740992 ltac:(lia)) as MB.
  set (a := A / 9007199254740992) in *. set (b := B / 9007199254740992) in *.
  assert (Ha1 : 9007199254740992 * (9007199254740992 * a) <=
                (9007199254740992 + 1) * (6305039478318694 * N)) by lia.
  assert (Ha2 : (9007199254740992 - 1) * (6305039478318694 * N) <
                9007199254740992 * (9007199254740992 * (a + 1))) by lia.
  assert (Hb1 : 9007199254740992 * (9007199254740992 * b) <=
                (9007199254740992 + 1) * (7656119366529843 * N)) by lia.
  assert (Hb2 : (9007199254740992 - 1) * (7656119366529843 * N) <
                9007199254740992 * (9007199254740992 * (b + 1))) by lia.
  clearbody a b. clear DA MA DB MB HA HB. clearbody A B.
  assert (Ha3 : 81129638414606681695789005144064 * (10 * a - 7 * N) <
                81129638414606681695789005144064 * 1) by lia.
  assert (Ha4 : 81129638414606681695789005144064 * (7 * N - 10 * a - 10) <
                81129638414606681695789005144064 * 1) by lia.
  assert (Hb3 : 81129638414606681695789005144064 * (20 * b - 17 * N) <
                81129638414606681695789005144064 * 1) by lia.
  assert (Hb4 : 81129638414606681695789005144064 * (17 * N - 20 * b - 20) <
                81129638414606681695789005144064 * 1) by lia.
  apply Z.mul_lt_mono_pos_l in Ha3, Ha4, Hb3, Hb4; try lia.
  assert (Ha : 7 * N - 10 <= 10 * a <= 7 * N) by lia.
  assert (Hb : 17 * N - 20 <= 20 * b <= 17 * N) by lia.
  repeat split.
  - assert (7 * N / 10 < a + 2) by (apply Z.div_lt_upper_bound; lia). lia.
  - apply Z.div_le_lower_bound; lia.
  - assert (17 * N / 20 < b + 2) by (apply Z.div_lt_upper_bound; lia). lia.
  - apply Z.div_le_lower_bound; lia.
Qed.

Lemma split_proportions_witness :
  7 * Z.of_nat 4177 / 10 - 1 <= point c0_7 4177 <= 7 * Z.of_nat 4177 / 10 /\
  17 * Z.of_nat 4177 / 20 - 1 <= point c0_85 4177 <= 17 * Z.of_nat 4177 / 20.
Proof.
  apply (split_proportions 4177). reflexivity.
Defined.

(** Both cases occur. *)
Example both_cases_occur :
  point c0_7 10 = 7 * 10 / 10 /\ point c0_7 90 = 7 * 90 / 10 - 1.
Proof. split; reflexivity. Qed.

Lemma small_points (n : nat) :
  (point c0_7 n = 0 <-> (n < 2)%nat) /\
  (point c0_85 n = point c0_7 n <-> (n < 4)%nat) /\
  ((0 < n)%nat -> point c0_85 n < Z.of_nat n).
Proof.
  destruct (Nat.lt_ge_cases n 7) as [Hsmall | Hbig].
  - do 7 (destruct n as [| n]; [repeat split; intros; try lia; try reflexivity; try discriminate |]).
    lia.
  - pose proof (split_points_ordered n) as [Ho _].
    unfold c0_7, c0_85 in *. rewrite !point_eq in *.
    set (N := Z.of_nat n) in *. assert (HN : 7 <= N) by (unfold N; lia).
    pose proof (round53_error N ltac:(lia)) as HF.
    set (F := round53 N) in *.
    change (2 ^ 53) with 9007199254740992 in *.
    assert (HF7 : 7 <= F) by lia.
    pose proof (round53_error (6305039478318694 * F) ltac:(lia)) as HA.
    pose proof (round53_error (7656119366529843 * F) ltac:(lia)) as HB.
    set (A := round53 (6305039478318694 * F)) in *.
    set (B := round53 (7656119366529843 * F)) in *.
    change (2 ^ 53) with 9007199254740992 in *.
    pose proof (Z.div_mod A 9007199254740992 ltac:(lia)) as DA.
    pose proof (Z.mod_pos_bound A 9007199254740992 ltac:(lia)) as MA.
    pose proof (Z.div_mod B 9007199254740992 ltac:(lia)) as DB.
    pose proof (Z.mod_pos_bound B 9007199254740992 ltac:(lia)) as MB.
    set (a := A / 9007199254740992) in *. set (b := B / 9007199254740992) in *.
    repeat split; intros; try lia.
Qed.

Lemma length_zero_nil {A} (l : list A) : l = [] <-> List.length l = 0%nat.
Proof. destruct l; split; intros; try reflexivity; discriminate. Qed.

(** X15: of the three partitions of line 217, [train] is empty exactly
    for fewer than 2 rows, [validation] exactly for fewer than 4, and
    [test] only when there is no row at all. *)
Theorem small_arrays {A : Type} (X : list A) :
  exists train validation test,
    np_split X (split_points (List.length X)) = [train; validation; test] /\
    (train = [] <-> (List.length X < 2)%nat) /\
    (validation = [] <-> (List.length X < 4)%nat) /\
    (test = [] <-> X = []).
Proof.
  destruct (split_points_ordered (List.length X)) as [H1 H2].
  destruct (np_split_two X _ _ H1 H2)
    as (train & validation & test & E & Lt & Lv & Ls & _).
  destruct (small_points (List.length X)) as (S7 & S85 & St).
  exists train, validation, test. split; [exact E |].
  rewrite !length_zero_nil.
  repeat split; intros H.
  - apply S7. lia.
  - apply S7 in H. lia.
  - apply S85. lia.
  - apply S85 in H. lia.
  - destruct (Nat.eq_dec (List.length X) 0) as [H0 | H0]; [exact H0 |].
    assert (point c0_85 (List.length X) < Z.of_nat (List.length X)) by (apply St; lia). lia.
  - rewrite H in *. cbn in *. lia.
Qed.

(** ** The feature-store path, case by case *)

Ltac ingest_paths w :=
  lazymatch goal with
  | |- context [ingest w ?frame] =>
      let e := fresh "e" in
      destruct (ingest w frame) as [e |] eqn:Hingest; run_py;
      [ destruct (is_a ImportError e) eqn:Hingest_kind; run_py | ]
  | |- _ => idtac
  end.

(** Every way through [write_to_feature_store]. *)
Ltac feature_store_paths w df :=
  let e := fresh "e" in
  let df1 := fresh "df1" in
  let df2 := fresh "df2" in
  let rows := fresh "rows" in
  unfold write_to_feature_store; run_py;
  destruct (import_feature_store w) as [e |] eqn:Himport; run_py;
  [ destruct (is_a ImportError e) eqn:Himport_kind; run_py
  | destruct (new_session w) as [e |] eqn:Hsession; run_py;
    [ destruct (is_a ImportError e) eqn:Hsession_kind; run_py
    | destruct (prepare_ends w df)
        as (df1 & Hadd & [[Hrings (df2 & rows & Hfill & Hselect)] | [Hrings Hfill]]);
      rewrite Hadd; run_py; rewrite Hfill; run_py;
      [ rewrite Hselect; run_py;
        destruct (create_feature_group w) as [e |] eqn:Hcreate; run_py;
        [ destruct (already_exists (exn_msg e)) eqn:Hexists; run_py | ];
        ingest_paths w
      | ] ] ].

Lemma feature_store_called (w : world) (df : DataFrame) (name region role : string) :
  existsb is_feature_store (fst (run (write_to_feature_store w df name region role) tt)) = true.
Proof. feature_store_paths w df; reflexivity. Qed.

Lemma truthy_or_else (a b : option string) :
  truthy_opt (or_else a b) = truthy_opt a || truthy_opt b.
Proof. unfold or_else. destruct (truthy_opt a) eqn:H; [exact H | reflexivity]. Qed.

(** X16: lines 245-260 reach the feature-store SDK (its import
    included) exactly when [--enable-feature-store] is [true] in any
    case of letters (the same text up to the case of the letters, said
    without [lower]), a feature group is named, and one of
    [SAGEMAKER_ROLE_ARN], [TRAINING_JOB_ROLE_ARN] is set to a non-empty
    value. *)
Theorem feature_store_contacted (a : args) (w : world) (original_df : DataFrame) :
  existsb is_feature_store (fst (feature_store_step a w original_df)) =
  same_ignoring_case (enable_feature_store a) "true" &&
  truthy_opt (feature_group_name a) &&
  (truthy_opt (environ w "SAGEMAKER_ROLE_ARN") ||
   truthy_opt (environ w "TRAINING_JOB_ROLE_ARN")).
Proof.
  rewrite <- (PyFacts.lower_eqb_same "true") by reflexivity.
  unfold feature_store_step.
  destruct (_ && _); [| reflexivity]. cbn [andb].
  rewrite <- truthy_or_else.
  destruct (truthy_opt (or_else _ _)); cbn [negb]; run_py; [| reflexivity].
  pose proof (feature_store_called w original_df (the (feature_group_name a))
                (region_of a w)
                (the (or_else (environ w "SAGEMAKER_ROLE_ARN")
                              (environ w "TRAINING_JOB_ROLE_ARN")))) as H.
  destruct (write_to_feature_store_returns w original_df
              (the (feature_group_name a)) (region_of a w)
              (the (or_else (environ w "SAGEMAKER_ROLE_ARN")
                            (environ w "TRAINING_JOB_ROLE_ARN"))))
    as (t & E & _).
  unfold call. rewrite E in *. run_py. exact H.
Qed.

(** X17: [write_to_feature_store] waits (line 129) exactly when
    [feature_group.create] did not raise; it calls [ingest] at most
    once, and exactly once after a group was created. *)
Theorem sleep_after_creation (w : world) (df : DataFrame) (name region role : string) :
  let t := fst (run (write_to_feature_store w df name region role) tt) in
  existsb is_sleep t = existsb is_created t /\
  (List.length (ingested t) <= 1)%nat /\
  (existsb is_created t = true -> List.length (ingested t) = 1%nat).
Proof.
  feature_store_paths w df; cbn; repeat split; try lia; try discriminate.
Qed.

(** X18: on a frame without the column [rings],
    [write_to_feature_store] returns after one warning: no feature group
    is created and nothing is ingested. *)
Theorem rings_missing_returns (w : world) (df : DataFrame) (name region role : string) :
  import_feature_store w = None ->
  new_session w = None ->
  has_column "rings" df = false ->
  run (write_to_feature_store w df name region role) tt =
    ([EFeatureStore FsImport None;
      ELog INFO ("Writing features to Feature Store: " ++ name);
      EFeatureStore (FsSession region) None;
      ELog WARNING rings_warning], inr tt).
Proof.
  intros Hi Hs Hr.
  feature_store_paths w df; try discriminate; try congruence.
  reflexivity.
Qed.

Lemma rings_missing_returns_witness :
  run (write_to_feature_store w_three frame_no_rings "abalone-features" "us-east-1" "role")
      tt =
    ([EFeatureStore FsImport None;
      ELog INFO ("Writing features to Feature Store: " ++ "abalone-features");
      EFeatureStore (FsSession "us-east-1") None;
      ELog WARNING rings_warning], inr tt).
Proof.
  apply (rings_missing_returns w_three frame_no_rings "abalone-features" "us-east-1" "role");
    reflexivity.
Defined.

(** ** The whole run, case by case *)

Lemma written_app (t u : list event) : written (t ++ u) = (written t ++ written u)%list.
Proof.
  induction t as [| ev t IH]; [reflexivity |].
  destruct ev; cbn [app written]; rewrite ?IH; reflexivity.
Qed.

Lemma logged_app (lvl : level) (msg : string) (t u : list event) :
  logged lvl msg (t ++ u) = logged lvl msg t || logged lvl msg u.
Proof. apply existsb_app. Qed.

Lemma write_to_feature_store_quiet
    (w : world) (df : DataFrame) (name region role : string) :
  let t := fst (run (write_to_feature_store w df name region role) tt) in
  written t = [] /\
  (has_column "rings" df = true -> logged WARNING rings_warning t = false).
Proof.
  feature_store_paths w df; (split; [reflexivity | intros H; try congruence; reflexivity]).
Qed.

Lemma feature_store_step_quiet (a : args) (w : world) (df : DataFrame) :
  let t := fst (feature_store_step a w df) in
  written t = [] /\
  (has_column "rings" df = true -> logged WARNING rings_warning t = false).
Proof.
  unfold feature_store_step.
  destruct (_ && _); [| split; reflexivity].
  destruct (negb _); run_py; [split; reflexivity |].
  pose proof (write_to_feature_store_quiet w df (the (feature_group_name a))
                (region_of a w)
                (the (or_else (environ w "SAGEMAKER_ROLE_ARN")
                              (environ w "TRAINING_JOB_ROLE_ARN")))) as H.
  destruct (write_to_feature_store_returns w df
              (the (feature_group_name a)) (region_of a w)
              (the (or_else (environ w "SAGEMAKER_ROLE_ARN")
                            (environ w "TRAINING_JOB_ROLE_ARN"))))
    as (t & E & _).
  unfold call. rewrite E in *. run_py. exact H.
Qed.

(** Every way through [main]: the stages that can raise, then the rest
    of the run with the trace of the feature-store step. *)
Ltac main_paths a w :=
  let e := fresh "e" in
  let bucket := fresh "bucket" in
  let idx := fresh "idx" in
  let rows := fresh "rows" in
  let y := fresh "y" in
  let df' := fresh "df'" in
  let X_pre := fresh "X_pre" in
  let X := fresh "X" in
  let train := fresh "train" in
  let validation := fresh "validation" in
  let test := fresh "test" in
  let t_fs := fresh "t_fs" in
  let Iy := fresh "Iy" in
  let Id := fresh "Id" in
  unfold main, load, getitem, transform; run_py;
  destruct (nth_error _ 2) as [bucket |] eqn:Hbucket; run_py;
  [ destruct (download_file w) as [e |] eqn:Hdownload; run_py;
    [ | destruct (read_csv w) as [e | [idx rows]] eqn:Hread; run_py;
        [ | destruct (pop "rings" _) as [e | [y df']] eqn:Hpop; run_py;
            [ | destruct (fit_transform w df') as [e | X_pre] eqn:Hfit; run_py;
                [ | destruct (concatenate_columns _ X_pre) as [e | X] eqn:Hcat; run_py;
                    [ | destruct (pop_index _ _ _ _ Hpop) as [Iy Id];
                        destruct (split_and_write_ends w X)
                          as (train & validation & test & Hsplit & Happ & ->);
                        run_py;
                        unfold write_features, reindex_for_setitem; run_py;
                        rewrite Iy, Id, index_equals_refl; cbn [orb]; run_py;
                        destruct (feature_store_step_ends a w
                                    (set_column "rings" (s_values y) df'))
                          as (t_fs & Hfs & Hhandled & Hcsv);
                        pose proof (feature_store_step_quiet a w
                                      (set_column "rings" (s_values y) df')) as Hquiet;
                        rewrite Hfs in *; cbn [fst] in Hquiet;
                        destruct Hquiet as [Hwritten Hrings] ] ] ] ] ]
  | ].

Lemma rings_put_back (vals : list cell) (df : DataFrame) :
  has_column "rings" (set_column "rings" vals df) = true.
Proof. rewrite has_column_set_column, String.eqb_refl. apply orb_true_r. Qed.

(** X19: a run either ends normally, having called [to_csv] for
    [train.csv], [validation.csv], [test.csv] and [features.csv], in
    this order and for nothing else, or ends with an exception before
    any [to_csv] and before any call into the feature store (the local
    writes themselves are taken to succeed, as in [world]). *)
Theorem outputs_all_or_nothing (a : args) (w : world) :
  (exists t, main a w = (t, Normal tt) /\
             written t = [train_csv; validation_csv; test_csv; features_csv]) \/
  (exists t e, main a w = (t, Raised e) /\
               written t = [] /\ existsb is_feature_store t = false).
Proof.
  main_paths a w.
  1-5, 7: right; do 2 eexists; repeat split.
  left. eexists. split; [reflexivity |].
  cbn [written]. rewrite Hwritten. reflexivity.
Qed.

(** X20: no run of the script logs the warning of line 110: the frame
    [main] hands to [write_to_feature_store] has its [rings]. *)
Theorem rings_never_missing (a : args) (w : world) :
  logged WARNING rings_warning (fst (main a w)) = false.
Proof.
  main_paths a w; try reflexivity.
  cbn [fst logged existsb level_eqb andb orb].
  apply Hrings, rings_put_back.
Qed.

(** ** The frame that is ingested *)

Lemma position_in (c : string) (cols : list string) :
  In c cols -> exists k, position (LStr c) (map LStr cols) = Some k.
Proof.
  induction cols as [| c0 r IH]; intros H; [contradiction |].
  cbn [map position].
  destruct (label_eqb (LStr c0) (LStr c)) eqn:E; [eexists; reflexivity |].
  destruct H as [-> | H].
  - assert (T : label_eqb (LStr c) (LStr c) = true) by (apply label_eqb_eq; reflexivity).
    congruence.
  - destruct (IH H) as [k ->]. eexists. reflexivity.
Qed.

Lemma positions_nth (c : string) (cols : list string) (have : list label)
    (js : list nat) (k : nat) :
  positions cols have = inr js ->
  position (LStr c) (map LStr cols) = Some k ->
  exists j, position (LStr c) have = Some j /\ nth_error js k = Some j.
Proof.
  revert js k. induction cols as [| c0 r IH]; intros js k; cbn [positions map position].
  - discriminate.
  - destruct (position (LStr c0) have) as [j0 |] eqn:H0; [| discriminate].
    destruct (positions r have) as [e | js'] eqn:Hr; [discriminate |].
    intros [= <-].
    destruct (label_eqb (LStr c0) (LStr c)) eqn:E.
    + intros [= <-]. apply label_eqb_eq in E. injection E as <-.
      exists j0. split; [exact H0 | reflexivity].
    + destruct (position (LStr c) (map LStr r)) as [k' |] eqn:Hk; [| discriminate].
      intros [= <-]. destruct (IH js' k' eq_refl eq_refl) as (j & Hj & Hn).
      exists j. split; [exact Hj | exact Hn].
Qed.

(** [df[cols][c]] is [df[c]] for every [c] of [cols]. *)
Lemma select_column (cols : list string) (df f : DataFrame) (c : string) :
  select cols df = inr f -> In c cols -> column c f = column c df.
Proof.
  unfold select. destruct (positions cols (df_columns df)) as [e | js] eqn:Hjs;
    [discriminate |].
  intros [= <-] Hin. unfold column. cbn [df_columns df_rows].
  destruct (position_in c cols Hin) as [k Hk]. rewrite Hk.
  destruct (positions_nth c cols _ js k Hjs Hk) as (j & -> & Hn).
  f_equal. rewrite map_map. apply map_ext. intros row.
  apply nth_error_nth.
  apply (map_nth_error (fun j => nth j row NaN)). exact Hn.
Qed.

Lemma select_well_formed (cols : list string) (df f : DataFrame) :
  select cols df = inr f ->
  List.length (df_rows df) = List.length (df_index df) ->
  well_formed f.
Proof.
  unfold select. destruct (positions cols (df_columns df)) as [e | js] eqn:Hjs;
    [discriminate |].
  intros [= <-] Hlen. split; cbn [df_rows df_index df_columns].
  - rewrite length_map. exact Hlen.
  - apply Forall_forall. intros row Hrow. apply in_map_iff in Hrow.
    destruct Hrow as (row0 & <- & _). rewrite !length_map.
    clear - Hjs. revert js Hjs.
    induction cols as [| c r IH]; intros js; cbn [positions].
    + intros [= <-]. reflexivity.
    + destruct (position (LStr c) (df_columns df)); [| discriminate].
      destruct (positions r (df_columns df)) as [e | js']; [discriminate |].
      intros [= <-]. cbn [List.length]. rewrite (IH js' eq_refl). reflexivity.
Qed.

Lemma column_has_column (c : string) (df : DataFrame) :
  has_column c df = match column c df with Some _ => true | None => false end.
Proof. unfold has_column, column. destruct (position _ _); reflexivity. Qed.

(** Lines 106-113 on a well-formed frame: a column that is there is
    kept, a missing one that is asked for is all [0.0]. *)
Lemma fill_required_columns (cols : list string) (df df' : DataFrame) :
  well_formed df ->
  fill_required cols df = ([], Normal df') ->
  well_formed df' /\
  df_index df' = df_index df /\
  forall c,
    column c df' =
    match column c df with
    | Some vals => Some vals
    | None => if existsb (String.eqb c) cols
              then Some (repeat (CNum 0%float) (len df)) else None
    end.
Proof.
  revert df. induction cols as [| col rest IH]; intros df Hwf; cbn [fill_required].
  - intros [= <-]. repeat split; try apply Hwf.
    intros c. cbn [existsb]. destruct (column c df); reflexivity.
  - destruct (has_column col df) eqn:Hcol.
    + intros H. destruct (IH df Hwf H) as (Hwf' & Hi & Hc).
      repeat split; try apply Hwf'; [exact Hi |].
      intros c. rewrite Hc. destruct (column c df) eqn:Hcc; [reflexivity |].
      cbn [existsb]. destruct (String.eqb_spec c col) as [-> | Hne]; [| reflexivity].
      rewrite column_has_column, Hcc in Hcol. discriminate.
    + destruct (String.eqb col "rings"); [run_py; discriminate |].
      intros H.
      destruct (set_column_rows col (repeat (CNum 0%float) (len df)) df Hwf)
        as (Hwf1 & Hcol1 & Hother).
      { rewrite repeat_length. unfold len. destruct Hwf as [-> _]. reflexivity. }
      destruct (IH _ Hwf1 H) as (Hwf' & Hi & Hc).
      repeat split; try apply Hwf'; [rewrite Hi; apply set_column_index |].
      intros c. rewrite Hc. cbn [existsb].
      destruct (String.eqb_spec c col) as [-> | Hne].
      * rewrite Hcol1. rewrite column_has_column in Hcol.
        destruct (column col df); [discriminate | reflexivity].
      * rewrite (Hother c Hne). unfold len. rewrite set_column_index. reflexivity.
Qed.

(** Lines 98-101 leave the other columns alone. *)
Lemma synthetic_columns_keep (now : Z) (df : DataFrame) :
  well_formed df ->
  exists df_fs,
    add_synthetic_columns now df = inr df_fs /\
    well_formed df_fs /\
    column "event_time" df_fs = Some (map (event_time_at now (len df)) (df_index df)) /\
    column "record_id" df_fs = Some (map (fun i => CStr (str_of_int i)) (df_index df)) /\
    forall c, c <> "event_time" -> c <> "record_id" -> column c df_fs = column c df.
Proof.
  intros Hwf. unfold add_synthetic_columns, len. rewrite event_time_values.
  eexists. split; [reflexivity |].
  destruct (set_column_rows "event_time"
              (map (event_time_at now (List.length (df_index df))) (df_index df)) df Hwf)
    as (Hwf1 & He & Ho1); [rewrite length_map; destruct Hwf; lia |].
  set (df1 := set_column "event_time" _ df) in *.
  assert (Hi1 : df_index df1 = df_index df) by apply set_column_index.
  destruct (set_column_rows "record_id"
              (map (fun i => CStr (str_of_int i)) (df_index df1)) df1 Hwf1)
    as (Hwf2 & Hr & Ho2); [rewrite length_map; destruct Hwf1; lia |].
  split; [exact Hwf2 |].
  split; [rewrite Ho2 by discriminate; exact He |].
  split; [rewrite Hr, Hi1; reflexivity |].
  intros c Hce Hcr. rewrite (Ho2 c Hcr). apply Ho1, Hce.
Qed.

(** What is handed to [ingest] is the selection of the prepared frame. *)
Lemma ingested_selected
    (w : world) (df : DataFrame) (name region role : string) (f : DataFrame) :
  In f (ingested (fst (run (write_to_feature_store w df name region role) tt))) ->
  exists df1 df2,
    add_synthetic_columns (current_time_sec w) df = inr df1 /\
    fill_required required_cols df1 = ([], Normal df2) /\
    select required_cols df2 = inr f.
Proof.
  feature_store_paths w df; cbn [fst ingested In]; try contradiction.
  all: intros [<- | []]; do 2 eexists; repeat split; eassumption.
Qed.

(** X21: what [write_to_feature_store] hands to [ingest], for a
    well-formed frame [df]: a well-formed frame under [df]'s row labels
    with exactly the eleven required columns in their order, where
    [event_time] and [record_id] are the synthetic columns of lines
    98-101 and every feature column and the label is [df]'s own column,
    or all [0.0] when [df] has no such column. *)
Theorem ingested_frame
    (w : world) (df : DataFrame) (name region role : string) (f : DataFrame) :
  well_formed df ->
  In f (ingested (fst (run (write_to_feature_store w df name region role) tt))) ->
  well_formed f /\
  df_index f = df_index df /\
  df_columns f = map LStr required_cols /\
  column "event_time" f =
    Some (map (event_time_at (current_time_sec w) (len df)) (df_index df)) /\
  column "record_id" f = Some (map (fun i => CStr (str_of_int i)) (df_index df)) /\
  forall c,
    In c (feature_columns_names ++ [label_column])%list ->
    column c f = Some match column c df with
                      | Some vals => vals
                      | None => repeat (CNum 0%float) (len df)
                      end.
Proof.
  intros Hwf Hin.
  destruct (ingested_selected _ _ _ _ _ _ Hin) as (df1 & df2 & Hadd & Hfill & Hsel).
  destruct (synthetic_columns_keep (current_time_sec w) df Hwf)
    as (df1' & Hadd' & Hwf1 & He & Hr & Hkeep).
  rewrite Hadd in Hadd'. injection Hadd' as <-.
  destruct (fill_required_columns _ _ _ Hwf1 Hfill) as (Hwf2 & Hi2 & Hc2).
  destruct (add_synthetic_columns_ok (current_time_sec w) df) as (x & Hx & Hi1 & _).
  rewrite Hadd in Hx. injection Hx as <-.
  split; [apply (select_well_formed _ _ _ Hsel), Hwf2 |].
  pose proof Hsel as Hshape. unfold select in Hshape.
  destruct (positions required_cols (df_columns df2)); [discriminate |].
  injection Hshape as Hshape.
  split; [rewrite <- Hshape; cbn [df_index]; congruence |].
  split; [rewrite <- Hshape; reflexivity |].
  split; [rewrite (select_column _ _ _ "event_time" Hsel), Hc2, He by (cbn; tauto);
          reflexivity |].
  split; [rewrite (select_column _ _ _ "record_id" Hsel), Hc2, Hr by (cbn; tauto);
          reflexivity |].
  intros c Hc.
  assert (Hreq : In c required_cols /\ c <> "event_time" /\ c <> "record_id").
  { cbn in Hc. cbn [required_cols In].
    repeat (destruct Hc as [<- | Hc];
            [split; [tauto | split; discriminate] |]).
    contradiction. }
  destruct Hreq as (Hreq & Hne & Hnr).
  rewrite (select_column _ _ _ c Hsel Hreq), Hc2, (Hkeep c Hne Hnr).
  destruct (column c df); [reflexivity |].
  assert (Hex : existsb (String.eqb c) required_cols = true).
  { apply existsb_exists. exists c. split; [exact Hreq | apply String.eqb_refl]. }
  rewrite Hex. unfold len. rewrite Hi1. reflexivity.
Qed.

Lemma ingested_frame_witness :
  exists f,
    In f (ingested (fst (run (write_to_feature_store w_three frame_three
                                "abalone-features" "us-east-1" "role") tt))) /\
    (well_formed f /\
     df_index f = df_index frame_three /\
     df_columns f = map LStr required_cols /\
     column "event_time" f =
       Some (map (event_time_at (current_time_sec w_three) (len frame_three))
                 (df_index frame_three)) /\
     column "record_id" f =
       Some (map (fun i => CStr (str_of_int i)) (df_index frame_three)) /\
     forall c,
       In c (feature_columns_names ++ [label_column])%list ->
       column c f = Some match column c frame_three with
                         | Some vals => vals
                         | None => repeat (CNum 0%float) (len frame_three)
                         end).
Proof.
  eexists. split.
  - left. reflexivity.
  - apply (ingested_frame w_three frame_three "abalone-features" "us-east-1" "role").
    + apply well_formed_three.
    + left. reflexivity.
Defined.

End PreprocessFacts.
